(** * koa-cli-generator: name validation and configuration resolution

    A shallow embedding of [src/utils/validator.ts] (class [InputValidator])
    and of the configuration manager (class [ConfigurationManager], with the
    interfaces of [types] and [prompts] it works on), followed by the
    properties of the specification that concern them.

    Conventions.
    - A JavaScript string is a [string]: one [ascii] per UTF-16 code unit, for
      the code units U+0000..U+00FF.  The literals of the messages are kept as
      the UTF-8 text of the source; messages are built, never inspected.
    - A JavaScript number is a [Z]: ports and database indices are integers;
      fractions and NaN are outside the model.
    - A property of an object that may be missing is an [option]; [undefined]
      and a missing property are both [None].
    - A thrown [Error] is the left injection of its message. *)

From Stdlib Require Import Bool Arith NArith ZArith List Ascii String Lia.
From Stdlib Require Import DecimalString.
Import ListNotations.
Open Scope string_scope.

(* ================================================================= *)
(** ** JavaScript strings: the primitives the two classes rely on *)

Module Js.

Definition code (c : ascii) : N := N_of_ascii c.

Definition in_range (lo hi : N) (c : ascii) : bool :=
  ((lo <=? code c) && (code c <=? hi))%N.

(** [a-z], [A-Z], [0-9] *)
Definition is_lower : ascii -> bool := in_range 97 122.
Definition is_upper : ascii -> bool := in_range 65 90.
Definition is_digit : ascii -> bool := in_range 48 57.

Fixpoint one_of (cs : string) (c : ascii) : bool :=
  match cs with
  | EmptyString => false
  | String d cs' => Ascii.eqb c d || one_of cs' c
  end.

(** WhiteSpace and LineTerminator of ECMAScript below U+0100:
    TAB, LF, VT, FF, CR, SP, NBSP. *)
Definition is_space (c : ascii) : bool :=
  in_range 9 13 c || (code c =? 32)%N || (code c =? 160)%N.

(** [String.prototype.toLowerCase] on one code unit: A-Z, and the Latin-1
    capitals U+00C0..U+00DE except the multiplication sign U+00D7. *)
Definition toLowerChar (c : ascii) : ascii :=
  if is_upper c || in_range 192 214 c || in_range 216 222 c
  then ascii_of_N (code c + 32)
  else c.

Fixpoint map_chars (f : ascii -> ascii) (s : string) : string :=
  match s with
  | EmptyString => EmptyString
  | String c r => String (f c) (map_chars f r)
  end.

Definition toLowerCase : string -> string := map_chars toLowerChar.

Fixpoint all_chars (p : ascii -> bool) (s : string) : bool :=
  match s with
  | EmptyString => true
  | String c r => p c && all_chars p r
  end.

Fixpoint any_char (p : ascii -> bool) (s : string) : bool :=
  match s with
  | EmptyString => false
  | String c r => p c || any_char p r
  end.

Definition is_empty (s : string) : bool :=
  match s with EmptyString => true | String _ _ => false end.

(** [String.prototype.trim] *)
Fixpoint trimStart (s : string) : string :=
  match s with
  | EmptyString => EmptyString
  | String c r => if is_space c then trimStart r else s
  end.

Fixpoint trimEnd (s : string) : string :=
  match s with
  | EmptyString => EmptyString
  | String c r =>
      match trimEnd r with
      | EmptyString => if is_space c then EmptyString else String c EmptyString
      | r' => String c r'
      end
  end.

Definition trim (s : string) : string := trimEnd (trimStart s).

(** [Array.prototype.includes] on an array of strings *)
Definition includes (l : list string) (s : string) : bool :=
  existsb (String.eqb s) l.

(** [Array.prototype.join] *)
Definition join (sep : string) (l : list string) : string :=
  String.concat sep l.

(** [String.prototype.startsWith] *)
Definition startsWith (p s : string) : bool := String.prefix p s.

(** Truthiness of a string and of a number. *)
Definition truthy (s : string) : bool := negb (is_empty s).
Definition truthyZ (z : Z) : bool := negb (z =? 0)%Z.

(** [a || d] for an optional string, an optional number. *)
Definition or_str (a : option string) (d : string) : string :=
  match a with
  | Some s => if truthy s then s else d
  | None => d
  end.

Definition or_num (a : option Z) (d : Z) : Z :=
  match a with
  | Some z => if truthyZ z then z else d
  | None => d
  end.

(** A number in a template literal. *)
Definition numToString (z : Z) : string :=
  NilZero.string_of_int (Z.to_int z).

(** An optional string, an optional number in a template literal. *)
Definition show_str (a : option string) : string :=
  match a with Some s => s | None => "undefined" end.

Definition show_num (a : option Z) : string :=
  match a with Some z => numToString z | None => "undefined" end.

(** *** The shapes of regular expression the code uses, over a class [p] *)

(** [/^[p]+$/.test(s)] *)
Definition test_all (p : ascii -> bool) (s : string) : bool :=
  negb (is_empty s) && all_chars p s.

(** [/^[p]/.test(s)] *)
Definition test_first (p : ascii -> bool) (s : string) : bool :=
  match s with
  | EmptyString => false
  | String c _ => p c
  end.

(** [/[p]$/.test(s)] *)
Fixpoint test_last (p : ascii -> bool) (s : string) : bool :=
  match s with
  | EmptyString => false
  | String c EmptyString => p c
  | String _ r => test_last p r
  end.

(** [/[p]{2,}/.test(s)] *)
Fixpoint test_two (p : ascii -> bool) (s : string) : bool :=
  match s with
  | EmptyString => false
  | String c r => (p c && test_first p r) || test_two p r
  end.

(** [/[p]/.test(s)] *)
Definition test_any (p : ascii -> bool) (s : string) : bool := any_char p s.

(** The longest prefix of [s] in the class, and what follows it: what a
    greedy [[p]*] consumes at the head of [s]. *)
Fixpoint span (p : ascii -> bool) (s : string) : string * string :=
  match s with
  | EmptyString => (EmptyString, EmptyString)
  | String c r =>
      if p c then let (a, b) := span p r in (String c a, b) else (EmptyString, s)
  end.

(** [s.match(/^@([p]+)\/([p]+)$/)] is not null.  The class of the code
    excludes the slash, so the first group can only be the whole run of
    class characters after the at sign. *)
Definition match_scope (p : ascii -> bool) (s : string) : bool :=
  match s with
  | String "@" r =>
      let (scope, rest) := span p r in
      match rest with
      | String "/" pkg => negb (is_empty scope) && test_all p pkg
      | _ => false
      end
  | _ => false
  end.

(** [s.replace(/[^p]/g, '-')] *)
Definition replace_outside (p : ascii -> bool) (s : string) : string :=
  map_chars (fun c => if p c then c else "-"%char) s.

(** [s.replace(/^[p]+/, '')] *)
Fixpoint replace_leading (p : ascii -> bool) (s : string) : string :=
  match s with
  | EmptyString => EmptyString
  | String c r => if p c then replace_leading p r else s
  end.

(** [s.replace(/[p]+$/, '')]: the match starts at the leftmost position from
    which only class characters follow up to the end. *)
Fixpoint replace_trailing (p : ascii -> bool) (s : string) : string :=
  match s with
  | EmptyString => EmptyString
  | String c r =>
      if p c && all_chars p r then EmptyString
      else String c (replace_trailing p r)
  end.

(** [s.replace(/[p]+/g, '-')]: at a class character a match begins, one
    dash is written and the match runs as far as the class goes
    ([skip_run]); the search resumes behind it. *)
Fixpoint replace_runs (p : ascii -> bool) (s : string) : string :=
  match s with
  | EmptyString => EmptyString
  | String c r =>
      if p c then String "-" (skip_run p r) else String c (replace_runs p r)
  end
with skip_run (p : ascii -> bool) (s : string) : string :=
  match s with
  | EmptyString => EmptyString
  | String c r =>
      if p c then skip_run p r else String c (replace_runs p r)
  end.

End Js.

(* ================================================================= *)
(** ** [src/utils/validator.ts] *)

Module ValidationError.
Record t := mk { type : string; message : string }.
End ValidationError.

Module ValidationResult.
Record t := mk {
  valid : bool;
  errors : list ValidationError.t;
  warnings : list ValidationError.t
}.
End ValidationResult.

Module InputValidator.
Import Js.

(** The classes of the regular expressions of the validator. *)
Definition name_char (c : ascii) : bool :=      (* [a-z0-9._-] *)
  is_lower c || is_digit c || one_of "._-" c.
Definition name_char_i (c : ascii) : bool :=    (* [a-z0-9._-] under /i *)
  name_char c || is_upper c.
Definition dot_underscore : ascii -> bool := one_of "._".   (* [._] *)
Definition dot_dash : ascii -> bool := one_of ".-".         (* [.-] *)
Definition separator : ascii -> bool := one_of "._-".       (* [._-] *)

Definition reservedNames : list string :=
  [ "node_modules"; "favicon.ico"; "package.json"; "package-lock.json";
    "yarn.lock"; "pnpm-lock.yaml"; ".git"; ".gitignore"; ".env";
    "con"; "prn"; "aux"; "nul";
    "com1"; "com2"; "com3"; "com4"; "com5"; "com6"; "com7"; "com8"; "com9";
    "lpt1"; "lpt2"; "lpt3"; "lpt4"; "lpt5"; "lpt6"; "lpt7"; "lpt8"; "lpt9" ].

Definition quote : string := String (ascii_of_nat 34) EmptyString.

Definition error (ty msg : string) : ValidationError.t :=
  ValidationError.mk ty msg.

(** [if (cond) errors.push(e)], as the list of what is pushed. *)
Definition push_if {A : Type} (cond : bool) (e : A) : list A :=
  if cond then [e] else [].

Definition validateProjectName (name : string) : ValidationResult.t :=
  if is_empty name || (String.length (trim name) =? 0)%nat then
    ValidationResult.mk false [error "EMPTY_NAME" "项目名称不能为空"] []
  else
    let trimmedName := trim name in
    let errors :=
      (push_if (214 <? String.length trimmedName)%nat
        (error "NAME_TOO_LONG" "项目名称不能超过 214 个字符")
      ++ push_if (String.length trimmedName <? 1)%nat
        (error "NAME_TOO_SHORT" "项目名称至少需要 1 个字符")
      ++ push_if (negb (test_all name_char_i trimmedName))
        (error "INVALID_CHARACTERS"
           "项目名称只能包含字母、数字、点号(.)、下划线(_)和连字符(-)")
      ++ push_if (test_first dot_underscore trimmedName)
        (error "INVALID_START" "项目名称不能以点号(.)或下划线(_)开头")
      ++ push_if (test_last dot_dash trimmedName)
        (error "INVALID_END" "项目名称不能以点号(.)或连字符(-)结尾")
      ++ push_if (includes reservedNames (toLowerCase trimmedName))
        (error "RESERVED_NAME"
           (quote ++ trimmedName ++ quote ++ " 是保留名称，不能用作项目名称")%string)
      ++ push_if (startsWith "@" trimmedName
                  && negb (match_scope name_char_i trimmedName))
        (error "INVALID_SCOPE_FORMAT" "npm 作用域格式应为 @scope/package-name")
      ++ push_if (test_two dot_dash trimmedName)
        (error "CONSECUTIVE_SEPARATORS" "项目名称不能包含连续的点号或连字符"))%list
    in
    let warnings :=
      push_if (test_any is_upper trimmedName)
        (error "UPPERCASE_WARNING" "建议使用小写字母作为项目名称")
    in
    ValidationResult.mk (List.length errors =? 0)%nat errors warnings.

Definition suggestValidName (invalidName : string) : string :=
  let suggestion := toLowerCase (trim invalidName) in
  let suggestion := replace_outside name_char suggestion in
  let suggestion := replace_leading dot_underscore suggestion in
  let suggestion := replace_trailing dot_dash suggestion in
  let suggestion := replace_runs separator suggestion in
  let suggestion := if is_empty suggestion then "my-koa-app" else suggestion in
  if test_first is_digit suggestion then "app-" ++ suggestion else suggestion.

End InputValidator.

(* ================================================================= *)
(** ** [src/types]: the interfaces of the configuration

    An object of one of these interfaces is a record of optional properties:
    at run time any of them can be missing, whatever the interface requires
    (a configuration file is parsed, not type checked). *)

(** [{...low, ...high}] on one property. *)
Definition over {A : Type} (low high : option A) : option A :=
  match high with
  | Some v => Some v
  | None => low
  end.

Module FeatureSet.
Record t := mk {
  logging : option bool;
  cors : option bool;
  helmet : option bool;
  rateLimit : option bool;
  swagger : option bool;
  redis : option bool
}.
Definition empty : t := mk None None None None None None.
(** [{...a, ...b}] *)
Definition spread (a b : t) : t :=
  mk (over (logging a) (logging b)) (over (cors a) (cors b))
     (over (helmet a) (helmet b)) (over (rateLimit a) (rateLimit b))
     (over (swagger a) (swagger b)) (over (redis a) (redis b)).
End FeatureSet.

Module DatabaseConfig.
Record t := mk {
  type : option string;
  host : option string;
  port : option Z;
  database : option string;
  username : option string;
  password : option string
}.
Definition empty : t := mk None None None None None None.
Definition spread (a b : t) : t :=
  mk (over (type a) (type b)) (over (host a) (host b))
     (over (port a) (port b)) (over (database a) (database b))
     (over (username a) (username b)) (over (password a) (password b)).
End DatabaseConfig.

Module CacheConfig.
Record t := mk {
  type : option string;
  host : option string;
  port : option Z;
  password : option string;
  database : option Z
}.
Definition empty : t := mk None None None None None.
Definition spread (a b : t) : t :=
  mk (over (type a) (type b)) (over (host a) (host b))
     (over (port a) (port b)) (over (password a) (password b))
     (over (database a) (database b)).
End CacheConfig.

Module AuthConfig.
Record t := mk {
  type : option string;
  secret : option string;
  expiresIn : option string
}.
Definition empty : t := mk None None None.
Definition spread (a b : t) : t :=
  mk (over (type a) (type b)) (over (secret a) (secret b))
     (over (expiresIn a) (expiresIn b)).
End AuthConfig.

(** [{...target, ...source}] where [target] may be [undefined], which
    spreads to nothing. *)
Definition spread_onto {A : Type} (spread : A -> A -> A) (empty : A)
    (target : option A) (source : A) : A :=
  match target with
  | Some t => spread t source
  | None => spread empty source
  end.

Module ProjectConfiguration.
Record t := mk {
  name : string;
  template : string;
  features : FeatureSet.t;
  database : option DatabaseConfig.t;
  cache : option CacheConfig.t;
  authentication : option AuthConfig.t;
  packageManager : string;
  typescript : bool
}.
End ProjectConfiguration.

(** [Partial<ProjectConfiguration>] *)
Module PartialConfiguration.
Record t := mk {
  name : option string;
  template : option string;
  features : option FeatureSet.t;
  database : option DatabaseConfig.t;
  cache : option CacheConfig.t;
  authentication : option AuthConfig.t;
  packageManager : option string;
  typescript : option bool
}.
(** [{}] *)
Definition empty : t := mk None None None None None None None None.

(** [c.key = v] *)
Definition set_name v (c : t) : t :=
  mk v (template c) (features c) (database c) (cache c) (authentication c)
     (packageManager c) (typescript c).
Definition set_template v (c : t) : t :=
  mk (name c) v (features c) (database c) (cache c) (authentication c)
     (packageManager c) (typescript c).
Definition set_features v (c : t) : t :=
  mk (name c) (template c) v (database c) (cache c) (authentication c)
     (packageManager c) (typescript c).
Definition set_database v (c : t) : t :=
  mk (name c) (template c) (features c) v (cache c) (authentication c)
     (packageManager c) (typescript c).
Definition set_cache v (c : t) : t :=
  mk (name c) (template c) (features c) (database c) v (authentication c)
     (packageManager c) (typescript c).
Definition set_authentication v (c : t) : t :=
  mk (name c) (template c) (features c) (database c) (cache c) v
     (packageManager c) (typescript c).
Definition set_packageManager v (c : t) : t :=
  mk (name c) (template c) (features c) (database c) (cache c)
     (authentication c) v (typescript c).
Definition set_typescript v (c : t) : t :=
  mk (name c) (template c) (features c) (database c) (cache c)
     (authentication c) (packageManager c) v.
End PartialConfiguration.

Module ConfigurationPriority.
Record t := mk {
  commandLine : PartialConfiguration.t;
  configFile : PartialConfiguration.t;
  interactive : PartialConfiguration.t
}.
End ConfigurationPriority.

(** [src/prompts]: what the interactive prompter hands over. *)
Module PromptAnswers.
Record t := mk {
  template : string;
  features : FeatureSet.t;
  database : option DatabaseConfig.t;
  cache : option CacheConfig.t;
  authentication : option AuthConfig.t;
  typescript : bool;
  packageManager : string;
  installDependencies : bool;
  initGit : bool
}.
End PromptAnswers.

(* ================================================================= *)
(** ** The configuration manager *)

Module ConfigFileFormat.
Record t := mk {
  template : option string;
  typescript : option bool;
  packageManager : option string;
  features : option FeatureSet.t;
  database : option DatabaseConfig.t;
  cache : option CacheConfig.t;
  authentication : option AuthConfig.t;
  installDependencies : option bool;
  initGit : option bool
}.
Definition empty : t := mk None None None None None None None None None.
End ConfigFileFormat.

Module CommandLineOptions.
Record t := mk {
  template : option string;
  config : option string;
  skipInstall : option bool;
  packageManager : option string;
  typescript : option bool;
  git : option bool;
  force : option bool
}.
Definition empty : t := mk None None None None None None None.
End CommandLineOptions.

(** What the manager asks of its platform: the file system it reads, and the
    functions of [path], [JSON] and [js-yaml].  A parser answers with the
    object it read or with the message of the error it throws; a text that
    parses to something that is not an object is in the second case, with
    the message of the error of the first property access on it. *)
Module Platform.
Record World := mkWorld {
  pathExists : string -> bool;
  readFile : string -> string + string
}.
Record Lib := mkLib {
  extname : string -> string;
  JSON_parse : string -> string + ConfigFileFormat.t;
  yaml_load : string -> string + ConfigFileFormat.t
}.
End Platform.

(** Asynchronous code that may throw: a computation reads the world, hands
    it on, and ends in a value or in the message of an [Error]. *)
Module Async.
Import Platform.

Definition M (A : Type) : Type := World -> (string + A) * World.

Definition ret {A : Type} (a : A) : M A := fun w => (inr a, w).
Definition throw {A : Type} (msg : string) : M A := fun w => (inl msg, w).
Definition bind {A B : Type} (c : M A) (k : A -> M B) : M B :=
  fun w =>
    match c w with
    | (inr a, w') => k a w'
    | (inl msg, w') => (inl msg, w')
    end.
Definition try_catch {A : Type} (c : M A) (handler : string -> M A) : M A :=
  fun w =>
    match c w with
    | (inr a, w') => (inr a, w')
    | (inl msg, w') => handler msg w'
    end.
(** The result of a library call that may throw. *)
Definition lift {A : Type} (r : string + A) : M A := fun w => (r, w).

Definition fs_pathExists (p : string) : M bool :=
  fun w => (inr (pathExists w p), w).
Definition fs_readFile (p : string) : M string :=
  fun w => (readFile w p, w).
End Async.

Declare Scope async_scope.
Delimit Scope async_scope with async.
Notation "x <- c ;; k" := (Async.bind c (fun x => k))
  (at level 61, c at next level, right associativity) : async_scope.

(** The result of [validateConfiguration]. *)
Module ConfigurationValidation.
Record t := mk { valid : bool; errors : list string }.
End ConfigurationValidation.

Module ConfigurationManager.
Import Js.

Inductive Key : Type :=
| name | template | features | database | cache | authentication
| packageManager | typescript.

(** The keys a [for ... in] over a partial configuration can meet. *)
Definition keys : list Key :=
  [name; template; features; database; cache; authentication;
   packageManager; typescript].

Definition defaultFeatures : FeatureSet.t :=
  FeatureSet.mk (Some true) (Some true) (Some true)
                (Some false) (Some false) (Some false).

Definition convertConfigFileFormat (configData : ConfigFileFormat.t)
  : PartialConfiguration.t :=
  let config := PartialConfiguration.empty in
  let config :=
    match ConfigFileFormat.template configData with
    | Some v => if truthy v then PartialConfiguration.set_template (Some v) config
                else config
    | None => config
    end in
  let config :=
    match ConfigFileFormat.typescript configData with
    | Some v => PartialConfiguration.set_typescript (Some v) config
    | None => config
    end in
  let config :=
    match ConfigFileFormat.packageManager configData with
    | Some v => if truthy v then PartialConfiguration.set_packageManager (Some v) config
                else config
    | None => config
    end in
  let config :=
    match ConfigFileFormat.features configData with
    | Some f =>
        PartialConfiguration.set_features
          (Some (FeatureSet.spread defaultFeatures f)) config
    | None => config
    end in
  let config :=
    match ConfigFileFormat.database configData with
    | Some d =>
        PartialConfiguration.set_database
          (Some (DatabaseConfig.mk
                   (Some (or_str (DatabaseConfig.type d) "mysql"))
                   (Some (or_str (DatabaseConfig.host d) "localhost"))
                   (Some (or_num (DatabaseConfig.port d) 3306))
                   (Some (or_str (DatabaseConfig.database d) "myapp"))
                   None None)) config
    | None => config
    end in
  let config :=
    match ConfigFileFormat.cache configData with
    | Some c =>
        PartialConfiguration.set_cache
          (Some (CacheConfig.mk
                   (Some "redis")
                   (Some (or_str (CacheConfig.host c) "localhost"))
                   (Some (or_num (CacheConfig.port c) 6379))
                   None
                   (Some (or_num (CacheConfig.database c) 0)))) config
    | None => config
    end in
  let config :=
    match ConfigFileFormat.authentication configData with
    | Some a =>
        PartialConfiguration.set_authentication
          (Some (AuthConfig.mk
                   (Some (or_str (AuthConfig.type a) "jwt"))
                   None
                   (Some (or_str (AuthConfig.expiresIn a) "7d")))) config
    | None => config
    end in
  config.

Definition convertCommandLineOptions (options : CommandLineOptions.t)
  : PartialConfiguration.t :=
  let config := PartialConfiguration.empty in
  let config :=
    match CommandLineOptions.template options with
    | Some v => if truthy v then PartialConfiguration.set_template (Some v) config
                else config
    | None => config
    end in
  let config :=
    match CommandLineOptions.typescript options with
    | Some v => PartialConfiguration.set_typescript (Some v) config
    | None => config
    end in
  let config :=
    match CommandLineOptions.packageManager options with
    | Some v => if truthy v then PartialConfiguration.set_packageManager (Some v) config
                else config
    | None => config
    end in
  let config :=
    match CommandLineOptions.git options with
    | Some _ => config
    | None => config
    end in
  config.

Definition convertInteractiveAnswers (answers : PromptAnswers.t)
  : PartialConfiguration.t :=
  let config :=
    PartialConfiguration.mk None
      (Some (PromptAnswers.template answers))
      (Some (PromptAnswers.features answers))
      None None None
      (Some (PromptAnswers.packageManager answers))
      (Some (PromptAnswers.typescript answers)) in
  let config :=
    match PromptAnswers.database answers with
    | Some d => PartialConfiguration.set_database (Some d) config
    | None => config
    end in
  let config :=
    match PromptAnswers.cache answers with
    | Some c => PartialConfiguration.set_cache (Some c) config
    | None => config
    end in
  let config :=
    match PromptAnswers.authentication answers with
    | Some a => PartialConfiguration.set_authentication (Some a) config
    | None => config
    end in
  config.

(** One turn of the loop of [mergeConfig], at [key]: the new [target]. *)
Definition mergeKey (source target : PartialConfiguration.t) (key : Key)
  : PartialConfiguration.t :=
  match key with
  | features =>
      match PartialConfiguration.features source with
      | Some sourceValue =>
          PartialConfiguration.set_features
            (Some (spread_onto FeatureSet.spread FeatureSet.empty
                     (PartialConfiguration.features target) sourceValue))
            target
      | None => target
      end
  | database =>
      match PartialConfiguration.database source with
      | Some sourceValue =>
          PartialConfiguration.set_database
            (Some (spread_onto DatabaseConfig.spread DatabaseConfig.empty
                     (PartialConfiguration.database target) sourceValue))
            target
      | None => target
      end
  | cache =>
      match PartialConfiguration.cache source with
      | Some sourceValue =>
          PartialConfiguration.set_cache
            (Some (spread_onto CacheConfig.spread CacheConfig.empty
                     (PartialConfiguration.cache target) sourceValue))
            target
      | None => target
      end
  | authentication =>
      match PartialConfiguration.authentication source with
      | Some sourceValue =>
          PartialConfiguration.set_authentication
            (Some (spread_onto AuthConfig.spread AuthConfig.empty
                     (PartialConfiguration.authentication target) sourceValue))
            target
      | None => target
      end
  | name =>
      match PartialConfiguration.name source with
      | Some sourceValue => PartialConfiguration.set_name (Some sourceValue) target
      | None => target
      end
  | template =>
      match PartialConfiguration.template source with
      | Some sourceValue => PartialConfiguration.set_template (Some sourceValue) target
      | None => target
      end
  | packageManager =>
      match PartialConfiguration.packageManager source with
      | Some sourceValue =>
          PartialConfiguration.set_packageManager (Some sourceValue) target
      | None => target
      end
  | typescript =>
      match PartialConfiguration.typescript source with
      | Some sourceValue =>
          PartialConfiguration.set_typescript (Some sourceValue) target
      | None => target
      end
  end.

(** [mergeConfig] with the keys of [source] met in the order [order]; the
    function returns the target it has updated in place. *)
Definition mergeConfigIn (order : list Key)
    (target source : PartialConfiguration.t) : PartialConfiguration.t :=
  fold_left (mergeKey source) order target.

Definition mergeConfig : PartialConfiguration.t -> PartialConfiguration.t
                         -> PartialConfiguration.t :=
  mergeConfigIn keys.

Definition applyConfigurationPriority (configs : ConfigurationPriority.t)
  : PartialConfiguration.t :=
  let result := PartialConfiguration.empty in
  let result := mergeConfig result (ConfigurationPriority.interactive configs) in
  let result := mergeConfig result (ConfigurationPriority.configFile configs) in
  let result := mergeConfig result (ConfigurationPriority.commandLine configs) in
  result.

(** The object [finalConfig] that [mergeConfigurations] builds from the
    project name and the merged configuration, with its three optional
    properties attached. *)
Definition finalConfig (projectName : string)
    (mergedConfig : PartialConfiguration.t) : ProjectConfiguration.t :=
  ProjectConfiguration.mk
    projectName
    (or_str (PartialConfiguration.template mergedConfig) "basic")
    (FeatureSet.spread defaultFeatures
       (match PartialConfiguration.features mergedConfig with
        | Some f => f
        | None => FeatureSet.empty
        end))
    (PartialConfiguration.database mergedConfig)
    (PartialConfiguration.cache mergedConfig)
    (PartialConfiguration.authentication mergedConfig)
    (or_str (PartialConfiguration.packageManager mergedConfig) "pnpm")
    (match PartialConfiguration.typescript mergedConfig with
     | Some v => v
     | None => true
     end).

(** [interactiveAnswers ? this.convertInteractiveAnswers(interactiveAnswers) : {}] *)
Definition interactiveConfig (interactiveAnswers : option PromptAnswers.t)
  : PartialConfiguration.t :=
  match interactiveAnswers with
  | Some answers => convertInteractiveAnswers answers
  | None => PartialConfiguration.empty
  end.

Section WithPlatform.
Import Async.
Variable lib : Platform.Lib.
Local Open Scope async_scope.

Definition loadConfigFile (configPath : string) : M PartialConfiguration.t :=
  try_catch
    (found <- fs_pathExists configPath ;;
     if negb found then throw ("配置文件不存在: " ++ configPath)
     else
       fileContent <- fs_readFile configPath ;;
       let ext := toLowerCase (Platform.extname lib configPath) in
       configData <-
         (if ext =? ".json" then lift (Platform.JSON_parse lib fileContent)
          else if (ext =? ".yaml") || (ext =? ".yml")
               then lift (Platform.yaml_load lib fileContent)
               else throw ("不支持的配置文件格式: " ++ ext
                           ++ "。支持的格式: .json, .yaml, .yml")) ;;
       ret (convertConfigFileFormat configData))
    (fun message => throw ("配置文件解析失败: " ++ message)).

(** Step 1 of [mergeConfigurations]: the value of [configFileOptions]. *)
Definition configFileOptions (commandLineOptions : CommandLineOptions.t)
  : M PartialConfiguration.t :=
  match CommandLineOptions.config commandLineOptions with
  | Some configPath =>
      if truthy configPath then loadConfigFile configPath
      else ret PartialConfiguration.empty
  | None => ret PartialConfiguration.empty
  end.

Definition mergeConfigurations (projectName : string)
    (commandLineOptions : CommandLineOptions.t)
    (interactiveAnswers : option PromptAnswers.t)
  : M ProjectConfiguration.t :=
  configFileOptions <- configFileOptions commandLineOptions ;;
  let commandLineConfig := convertCommandLineOptions commandLineOptions in
  let interactiveConfig := interactiveConfig interactiveAnswers in
  let mergedConfig :=
    applyConfigurationPriority
      (ConfigurationPriority.mk commandLineConfig configFileOptions
                                interactiveConfig) in
  ret (finalConfig projectName mergedConfig).
End WithPlatform.

Definition validTemplates : list string := ["basic"; "api"; "fullstack"].
Definition validPackageManagers : list string := ["npm"; "yarn"; "pnpm"].
Definition validDatabaseTypes : list string := ["mysql"; "postgresql"; "mongodb"].
Definition validAuthTypes : list string := ["jwt"; "session"].

(** [includes] of a property that may be [undefined], which no array of
    strings includes. *)
Definition includes_opt (l : list string) (v : option string) : bool :=
  match v with
  | Some s => includes l s
  | None => false
  end.

(** [port < 1 || port > 65535]; both comparisons are false on [undefined]. *)
Definition port_out_of_range (port : option Z) : bool :=
  match port with
  | Some p => ((p <? 1) || (65535 <? p))%Z
  | None => false
  end.

Definition push_if := @InputValidator.push_if string.

Definition validateConfiguration (config : ProjectConfiguration.t)
  : ConfigurationValidation.t :=
  let errors :=
    (push_if (is_empty (ProjectConfiguration.name config)
              || (trim (ProjectConfiguration.name config) =? ""))
       "项目名称不能为空"
     ++ push_if (negb (includes validTemplates (ProjectConfiguration.template config)))
       ("无效的模板类型: " ++ ProjectConfiguration.template config
        ++ "。有效选项: " ++ join ", " validTemplates)%string
     ++ push_if (negb (includes validPackageManagers
                         (ProjectConfiguration.packageManager config)))
       ("无效的包管理器: " ++ ProjectConfiguration.packageManager config
        ++ "。有效选项: " ++ join ", " validPackageManagers)%string
     ++ match ProjectConfiguration.database config with
        | Some db =>
            push_if (negb (includes_opt validDatabaseTypes (DatabaseConfig.type db)))
              ("无效的数据库类型: " ++ show_str (DatabaseConfig.type db)
               ++ "。有效选项: " ++ join ", " validDatabaseTypes)%string
            ++ push_if (port_out_of_range (DatabaseConfig.port db))
              ("无效的数据库端口: " ++ show_num (DatabaseConfig.port db)
               ++ "。端口范围: 1-65535")%string
        | None => []
        end
     ++ match ProjectConfiguration.cache config with
        | Some ch =>
            push_if (negb (match CacheConfig.type ch with
                           | Some ty => ty =? "redis"
                           | None => false
                           end))
              ("无效的缓存类型: " ++ show_str (CacheConfig.type ch)
               ++ "。当前仅支持: redis")%string
            ++ push_if (port_out_of_range (CacheConfig.port ch))
              ("无效的缓存端口: " ++ show_num (CacheConfig.port ch)
               ++ "。端口范围: 1-65535")%string
        | None => []
        end
     ++ match ProjectConfiguration.authentication config with
        | Some au =>
            push_if (negb (includes_opt validAuthTypes (AuthConfig.type au)))
              ("无效的认证类型: " ++ show_str (AuthConfig.type au)
               ++ "。有效选项: " ++ join ", " validAuthTypes)%string
        | None => []
        end)%list
  in
  ConfigurationValidation.mk (List.length errors =? 0)%nat errors.

End ConfigurationManager.

(* ================================================================= *)
(** ** The rules on names, as the specification words them *)

Module NameRules.

Definition chars : string -> list ascii := list_ascii_of_string.

(** The name matches [^[a-z0-9._-]+$]. *)
Definition allowed (name : string) : Prop :=
  name <> EmptyString /\
  forall c, In c (chars name) ->
            In c (chars "abcdefghijklmnopqrstuvwxyz0123456789._-").

(** The name starts with, ends with one of the characters [cs]. *)
Definition starts_with (cs : list ascii) (name : string) : Prop :=
  exists c r, name = String c r /\ In c cs.

Definition ends_with (cs : list ascii) (name : string) : Prop :=
  exists r c, name = r ++ String c EmptyString /\ In c cs.

(** Two characters of [cs] follow each other somewhere in the name. *)
Definition consecutive (cs : list ascii) (name : string) : Prop :=
  exists a c d b, name = a ++ String c (String d b) /\ In c cs /\ In d cs.

(** The name has the form [@scope/package], both segments not empty and
    made of letters, digits, dots, underscores and dashes. *)
Definition scoped (name : string) : Prop :=
  exists scope pkg,
    name = "@" ++ scope ++ "/" ++ pkg /\
    scope <> EmptyString /\ pkg <> EmptyString /\
    forall c, In c (chars scope) \/ In c (chars pkg) ->
      In c (chars
        "abcdefghijklmnopqrstuvwxyzABCDEFGHIJKLMNOPQRSTUVWXYZ0123456789._-").

Definition has_error (ty : string) (r : ValidationResult.t) : Prop :=
  exists e, In e (ValidationResult.errors r) /\ ValidationError.type e = ty.

Definition has_warning (ty : string) (r : ValidationResult.t) : Prop :=
  exists e, In e (ValidationResult.warnings r) /\ ValidationError.type e = ty.

End NameRules.

(* ================================================================= *)
(** ** The steps of [suggestValidName], as the specification words them

    The companion operation of the name validator, step by step on the list
    of the characters of the name, with the list functions of the library
    and no regular expression. *)

Module SuggestionSteps.

Definition chars : string -> list ascii := list_ascii_of_string.
Definition text : list ascii -> string := string_of_list_ascii.

Definition member (cs : string) (c : ascii) : bool :=
  existsb (Ascii.eqb c) (chars cs).

Fixpoint drop_while (p : ascii -> bool) (l : list ascii) : list ascii :=
  match l with
  | [] => []
  | c :: r => if p c then drop_while p r else l
  end.

(** Lowercases the (trimmed) input. *)
Definition lowercase (name : string) : list ascii :=
  map Js.toLowerChar (chars (Js.trim name)).

(** Replaces disallowed characters with a dash. *)
Definition replace_disallowed (l : list ascii) : list ascii :=
  map (fun c =>
         if member "abcdefghijklmnopqrstuvwxyz0123456789._-" c then c
         else "-"%char) l.

(** Strips leading dots and underscores. *)
Definition strip_leading (l : list ascii) : list ascii :=
  drop_while (member "._") l.

(** Strips trailing dots and dashes. *)
Definition strip_trailing (l : list ascii) : list ascii :=
  rev (drop_while (member ".-") (rev l)).

(** Collapses the runs of dots, underscores and dashes into a single dash:
    of a run, every character that another one of the run follows goes, and
    the last one becomes the dash. *)
Fixpoint collapse (l : list ascii) : list ascii :=
  match l with
  | [] => []
  | c :: r =>
      if member "._-" c then
        match r with
        | d :: _ => if member "._-" d then collapse r else "-"%char :: collapse r
        | [] => ["-"%char]
        end
      else c :: collapse r
  end.

(** Falls back to a fixed default name if the result is empty. *)
Definition or_default (l : list ascii) : list ascii :=
  match l with
  | [] => chars "my-koa-app"
  | _ => l
  end.

(** Prefixes with a fixed token if the result starts with a digit. *)
Definition prefix_digit (l : list ascii) : list ascii :=
  match l with
  | c :: _ => if member "0123456789" c then (chars "app-" ++ l)%list else l
  | [] => l
  end.

Definition suggest (name : string) : string :=
  text (prefix_digit (or_default (collapse (strip_trailing (strip_leading
          (replace_disallowed (lowercase name))))))).

End SuggestionSteps.

(* ================================================================= *)
(** ** Priority between the sources, as the specification words it *)

Module Priority.

(** The value of the first source, highest priority first, that defines
    one. *)
Fixpoint first_defined {V : Type} (sources : list (option V)) : option V :=
  match sources with
  | [] => None
  | Some v :: _ => Some v
  | None :: rest => first_defined rest
  end.

(** A field of the three fragments, by priority: command line, then
    configuration file, then interactive answers. *)
Definition by_priority {V : Type} (field : PartialConfiguration.t -> option V)
    (configs : ConfigurationPriority.t) : option V :=
  first_defined [field (ConfigurationPriority.commandLine configs);
                 field (ConfigurationPriority.configFile configs);
                 field (ConfigurationPriority.interactive configs)].

(** The sub-key [key] of a nested object that may be missing. *)
Definition sub_key {O V : Type} (key : O -> option V) (object : option O)
  : option V :=
  match object with
  | Some o => key o
  | None => None
  end.

(** The value of an optional property, or a default. *)
Definition or_default {V : Type} (value : option V) (default : V) : V :=
  match value with
  | Some v => v
  | None => default
  end.

Definition Key_eqb (a b : ConfigurationManager.Key) : bool :=
  match a, b with
  | ConfigurationManager.name, ConfigurationManager.name
  | ConfigurationManager.template, ConfigurationManager.template
  | ConfigurationManager.features, ConfigurationManager.features
  | ConfigurationManager.database, ConfigurationManager.database
  | ConfigurationManager.cache, ConfigurationManager.cache
  | ConfigurationManager.authentication, ConfigurationManager.authentication
  | ConfigurationManager.packageManager, ConfigurationManager.packageManager
  | ConfigurationManager.typescript, ConfigurationManager.typescript => true
  | _, _ => false
  end.

(** An optional object of the interactive answers, when there are any. *)
Definition answered {V : Type} (field : PromptAnswers.t -> option V)
    (answers : option PromptAnswers.t) : option V :=
  match answers with
  | Some a => field a
  | None => None
  end.

Definition is_some {V : Type} (value : option V) : bool :=
  match value with
  | Some _ => true
  | None => false
  end.

(** The fragment [source] has a value under [key]: the keys a [for ... in]
    has to meet for [mergeConfig] to do its work. *)
Definition defines (source : PartialConfiguration.t)
    (key : ConfigurationManager.Key) : bool :=
  match key with
  | ConfigurationManager.name =>
      is_some (PartialConfiguration.name source)
  | ConfigurationManager.template =>
      is_some (PartialConfiguration.template source)
  | ConfigurationManager.features =>
      is_some (PartialConfiguration.features source)
  | ConfigurationManager.database =>
      is_some (PartialConfiguration.database source)
  | ConfigurationManager.cache =>
      is_some (PartialConfiguration.cache source)
  | ConfigurationManager.authentication =>
      is_some (PartialConfiguration.authentication source)
  | ConfigurationManager.packageManager =>
      is_some (PartialConfiguration.packageManager source)
  | ConfigurationManager.typescript =>
      is_some (PartialConfiguration.typescript source)
  end.

(** A nested object of the target after [mergeConfig] has met its key. *)
Definition nested {O : Type} (spread : O -> O -> O) (empty : O)
    (target source : option O) : option O :=
  match source with
  | Some sourceValue => Some (spread_onto spread empty target sourceValue)
  | None => target
  end.

(** The target after the loop of [mergeConfig] has met the keys [order]:
    field by field, the merged value where the key was met. *)
Definition merged_at (order : list ConfigurationManager.Key) (t s : PartialConfiguration.t)
  : PartialConfiguration.t :=
  let met k := existsb (Key_eqb k) order in
  PartialConfiguration.mk
    (if met ConfigurationManager.name
     then over (PartialConfiguration.name t) (PartialConfiguration.name s)
     else PartialConfiguration.name t)
    (if met ConfigurationManager.template
     then over (PartialConfiguration.template t) (PartialConfiguration.template s)
     else PartialConfiguration.template t)
    (if met ConfigurationManager.features
     then nested FeatureSet.spread FeatureSet.empty
            (PartialConfiguration.features t) (PartialConfiguration.features s)
     else PartialConfiguration.features t)
    (if met ConfigurationManager.database
     then nested DatabaseConfig.spread DatabaseConfig.empty
            (PartialConfiguration.database t) (PartialConfiguration.database s)
     else PartialConfiguration.database t)
    (if met ConfigurationManager.cache
     then nested CacheConfig.spread CacheConfig.empty
            (PartialConfiguration.cache t) (PartialConfiguration.cache s)
     else PartialConfiguration.cache t)
    (if met ConfigurationManager.authentication
     then nested AuthConfig.spread AuthConfig.empty
            (PartialConfiguration.authentication t)
            (PartialConfiguration.authentication s)
     else PartialConfiguration.authentication t)
    (if met ConfigurationManager.packageManager
     then over (PartialConfiguration.packageManager t)
               (PartialConfiguration.packageManager s)
     else PartialConfiguration.packageManager t)
    (if met ConfigurationManager.typescript
     then over (PartialConfiguration.typescript t)
               (PartialConfiguration.typescript s)
     else PartialConfiguration.typescript t).

End Priority.

(* ================================================================= *)
(** ** A run of the tool, for the examples *)

Module Scenario.

Definition configPath : string := "koa.config.yml".

(** What the configuration file says: the redis feature, and the port of a
    database. *)
Definition fileContent : string :=
  "{features: {redis: true}, database: {port: 5432}}".

Definition fileData : ConfigFileFormat.t :=
  ConfigFileFormat.mk None None None
    (Some (FeatureSet.mk None None None None None (Some true)))
    (Some (DatabaseConfig.mk None None (Some 5432%Z) None None None))
    None None None None.

Definition world : Platform.World :=
  Platform.mkWorld
    (fun path => path =? configPath)
    (fun path => if path =? configPath then inr fileContent
                 else inl "ENOENT: no such file or directory").

Definition lib : Platform.Lib :=
  Platform.mkLib
    (fun path => if path =? configPath then ".yml" else "")
    (fun _ => inl "Unexpected token")
    (fun content => if content =? fileContent then inr fileData
                    else inl "bad indentation of a mapping entry").

(** [koa create shop --config koa.config.yml --force] *)
Definition options : CommandLineOptions.t :=
  CommandLineOptions.mk None (Some configPath) None None None None (Some true).

(** The answers of a user who wants no feature at all, a PostgreSQL
    database and sessions. *)
Definition answers : PromptAnswers.t :=
  PromptAnswers.mk "api"
    (FeatureSet.mk (Some false) (Some false) (Some false)
                   (Some false) (Some false) (Some false))
    (Some (DatabaseConfig.mk (Some "postgresql") (Some "db.internal")
                             (Some 6432%Z) (Some "shop") None None))
    None
    (Some (AuthConfig.mk (Some "session") None None))
    true "npm" true true.

(** The fragments of the two examples of the specification. *)
Definition priorityExample : ConfigurationPriority.t :=
  ConfigurationPriority.mk
    (PartialConfiguration.mk None (Some "api") None None None None None None)
    (PartialConfiguration.mk None (Some "basic") None None None None None
                             (Some false))
    (PartialConfiguration.mk None (Some "basic") None None None None
                             (Some "npm") (Some true)).

Definition nestedExample : ConfigurationPriority.t :=
  ConfigurationPriority.mk
    (PartialConfiguration.set_features
       (Some (FeatureSet.mk None None None None None (Some true)))
       PartialConfiguration.empty)
    (PartialConfiguration.set_features
       (Some (FeatureSet.mk None (Some false) None None None (Some false)))
       PartialConfiguration.empty)
    PartialConfiguration.empty.


End Scenario.

(* ================================================================= *)
(** ** Two sentences of the specification, as they are written *)

Module Claimed.
Import Priority.

(** "A higher-priority source only overrides the specific sub-keys it
    defines, leaving sibling sub-keys from lower-priority sources intact",
    for the features, the configuration file [fileData] that the loader
    reads and the interactive answers: a feature the file leaves unset
    keeps, in the result of [mergeConfigurations], the value of the
    answers. *)
Definition keeps_the_sub_keys_of_the_answers
    (lib : Platform.Lib) (w : Platform.World) (projectName : string)
    (options : CommandLineOptions.t) (fileData : ConfigFileFormat.t)
    (answers : PromptAnswers.t) : Prop :=
  fst (ConfigurationManager.configFileOptions lib options w)
  = inr (ConfigurationManager.convertConfigFileFormat fileData) ->
  forall config,
    fst (ConfigurationManager.mergeConfigurations
           lib projectName options (Some answers) w) = inr config ->
    Forall (fun key : FeatureSet.t -> option bool =>
              sub_key key (ConfigFileFormat.features fileData) = None ->
              key (ProjectConfiguration.features config)
              = key (PromptAnswers.features answers))
           [FeatureSet.logging; FeatureSet.cors; FeatureSet.helmet;
            FeatureSet.rateLimit; FeatureSet.swagger; FeatureSet.redis].

(** "Unset/undefined fields are omitted, not defaulted, at this stage", for
    the sub-keys of the nested objects of a configuration file: a sub-key
    the file leaves unset is unset in the normalized fragment. *)
Definition omits_the_unset_sub_keys (fileData : ConfigFileFormat.t) : Prop :=
  let normalized := ConfigurationManager.convertConfigFileFormat fileData in
  Forall (fun key : FeatureSet.t -> option bool =>
            sub_key key (ConfigFileFormat.features fileData) = None ->
            sub_key key (PartialConfiguration.features normalized) = None)
         [FeatureSet.logging; FeatureSet.cors; FeatureSet.helmet;
          FeatureSet.rateLimit; FeatureSet.swagger; FeatureSet.redis]
  /\ Forall (fun key : DatabaseConfig.t -> option string =>
            sub_key key (ConfigFileFormat.database fileData) = None ->
            sub_key key (PartialConfiguration.database normalized) = None)
         [DatabaseConfig.type; DatabaseConfig.host; DatabaseConfig.database]
  /\ (sub_key DatabaseConfig.port (ConfigFileFormat.database fileData) = None ->
      sub_key DatabaseConfig.port (PartialConfiguration.database normalized)
      = None)
  /\ Forall (fun key : CacheConfig.t -> option string =>
            sub_key key (ConfigFileFormat.cache fileData) = None ->
            sub_key key (PartialConfiguration.cache normalized) = None)
         [CacheConfig.type; CacheConfig.host]
  /\ Forall (fun key : CacheConfig.t -> option Z =>
            sub_key key (ConfigFileFormat.cache fileData) = None ->
            sub_key key (PartialConfiguration.cache normalized) = None)
         [CacheConfig.port; CacheConfig.database]
  /\ Forall (fun key : AuthConfig.t -> option string =>
            sub_key key (ConfigFileFormat.authentication fileData) = None ->
            sub_key key (PartialConfiguration.authentication normalized) = None)
         [AuthConfig.type; AuthConfig.expiresIn].

End Claimed.

(* ================================================================= *)
(** ** The rules on a configuration, as the specification words them *)

Module ConfigRules.


Definition one_of (allowed : list string) (value : option string) : Prop :=
  exists v, value = Some v /\ In v allowed.












End ConfigRules.

(* ================================================================= *)
(** ** What the validator decides, rule by rule *)

Module NameVerdict.
Import NameRules.

Definition letters_digits_separators : list ascii :=
  chars "abcdefghijklmnopqrstuvwxyzABCDEFGHIJKLMNOPQRSTUVWXYZ0123456789._-".

(** Every character of the name is a letter, a digit, a dot, an underscore
    or a dash. *)
Definition only_allowed (name : string) : Prop :=
  forall c, In c (chars name) -> In c letters_digits_separators.

(** A name, once trimmed, that breaks no rule of the validator. *)
Definition well_formed (name : string) : Prop :=
  let trimmed := Js.trim name in
  trimmed <> EmptyString
  /\ (String.length trimmed <= 214)%nat
  /\ only_allowed trimmed
  /\ ~ starts_with ["."; "_"]%char trimmed
  /\ ~ ends_with ["."; "-"]%char trimmed
  /\ ~ In (Js.toLowerCase trimmed) InputValidator.reservedNames
  /\ ~ consecutive ["."; "-"]%char trimmed.

(** The characters a suggested name is made of. *)
Definition suggestion_alphabet : list ascii :=
  chars "abcdefghijklmnopqrstuvwxyz0123456789-".

Definition digits : list ascii := chars "0123456789".

(** [a-z0-9-], as a class. *)
Definition clean : ascii -> bool :=
  Js.one_of "abcdefghijklmnopqrstuvwxyz0123456789-".

(** The value of [suggestion] in [suggestValidName] after its four
    replacements, before the fallback and the prefix. *)
Definition collapsed (name : string) : string :=
  Js.replace_runs InputValidator.separator
    (Js.replace_trailing InputValidator.dot_dash
       (Js.replace_leading InputValidator.dot_underscore
          (Js.replace_outside InputValidator.name_char
             (Js.toLowerCase (Js.trim name))))).

End NameVerdict.

(* ================================================================= *)
(** ** The resolved configuration, in the words of the interfaces *)

Module Resolved.
Import Priority.

(** A string option as [if (value)] sees it: an empty string counts as no
    value. *)
Definition truthy_value (value : option string) : option string :=
  match value with
  | Some v => if Js.truthy v then Some v else None
  | None => None
  end.

(** A number option as [||] sees it: zero counts as no value. *)
Definition truthy_number (value : option Z) : option Z :=
  match value with
  | Some v => if Js.truthyZ v then Some v else None
  | None => None
  end.

(** The properties that the interfaces of [src/types] require. *)
Definition features_complete (f : FeatureSet.t) : Prop :=
  FeatureSet.logging f <> None /\ FeatureSet.cors f <> None
  /\ FeatureSet.helmet f <> None /\ FeatureSet.rateLimit f <> None
  /\ FeatureSet.swagger f <> None /\ FeatureSet.redis f <> None.

Definition database_complete (d : DatabaseConfig.t) : Prop :=
  DatabaseConfig.type d <> None /\ DatabaseConfig.host d <> None
  /\ DatabaseConfig.port d <> None /\ DatabaseConfig.database d <> None.

Definition cache_complete (c : CacheConfig.t) : Prop :=
  CacheConfig.type c <> None /\ CacheConfig.host c <> None
  /\ CacheConfig.port c <> None.

Definition authentication_complete (a : AuthConfig.t) : Prop :=
  AuthConfig.type a <> None.

(** An optional object is complete when it is missing or has the required
    properties. *)
Definition if_present {O : Type} (complete : O -> Prop) (object : option O)
  : Prop :=
  forall o, object = Some o -> complete o.

Definition answers_complete (answers : option PromptAnswers.t) : Prop :=
  forall a, answers = Some a ->
    features_complete (PromptAnswers.features a)
    /\ if_present database_complete (PromptAnswers.database a)
    /\ if_present cache_complete (PromptAnswers.cache a)
    /\ if_present authentication_complete (PromptAnswers.authentication a).

Definition configuration_complete (c : ProjectConfiguration.t) : Prop :=
  features_complete (ProjectConfiguration.features c)
  /\ if_present database_complete (ProjectConfiguration.database c)
  /\ if_present cache_complete (ProjectConfiguration.cache c)
  /\ if_present authentication_complete (ProjectConfiguration.authentication c).

(** What [validateConfiguration] reads of a configuration. *)
Definition validated_part (c : ProjectConfiguration.t) :=
  (ProjectConfiguration.name c,
   ProjectConfiguration.template c,
   ProjectConfiguration.packageManager c,
   option_map (fun d => (DatabaseConfig.type d, DatabaseConfig.port d))
              (ProjectConfiguration.database c),
   option_map (fun h => (CacheConfig.type h, CacheConfig.port h))
              (ProjectConfiguration.cache c),
   option_map AuthConfig.type (ProjectConfiguration.authentication c)).

End Resolved.

(* ================================================================= *)
(** ** The create command ([src/commands/create.ts])

    What [createProject] prints is left out; what it decides, reads,
    removes and throws is kept.  Besides the platform of the manager the
    command needs [path.resolve(process.cwd(), name)], [fs.remove] and the
    prompter; all three are parameters, the last two as computations that
    may change the world or throw. *)

Module CreateCommand.
Import Js Async.

(** [if (flag)] on an optional boolean, an optional string. *)
Definition truthy_flag (flag : option bool) : bool :=
  match flag with
  | Some b => b
  | None => false
  end.

Definition truthy_opt (value : option string) : bool :=
  match value with
  | Some v => truthy v
  | None => false
  end.

Section WithPlatform.
Variable lib : Platform.Lib.
Variable resolve : string -> string.
Variable fs_remove : string -> M unit.
Variable runPrompts : M PromptAnswers.t.
Local Open Scope async_scope.

Definition checkDirectoryConflict (targetPath : string) (force : option bool)
  : M unit :=
  found <- fs_pathExists targetPath ;;
  if found then
    if truthy_flag force then fs_remove targetPath
    else throw ("目录已存在: " ++ targetPath
                ++ "。使用 --force 选项强制覆盖。")
  else ret tt.

Definition needsInteractiveInput (options : CommandLineOptions.t) : M bool :=
  if truthy_opt (CommandLineOptions.config options)
  then try_catch (ret false) (fun _ => ret true)
  else ret true.

Definition createProject (projectName : string)
    (options : CommandLineOptions.t) : M unit :=
  let validationResult := InputValidator.validateProjectName projectName in
  if negb (ValidationResult.valid validationResult)
  then throw ("Invalid project name: " ++ projectName)
  else
    let targetPath := resolve projectName in
    checked <- checkDirectoryConflict targetPath
                 (CommandLineOptions.force options) ;;
    let commandLineOptions :=
      CommandLineOptions.mk
        (CommandLineOptions.template options)
        (CommandLineOptions.config options)
        (CommandLineOptions.skipInstall options)
        (CommandLineOptions.packageManager options)
        (CommandLineOptions.typescript options)
        (CommandLineOptions.git options)
        (CommandLineOptions.force options) in
    ask <- (if negb (truthy_opt (CommandLineOptions.config options))
            then ret true
            else needsInteractiveInput commandLineOptions) ;;
    interactiveAnswers <-
      (if (ask : bool) then answers <- runPrompts ;; ret (Some answers)
       else ret None) ;;
    projectConfig <-
      ConfigurationManager.mergeConfigurations lib projectName
        commandLineOptions interactiveAnswers ;;
    let configValidation :=
      ConfigurationManager.validateConfiguration projectConfig in
    if negb (ConfigurationValidation.valid configValidation)
    then throw "Configuration validation failed"
    else ret tt.
End WithPlatform.

(** Steps 5 and 6 of [createProject] as one outcome: the error of the
    merge, the error of the validation, or nothing. *)
Definition verdict (lib : Platform.Lib) (projectName : string)
    (options : CommandLineOptions.t) (answers : option PromptAnswers.t)
  : M unit :=
  fun w =>
    (match fst (ConfigurationManager.mergeConfigurations lib projectName
                  options answers w) with
     | inl message => inl message
     | inr config =>
         if ConfigurationValidation.valid
              (ConfigurationManager.validateConfiguration config)
         then inr tt
         else inl "Configuration validation failed"
     end, w).

End CreateCommand.

(** A world for the create command: the directory of the project shop is
    there, the configuration file of [Scenario] too; removing a directory
    makes its path free and keeps the rest. *)
Module CreateScenario.

Definition resolve (name : string) : string := "/work/" ++ name.

Definition world : Platform.World :=
  Platform.mkWorld
    (fun path => (path =? Scenario.configPath) || (path =? "/work/shop"))
    (Platform.readFile Scenario.world).

Definition fs_remove (path : string) : Async.M unit :=
  fun w =>
    (inr tt,
     Platform.mkWorld
       (fun p => if p =? path then false else Platform.pathExists w p)
       (Platform.readFile w)).

Definition runPrompts : Async.M PromptAnswers.t := Async.ret Scenario.answers.

(** A prompter that the user interrupts. *)
Definition interrupted : Async.M PromptAnswers.t :=
  Async.throw "User force closed the prompt".

End CreateScenario.

(* ================================================================= *)
(** * Properties *)

(** ** Characters and strings *)

Section StringFacts.
Import Js.
Variable p : ascii -> bool.

Lemma all_chars_In (s : string) :
  all_chars p s = true <->
  (forall c, In c (list_ascii_of_string s) -> p c = true).
Proof.
  induction s as [|c r IH]; simpl.
  - split; [intros _ c []|reflexivity].
  - rewrite andb_true_iff, IH. split.
    + intros [Hc Hr] d [<-|Hd]; auto.
    + intros H. split; [apply H; now left|intros d Hd; apply H; now right].
Qed.

Lemma test_first_inv (s : string) :
  test_first p s = true -> exists c r, s = String c r /\ p c = true.
Proof.
  destruct s as [|c r]; simpl; [discriminate|]. intros H. now exists c, r.
Qed.

Lemma test_last_inv (s : string) :
  test_last p s = true ->
  exists r c, s = r ++ String c EmptyString /\ p c = true.
Proof.
  induction s as [|c r IH]; simpl; [discriminate|].
  destruct r as [|d r'].
  - intros H. now exists EmptyString, c.
  - intros H. destruct (IH H) as (a & e & Ha & He).
    exists (String c a), e. simpl. now rewrite Ha.
Qed.

Lemma test_two_inv (s : string) :
  test_two p s = true ->
  exists a c d b, s = a ++ String c (String d b) /\ p c = true /\ p d = true.
Proof.
  induction s as [|c r IH]; simpl; [discriminate|].
  rewrite orb_true_iff, andb_true_iff. intros [[Hc Hr]|H].
  - destruct (test_first_inv _ Hr) as (d & b & -> & Hd).
    now exists EmptyString, c, d, b.
  - destruct (IH H) as (a & c' & d & b & -> & Hc & Hd).
    now exists (String c a), c', d, b.
Qed.

Lemma test_last_intro (r : string) (c : ascii) :
  p c = true -> test_last p (r ++ String c EmptyString) = true.
Proof.
  intros Hc. induction r as [|d r IH]; [exact Hc|].
  cbn [append test_last].
  destruct (r ++ String c EmptyString)%string eqn:Er; [now destruct r|exact IH].
Qed.

Lemma test_two_intro (a b : string) (c d : ascii) :
  p c = true -> p d = true ->
  test_two p (a ++ String c (String d b)) = true.
Proof.
  intros Hc Hd. induction a as [|e a IH].
  - cbn [append test_two test_first]. now rewrite Hc, Hd.
  - cbn [append test_two]. rewrite IH. apply orb_true_r.
Qed.

Lemma trimStart_id (s : string) :
  test_first is_space s = false -> trimStart s = s.
Proof. destruct s as [|c r]; simpl; [reflexivity|]. now intros ->. Qed.

Lemma trimEnd_id (s : string) :
  all_chars (fun c => negb (is_space c)) s = true -> trimEnd s = s.
Proof.
  induction s as [|c r IH]; simpl; [reflexivity|].
  rewrite andb_true_iff, negb_true_iff. intros [Hc Hr].
  rewrite (IH Hr), Hc. now destruct r.
Qed.

Lemma all_chars_impl (q : ascii -> bool) (s : string) :
  (forall c, p c = true -> q c = true) ->
  all_chars p s = true -> all_chars q s = true.
Proof.
  intros Hpq. induction s as [|c r IH]; simpl; [reflexivity|].
  rewrite !andb_true_iff. intros [Hc Hr]. auto.
Qed.

Lemma map_chars_id (f : ascii -> ascii) (s : string) :
  (forall c, p c = true -> f c = c) ->
  all_chars p s = true -> map_chars f s = s.
Proof.
  intros Hf. induction s as [|c r IH]; simpl; [reflexivity|].
  rewrite andb_true_iff. intros [Hc Hr]. now rewrite Hf, IH.
Qed.

Lemma span_all (a b : string) :
  all_chars p a = true -> test_first p b = false ->
  span p (a ++ b) = (a, b).
Proof.
  intros Ha Hb. induction a as [|c r IH]; simpl in *.
  - destruct b as [|d b']; simpl in *; [reflexivity|now rewrite Hb].
  - apply andb_true_iff in Ha as [Hc Hr]. now rewrite Hc, (IH Hr).
Qed.
End StringFacts.

Lemma includes_In (l : list string) (s : string) :
  Js.includes l s = true <-> In s l.
Proof.
  unfold Js.includes. rewrite existsb_exists. split.
  - intros (x & Hx & He). apply String.eqb_eq in He. now subst.
  - intros H. exists s. split; [assumption|apply String.eqb_refl].
Qed.

(** The class of the names keeps clear of white space, of capitals and of
    the at sign, and lowering a character of the class leaves it alone. *)
Lemma name_char_facts (c : ascii) :
  InputValidator.name_char c = true ->
  Js.is_space c = false /\ Js.toLowerChar c = c /\ Js.is_upper c = false
  /\ c <> "@"%char /\ c <> "/"%char.
Proof.
  destruct c as [[] [] [] [] [] [] [] []]; vm_compute;
    intros H; try discriminate H; repeat split; discriminate.
Qed.

Lemma one_of_In (cs : string) (c : ascii) :
  Js.one_of cs c = true <-> In c (list_ascii_of_string cs).
Proof.
  induction cs as [|d r IH]; simpl.
  - split; [discriminate|intros []].
  - rewrite orb_true_iff, IH, Ascii.eqb_eq. intuition congruence.
Qed.

Lemma name_char_alphabet (c : ascii) :
  InputValidator.name_char c
  = Js.one_of "abcdefghijklmnopqrstuvwxyz0123456789._-" c.
Proof. destruct c as [[] [] [] [] [] [] [] []]; reflexivity. Qed.

Lemma name_char_i_alphabet (c : ascii) :
  InputValidator.name_char_i c
  = Js.one_of
      "abcdefghijklmnopqrstuvwxyzABCDEFGHIJKLMNOPQRSTUVWXYZ0123456789._-" c.
Proof. destruct c as [[] [] [] [] [] [] [] []]; reflexivity. Qed.

Lemma length_eqb_0 {A : Type} (l : list A) :
  (List.length l =? 0)%nat = true <-> l = [].
Proof. destruct l; simpl; split; congruence. Qed.

Section NameValidation.
Import Js InputValidator NameRules.
Import ValidationResult.

Lemma allowed_all_chars (name : string) :
  allowed name -> is_empty name = false /\ all_chars name_char name = true.
Proof.
  intros [Hne Hin]. split; [now destruct name|].
  apply all_chars_In. intros c Hc.
  rewrite name_char_alphabet. apply one_of_In. now apply Hin.
Qed.

Lemma allowed_trim (name : string) :
  all_chars name_char name = true -> trim name = name.
Proof.
  intros H. unfold trim.
  assert (Hs : trimStart name = name).
  { apply trimStart_id. destruct name as [|c r]; [reflexivity|].
    simpl in *. apply andb_true_iff in H as [Hc _].
    now apply name_char_facts in Hc. }
  rewrite Hs. apply trimEnd_id.
  revert H. apply all_chars_impl. intros c Hc.
  apply name_char_facts in Hc as (-> & _). reflexivity.
Qed.

Lemma allowed_lower (name : string) :
  all_chars name_char name = true -> toLowerCase name = name.
Proof.
  apply map_chars_id. intros c Hc. now apply name_char_facts in Hc.
Qed.

Lemma valid_iff_no_error (name : string) :
  valid (validateProjectName name) = true
  <-> errors (validateProjectName name) = [].
Proof.
  unfold validateProjectName.
  destruct (is_empty name || (String.length (trim name) =? 0)%nat); simpl.
  - split; discriminate.
  - apply length_eqb_0.
Qed.

Lemma startsWith_at (s : string) :
  startsWith "@" s = true <-> exists r, s = String "@" r.
Proof.
  unfold startsWith. destruct s as [|c r]; cbn [prefix].
  - split; [discriminate|intros [r Hr]; discriminate].
  - destruct (ascii_dec "@" c) as [<-|Hne].
    + split; [now exists r|now destruct r].
    + split; [discriminate|intros [r' Hr]; congruence].
Qed.

Lemma In_push_if {A : Type} (cond : bool) (x e : A) :
  In e (push_if cond x) <-> cond = true /\ e = x.
Proof.
  destruct cond; simpl; split.
  - intros [<-|[]]. now split.
  - intros [_ ->]. now left.
  - intros [].
  - intros [H _]. discriminate H.
Qed.

Lemma match_scope_segments (q : ascii -> bool) (scope pkg : string) :
  q "/"%char = false ->
  is_empty scope = false -> is_empty pkg = false ->
  all_chars q scope = true -> all_chars q pkg = true ->
  match_scope q ("@" ++ scope ++ "/" ++ pkg) = true.
Proof.
  intros Hslash Hs Hp Has Hap. cbn [append match_scope].
  rewrite (span_all q scope (String "/" pkg) Has Hslash).
  unfold test_all. now rewrite Hs, Hp, Hap.
Qed.

Lemma starts_with_test (cs name : string) :
  starts_with (chars cs) name <-> test_first (one_of cs) name = true.
Proof.
  split.
  - intros (c & r & -> & Hc). now apply one_of_In.
  - intros H. destruct (test_first_inv _ _ H) as (c & r & Hn & Hc).
    exists c, r. split; [assumption|now apply one_of_In].
Qed.

Lemma ends_with_test (cs name : string) :
  ends_with (chars cs) name <-> test_last (one_of cs) name = true.
Proof.
  split.
  - intros (r & c & -> & Hc). apply test_last_intro. now apply one_of_In.
  - intros H. destruct (test_last_inv _ _ H) as (r & c & Hn & Hc).
    exists r, c. split; [assumption|now apply one_of_In].
Qed.

Lemma consecutive_test (cs name : string) :
  consecutive (chars cs) name <-> test_two (one_of cs) name = true.
Proof.
  split.
  - intros (a & c & d & b & -> & Hc & Hd).
    apply test_two_intro; now apply one_of_In.
  - intros H. destruct (test_two_inv _ _ H) as (a & c & d & b & Hn & Hc & Hd).
    exists a, c, d, b. repeat split; [assumption| |]; now apply one_of_In.
Qed.

Lemma not_true_false (b : bool) : b <> true -> b = false.
Proof. now destruct b. Qed.

(** The errors of a name that is not blank, rule by rule. *)
Lemma errors_not_blank (name : string) :
  is_empty name || (String.length (trim name) =? 0)%nat = false ->
  errors (validateProjectName name)
  = (push_if (214 <? String.length (trim name))%nat
       (error "NAME_TOO_LONG" "项目名称不能超过 214 个字符")
     ++ push_if (String.length (trim name) <? 1)%nat
       (error "NAME_TOO_SHORT" "项目名称至少需要 1 个字符")
     ++ push_if (negb (test_all name_char_i (trim name)))
       (error "INVALID_CHARACTERS"
          "项目名称只能包含字母、数字、点号(.)、下划线(_)和连字符(-)")
     ++ push_if (test_first dot_underscore (trim name))
       (error "INVALID_START" "项目名称不能以点号(.)或下划线(_)开头")
     ++ push_if (test_last dot_dash (trim name))
       (error "INVALID_END" "项目名称不能以点号(.)或连字符(-)结尾")
     ++ push_if (includes reservedNames (toLowerCase (trim name)))
       (error "RESERVED_NAME"
          (quote ++ trim name ++ quote ++ " 是保留名称，不能用作项目名称")%string)
     ++ push_if (startsWith "@" (trim name)
                 && negb (match_scope name_char_i (trim name)))
       (error "INVALID_SCOPE_FORMAT" "npm 作用域格式应为 @scope/package-name")
     ++ push_if (test_two dot_dash (trim name))
       (error "CONSECUTIVE_SEPARATORS" "项目名称不能包含连续的点号或连字符"))%list.
Proof. intros H. unfold validateProjectName. now rewrite H. Qed.

Lemma warnings_not_blank (name : string) :
  is_empty name || (String.length (trim name) =? 0)%nat = false ->
  warnings (validateProjectName name)
  = push_if (test_any is_upper (trim name))
      (error "UPPERCASE_WARNING" "建议使用小写字母作为项目名称").
Proof. intros H. unfold validateProjectName. now rewrite H. Qed.

Lemma not_blank (name : string) :
  trim name <> EmptyString ->
  is_empty name || (String.length (trim name) =? 0)%nat = false.
Proof.
  intros H. destruct name as [|c r]; [now elim H|].
  cbn [is_empty orb]. destruct (trim (String c r)); [now elim H|reflexivity].
Qed.

Lemma is_upper_alphabet (c : ascii) :
  is_upper c = one_of "ABCDEFGHIJKLMNOPQRSTUVWXYZ" c.
Proof. destruct c as [[] [] [] [] [] [] [] []]; reflexivity. Qed.

Lemma any_char_In (q : ascii -> bool) (s : string) (c : ascii) :
  In c (chars s) -> q c = true -> any_char q s = true.
Proof.
  induction s as [|d r IH]; simpl; [intros []|].
  intros [->|Hc] Hq; rewrite orb_true_iff; [now left|right; auto].
Qed.

(** C6. Every name that matches [^[a-z0-9._-]+$], has 1 to 214 characters,
    is not a reserved name, does not start with a dot or an underscore,
    does not end with a dot or a dash and has no two dots or dashes in a
    row is valid; for every input the result is valid exactly when its list
    of errors is empty, whatever the warnings: a name with a capital
    letter gets the warning UPPERCASE_WARNING, and "My-App" is valid with
    that warning. *)
Theorem validateProjectName_accepts_valid_names :
  (forall name : string,
      allowed name ->
      (1 <= String.length name <= 214)%nat ->
      ~ In name reservedNames ->
      ~ starts_with ["."; "_"]%char name ->
      ~ ends_with ["."; "-"]%char name ->
      ~ consecutive ["."; "-"]%char name ->
      valid (validateProjectName name) = true)
  /\ (forall name : string,
         valid (validateProjectName name) = true
         <-> errors (validateProjectName name) = [])
  /\ (forall (name : string) (c : ascii),
         In c (chars (trim name)) ->
         In c (chars "ABCDEFGHIJKLMNOPQRSTUVWXYZ") ->
         has_warning "UPPERCASE_WARNING" (validateProjectName name))
  /\ (valid (validateProjectName "My-App") = true
      /\ has_warning "UPPERCASE_WARNING" (validateProjectName "My-App")).
Proof.
  split; [|split; [exact valid_iff_no_error|split]].
  - intros name Hal Hlen Hres Hst Hen Hco.
    destruct (allowed_all_chars _ Hal) as [Hne Hall].
    apply valid_iff_no_error.
    assert (Htrim : trim name = name) by now apply allowed_trim.
    rewrite errors_not_blank
      by (apply not_blank; rewrite Htrim; now destruct name).
    rewrite Htrim, (allowed_lower _ Hall).
    assert (H1 : (214 <? String.length name)%nat = false)
      by (apply Nat.ltb_ge; lia).
    assert (H2 : (String.length name <? 1)%nat = false)
      by (apply Nat.ltb_ge; lia).
    assert (H3 : test_all name_char_i name = true).
    { unfold test_all. rewrite Hne. cbn [negb andb].
      revert Hall. apply all_chars_impl. intros c Hc.
      unfold name_char_i. now rewrite Hc. }
    assert (H4 : test_first dot_underscore name = false).
    { apply not_true_false. intros E. apply Hst.
      now apply (starts_with_test "._"). }
    assert (H5 : test_last dot_dash name = false).
    { apply not_true_false. intros E. apply Hen.
      now apply (ends_with_test ".-"). }
    assert (H6 : includes reservedNames name = false).
    { apply not_true_false. intros E. now apply includes_In in E. }
    assert (H7 : startsWith "@" name = false).
    { apply not_true_false. intros E.
      apply startsWith_at in E as [r ->]. simpl in Hall. discriminate Hall. }
    assert (H8 : test_two dot_dash name = false).
    { apply not_true_false. intros E. apply Hco.
      now apply (consecutive_test ".-"). }
    rewrite H1, H2, H3, H4, H5, H6, H7, H8. reflexivity.
  - intros name c Hc Hup.
    assert (Hnb : trim name <> EmptyString)
      by (intros E; rewrite E in Hc; exact Hc).
    unfold has_warning. rewrite (warnings_not_blank _ (not_blank _ Hnb)).
    unfold test_any. rewrite (any_char_In is_upper _ c Hc).
    + eexists. split; [now left|reflexivity].
    + rewrite is_upper_alphabet. now apply one_of_In.
  - split; [reflexivity|]. eexists. split; [now left|reflexivity].
Qed.

(** A name of the rules of C6, and what the validator says of it. *)
Lemma validateProjectName_accepts_valid_names_witness :
  valid (validateProjectName "koa-api.server_2") = true.
Proof.
  apply (proj1 validateProjectName_accepts_valid_names).
  - split; [discriminate|].
    intros c Hc. vm_compute in Hc. vm_compute.
    repeat (destruct Hc as [<-|Hc]; [tauto|]). destruct Hc.
  - vm_compute. split; repeat constructor.
  - vm_compute. intros H.
    repeat (destruct H as [H|H]; [discriminate H|]). exact H.
  - intros H. apply (starts_with_test "._") in H. discriminate H.
  - intros H. apply (ends_with_test ".-") in H. discriminate H.
  - intros H. apply (consecutive_test ".-") in H. discriminate H.
Defined.

Lemma scoped_match (name : string) :
  scoped name -> match_scope name_char_i name = true.
Proof.
  intros (scope & pkg & -> & Hs & Hp & Hin).
  assert (Hall : forall t, (forall c, In c (chars t) ->
                   In c (chars scope) \/ In c (chars pkg)) ->
                 all_chars name_char_i t = true).
  { intros t Ht. apply all_chars_In. intros c Hc.
    rewrite name_char_i_alphabet. apply one_of_In. apply Hin. now apply Ht. }
  apply match_scope_segments.
  - reflexivity.
  - now destruct scope.
  - now destruct pkg.
  - apply Hall. now left.
  - apply Hall. now right.
Qed.

(** C9. A name whose trimmed form starts with an at sign is never valid: it
    gets the error INVALID_CHARACTERS, also when it has the form
    [@scope/name] with both segments in the allowed class, and then it gets
    no error INVALID_SCOPE_FORMAT. *)
Theorem validateProjectName_rejects_scoped_names (name : string) :
  (exists r, trim name = String "@" r) ->
  valid (validateProjectName name) = false
  /\ has_error "INVALID_CHARACTERS" (validateProjectName name)
  /\ (scoped (trim name) ->
      ~ has_error "INVALID_SCOPE_FORMAT" (validateProjectName name)).
Proof.
  intros [r Hr].
  assert (Hnb : is_empty name || (String.length (trim name) =? 0)%nat = false)
    by (apply not_blank; rewrite Hr; discriminate).
  assert (Herr : has_error "INVALID_CHARACTERS" (validateProjectName name)).
  { unfold has_error. rewrite (errors_not_blank _ Hnb).
    exists (error "INVALID_CHARACTERS"
              "项目名称只能包含字母、数字、点号(.)、下划线(_)和连字符(-)").
    split; [|reflexivity].
    do 2 (apply in_or_app; right). apply in_or_app; left.
    apply In_push_if. split; [|reflexivity]. now rewrite Hr. }
  split; [|split; [exact Herr|]].
  - apply not_true_false. intros Hv. apply valid_iff_no_error in Hv.
    destruct Herr as (e & He & _). rewrite Hv in He. exact He.
  - intros Hsc (e & He & Hty).
    rewrite (errors_not_blank _ Hnb) in He.
    rewrite (scoped_match _ Hsc), andb_false_r in He.
    repeat (apply in_app_or in He as [He|He]);
      apply In_push_if in He as [Hc ->]; discriminate.
Qed.

(** The scoped name of the naming rules of the validator itself. *)
Lemma validateProjectName_rejects_scoped_names_witness :
  valid (validateProjectName "@myorg/my-package") = false
  /\ has_error "INVALID_CHARACTERS" (validateProjectName "@myorg/my-package")
  /\ ~ has_error "INVALID_SCOPE_FORMAT"
         (validateProjectName "@myorg/my-package").
Proof.
  destruct (validateProjectName_rejects_scoped_names "@myorg/my-package")
    as (Hv & He & Hs).
  - now exists "myorg/my-package".
  - split; [exact Hv|split; [exact He|]]. apply Hs.
    exists "myorg", "my-package".
    split; [reflexivity|split; [discriminate|split; [discriminate|]]].
    intros c Hc. vm_compute in Hc. vm_compute.
    destruct Hc as [Hc|Hc];
      repeat (destruct Hc as [<-|Hc]; [tauto|]); destruct Hc.
Defined.
End NameValidation.

(** ** [suggestValidName] against its steps *)

Section Suggestion.
Import Js InputValidator SuggestionSteps.

Lemma member_one_of (cs : string) (c : ascii) : member cs c = one_of cs c.
Proof.
  unfold member, chars. induction cs as [|d r IH]; simpl; [reflexivity|].
  now rewrite IH.
Qed.

Lemma chars_text (l : list ascii) : chars (text l) = l.
Proof. apply list_ascii_of_string_of_list_ascii. Qed.

Lemma text_chars (s : string) : text (chars s) = s.
Proof. apply string_of_list_ascii_of_string. Qed.

Lemma chars_map (f : ascii -> ascii) (s : string) :
  chars (map_chars f s) = map f (chars s).
Proof. induction s as [|c r IH]; simpl; [reflexivity|]. f_equal. exact IH. Qed.

Lemma chars_leading (p : ascii -> bool) (s : string) :
  chars (replace_leading p s) = drop_while p (chars s).
Proof.
  induction s as [|c r IH]; simpl; [reflexivity|]. now destruct (p c).
Qed.

Lemma all_chars_forallb (p : ascii -> bool) (s : string) :
  all_chars p s = forallb p (chars s).
Proof. induction s as [|c r IH]; simpl; [reflexivity|]. now rewrite IH. Qed.

Lemma drop_while_app (p : ascii -> bool) (a b : list ascii) :
  drop_while p (a ++ b)
  = if forallb p a then drop_while p b else (drop_while p a ++ b)%list.
Proof.
  induction a as [|c r IH]; simpl; [reflexivity|].
  destruct (p c); simpl; [exact IH|reflexivity].
Qed.

Lemma drop_while_ext (p q : ascii -> bool) (l : list ascii) :
  (forall c, p c = q c) -> drop_while p l = drop_while q l.
Proof.
  intros H. induction l as [|c r IH]; simpl; [reflexivity|].
  now rewrite H, IH.
Qed.

Lemma drop_while_all (p : ascii -> bool) (l : list ascii) :
  forallb p l = true -> drop_while p l = [].
Proof.
  induction l as [|c r IH]; simpl; [reflexivity|].
  rewrite andb_true_iff. intros [-> Hr]. auto.
Qed.

Lemma forallb_rev (p : ascii -> bool) (l : list ascii) :
  forallb p (rev l) = forallb p l.
Proof.
  induction l as [|c r IH]; simpl; [reflexivity|].
  rewrite forallb_app, IH. simpl. rewrite andb_true_r. apply andb_comm.
Qed.

(** The match of [/[p]+$/], found from the left, is the longest run of
    class characters at the end. *)
Lemma chars_trailing (p : ascii -> bool) (s : string) :
  chars (replace_trailing p s) = rev (drop_while p (rev (chars s))).
Proof.
  induction s as [|c r IH]; simpl; [reflexivity|].
  rewrite drop_while_app, forallb_rev, <- all_chars_forallb.
  destruct (all_chars p r) eqn:Hr.
  - rewrite andb_true_r. simpl. destruct (p c); simpl; [reflexivity|].
    f_equal. rewrite IH, drop_while_all; [reflexivity|].
    now rewrite forallb_rev, <- all_chars_forallb.
  - rewrite andb_false_r. simpl. rewrite rev_app_distr. simpl.
    f_equal. exact IH.
Qed.

(** One dash per run, whether it is written when the run starts, as the
    global replacement does, or when it ends. *)
Lemma chars_runs (s : string) :
  chars (replace_runs separator s) = collapse (chars s)
  /\ (if test_first separator s
      then collapse (chars s) = "-"%char :: chars (skip_run separator s)
      else chars (skip_run separator s) = collapse (chars s)).
Proof.
  induction s as [|c r [IH1 IH2]]; [now split|].
  cbn [replace_runs skip_run test_first chars list_ascii_of_string collapse].
  rewrite member_one_of. fold separator. fold (chars r).
  destruct (separator c) eqn:Hc.
  - assert (H : collapse (c :: chars r)
                = "-"%char :: chars (skip_run separator r)).
    { cbn [collapse]. rewrite member_one_of. fold separator. rewrite Hc.
      destruct r as [|d r']; [reflexivity|].
      cbn [chars list_ascii_of_string]. fold (chars r').
      rewrite member_one_of. fold separator.
      cbn [test_first] in IH2.
      destruct (separator d); [exact IH2|now rewrite IH2]. }
    cbn [collapse] in H. rewrite member_one_of in H. fold separator in H.
    rewrite Hc in H. cbn [chars list_ascii_of_string]. fold (chars (skip_run separator r)).
    split; [symmetry; exact H|exact H].
  - cbn [chars list_ascii_of_string]. fold (chars (replace_runs separator r)).
    rewrite IH1. now split.
Qed.

(** C7. [suggestValidName] is a function of its argument alone, and it is
    the composition, in this order, of: lowercasing the trimmed input,
    replacing the characters outside [a-z0-9._-] with a dash, stripping the
    leading dots and underscores, stripping the trailing dots and dashes,
    collapsing the runs of dots, underscores and dashes into one dash,
    falling back to "my-koa-app" when nothing is left, and prefixing "app-"
    to a result that starts with a digit; "My--App!" gives "my-app". *)
Theorem suggestValidName_steps :
  (forall name : string, suggestValidName name = suggest name)
  /\ suggestValidName "My--App!" = "my-app".
Proof.
  split; [|reflexivity].
  intros name. unfold suggestValidName, suggest.
  set (s := replace_runs separator _).
  set (l := collapse _).
  assert (Hsl : chars s = l).
  { subst s l. rewrite (proj1 (chars_runs _)). f_equal.
    rewrite chars_trailing. unfold strip_trailing. f_equal.
    unfold dot_dash. erewrite drop_while_ext; [f_equal; f_equal|].
    - rewrite chars_leading. unfold strip_leading.
      erewrite drop_while_ext; [f_equal|].
      + unfold replace_outside, toLowerCase. rewrite !chars_map.
        unfold replace_disallowed, lowercase.
        apply map_ext. intros c.
        now rewrite member_one_of, name_char_alphabet.
      + intros c. symmetry. apply member_one_of.
    - intros c. symmetry. apply member_one_of. }
  rewrite <- (text_chars s), Hsl. clear Hsl s.
  destruct l as [|c r]; [reflexivity|].
  cbn [text string_of_list_ascii is_empty or_default prefix_digit test_first].
  rewrite member_one_of.
  replace (one_of "0123456789" c) with (is_digit c)
    by (destruct c as [[] [] [] [] [] [] [] []]; reflexivity).
  destruct (is_digit c); reflexivity.
Qed.
End Suggestion.

(** ** The merge of the fragments *)

Section Merge.
Import ConfigurationManager Priority.

Lemma over_idem {A : Type} (a b : option A) : over (over a b) b = over a b.
Proof. now destruct b. Qed.

Lemma over_first {A : Type} (ia cf cl : option A) :
  over (over (over None ia) cf) cl = first_defined [cl; cf; ia].
Proof. now destruct cl, cf, ia. Qed.

Lemma nested_idem {O : Type} (spread : O -> O -> O) (empty : O)
    (t s : option O) :
  (forall a b, spread (spread a b) b = spread a b) ->
  nested spread empty (nested spread empty t s) s = nested spread empty t s.
Proof.
  intros H. destruct s as [sv|]; [|reflexivity]. simpl. f_equal.
  destruct t; simpl; apply H.
Qed.

Lemma FeatureSet_spread_idem a b :
  FeatureSet.spread (FeatureSet.spread a b) b = FeatureSet.spread a b.
Proof. unfold FeatureSet.spread. simpl. now rewrite !over_idem. Qed.

Lemma DatabaseConfig_spread_idem a b :
  DatabaseConfig.spread (DatabaseConfig.spread a b) b
  = DatabaseConfig.spread a b.
Proof. unfold DatabaseConfig.spread. simpl. now rewrite !over_idem. Qed.

Lemma CacheConfig_spread_idem a b :
  CacheConfig.spread (CacheConfig.spread a b) b = CacheConfig.spread a b.
Proof. unfold CacheConfig.spread. simpl. now rewrite !over_idem. Qed.

Lemma AuthConfig_spread_idem a b :
  AuthConfig.spread (AuthConfig.spread a b) b = AuthConfig.spread a b.
Proof. unfold AuthConfig.spread. simpl. now rewrite !over_idem. Qed.


Ltac field_of_mergeKey k :=
  destruct k; cbn;
  repeat match goal with
         | |- context [match ?x with Some _ => _ | None => _ end] =>
             destruct x; cbn
         end;
  reflexivity.

Section OneTurn.
Variables (s t : PartialConfiguration.t) (k : Key).

Lemma mergeKey_name :
  PartialConfiguration.name (mergeKey s t k)
  = if Key_eqb name k
    then over (PartialConfiguration.name t) (PartialConfiguration.name s)
    else PartialConfiguration.name t.
Proof. field_of_mergeKey k. Qed.

Lemma mergeKey_template :
  PartialConfiguration.template (mergeKey s t k)
  = if Key_eqb template k
    then over (PartialConfiguration.template t)
              (PartialConfiguration.template s)
    else PartialConfiguration.template t.
Proof. field_of_mergeKey k. Qed.

Lemma mergeKey_features :
  PartialConfiguration.features (mergeKey s t k)
  = if Key_eqb features k
    then nested FeatureSet.spread FeatureSet.empty
           (PartialConfiguration.features t)
           (PartialConfiguration.features s)
    else PartialConfiguration.features t.
Proof. field_of_mergeKey k. Qed.

Lemma mergeKey_database :
  PartialConfiguration.database (mergeKey s t k)
  = if Key_eqb database k
    then nested DatabaseConfig.spread DatabaseConfig.empty
           (PartialConfiguration.database t)
           (PartialConfiguration.database s)
    else PartialConfiguration.database t.
Proof. field_of_mergeKey k. Qed.

Lemma mergeKey_cache :
  PartialConfiguration.cache (mergeKey s t k)
  = if Key_eqb cache k
    then nested CacheConfig.spread CacheConfig.empty
           (PartialConfiguration.cache t) (PartialConfiguration.cache s)
    else PartialConfiguration.cache t.
Proof. field_of_mergeKey k. Qed.

Lemma mergeKey_authentication :
  PartialConfiguration.authentication (mergeKey s t k)
  = if Key_eqb authentication k
    then nested AuthConfig.spread AuthConfig.empty
           (PartialConfiguration.authentication t)
           (PartialConfiguration.authentication s)
    else PartialConfiguration.authentication t.
Proof. field_of_mergeKey k. Qed.

Lemma mergeKey_packageManager :
  PartialConfiguration.packageManager (mergeKey s t k)
  = if Key_eqb packageManager k
    then over (PartialConfiguration.packageManager t)
              (PartialConfiguration.packageManager s)
    else PartialConfiguration.packageManager t.
Proof. field_of_mergeKey k. Qed.

Lemma mergeKey_typescript :
  PartialConfiguration.typescript (mergeKey s t k)
  = if Key_eqb typescript k
    then over (PartialConfiguration.typescript t)
              (PartialConfiguration.typescript s)
    else PartialConfiguration.typescript t.
Proof. field_of_mergeKey k. Qed.
End OneTurn.

(** The loop of [mergeConfig], by induction on the keys it meets. *)
Lemma mergeConfigIn_merged_at (order : list Key) :
  forall t s, mergeConfigIn order t s = merged_at order t s.
Proof.
  induction order as [|k o IH]; intros t s.
  - now destruct t.
  - unfold mergeConfigIn. cbn [fold_left].
    fold (mergeConfigIn o (mergeKey s t k) s). rewrite IH.
    unfold merged_at. cbn [existsb].
    rewrite mergeKey_name, mergeKey_template, mergeKey_features,
      mergeKey_database, mergeKey_cache, mergeKey_authentication,
      mergeKey_packageManager, mergeKey_typescript.
    f_equal;
      match goal with
      | |- context [Key_eqb ?f k || existsb ?g o] =>
          destruct (Key_eqb f k); destruct (existsb g o); cbn [orb];
          try reflexivity
      end;
      first [ apply over_idem
            | apply nested_idem;
              first [ exact FeatureSet_spread_idem
                    | exact DatabaseConfig_spread_idem
                    | exact CacheConfig_spread_idem
                    | exact AuthConfig_spread_idem ] ].
Qed.

Lemma mergeConfig_fields (t s : PartialConfiguration.t) :
  mergeConfig t s
  = PartialConfiguration.mk
      (over (PartialConfiguration.name t) (PartialConfiguration.name s))
      (over (PartialConfiguration.template t) (PartialConfiguration.template s))
      (nested FeatureSet.spread FeatureSet.empty
         (PartialConfiguration.features t) (PartialConfiguration.features s))
      (nested DatabaseConfig.spread DatabaseConfig.empty
         (PartialConfiguration.database t) (PartialConfiguration.database s))
      (nested CacheConfig.spread CacheConfig.empty
         (PartialConfiguration.cache t) (PartialConfiguration.cache s))
      (nested AuthConfig.spread AuthConfig.empty
         (PartialConfiguration.authentication t)
         (PartialConfiguration.authentication s))
      (over (PartialConfiguration.packageManager t)
            (PartialConfiguration.packageManager s))
      (over (PartialConfiguration.typescript t)
            (PartialConfiguration.typescript s)).
Proof. unfold mergeConfig. now rewrite mergeConfigIn_merged_at. Qed.

Lemma Key_eqb_refl (k : Key) : Key_eqb k k = true.
Proof. now destruct k. Qed.

Lemma met_In (k : Key) (order : list Key) :
  In k order -> existsb (Key_eqb k) order = true.
Proof.
  intros H. apply existsb_exists. exists k. split; [exact H|apply Key_eqb_refl].
Qed.

(** Whatever the order in which [for ... in] meets the keys of the source,
    and whether or not it meets the keys the source has no value for. *)
Lemma mergeConfigIn_any_order (order : list Key) (t s : PartialConfiguration.t) :
  (forall k, defines s k = true -> In k order) ->
  mergeConfigIn order t s = mergeConfig t s.
Proof.
  intros H. rewrite mergeConfig_fields, mergeConfigIn_merged_at.
  unfold merged_at.
  f_equal;
    match goal with
    | |- context [existsb (Key_eqb ?f) order] =>
        destruct (existsb (Key_eqb f) order) eqn:E; [reflexivity|];
        pose proof (H f) as Hf; cbn in Hf
    end;
    match goal with
    | |- context [?proj s] =>
        destruct (proj s); [|reflexivity];
        rewrite (met_In _ _ (Hf eq_refl)) in E; discriminate E
    end.
Qed.

Lemma applyConfigurationPriority_fields (configs : ConfigurationPriority.t) :
  let cl := ConfigurationPriority.commandLine configs in
  let cf := ConfigurationPriority.configFile configs in
  let ia := ConfigurationPriority.interactive configs in
  let three {O : Type} (spread : O -> O -> O) (empty : O)
            (field : PartialConfiguration.t -> option O) :=
    nested spread empty
      (nested spread empty (nested spread empty None (field ia)) (field cf))
      (field cl) in
  applyConfigurationPriority configs
  = PartialConfiguration.mk
      (by_priority PartialConfiguration.name configs)
      (by_priority PartialConfiguration.template configs)
      (three FeatureSet.spread FeatureSet.empty PartialConfiguration.features)
      (three DatabaseConfig.spread DatabaseConfig.empty
             PartialConfiguration.database)
      (three CacheConfig.spread CacheConfig.empty PartialConfiguration.cache)
      (three AuthConfig.spread AuthConfig.empty
             PartialConfiguration.authentication)
      (by_priority PartialConfiguration.packageManager configs)
      (by_priority PartialConfiguration.typescript configs).
Proof.
  intros cl cf ia three. unfold applyConfigurationPriority.
  rewrite !mergeConfig_fields. cbn [PartialConfiguration.name
    PartialConfiguration.template PartialConfiguration.features
    PartialConfiguration.database PartialConfiguration.cache
    PartialConfiguration.authentication PartialConfiguration.packageManager
    PartialConfiguration.typescript PartialConfiguration.empty].
  unfold by_priority. rewrite <- !over_first. reflexivity.
Qed.

(** C3. Template, typescript and package manager of the merged
    configuration are, each, the value of the first of command line,
    configuration file and interactive answers that defines the field, so
    that a defined value of a higher source overwrites a lower one and an
    undefined one overwrites nothing; with commandLine = {template: "api"},
    configFile = {template: "basic", typescript: false} and interactive =
    {template: "basic", typescript: true, packageManager: "npm"} the result
    has template "api", typescript false and packageManager "npm". *)
Theorem scalar_fields_by_priority :
  (forall configs : ConfigurationPriority.t,
      let merged := applyConfigurationPriority configs in
      PartialConfiguration.template merged
      = by_priority PartialConfiguration.template configs
      /\ PartialConfiguration.typescript merged
         = by_priority PartialConfiguration.typescript configs
      /\ PartialConfiguration.packageManager merged
         = by_priority PartialConfiguration.packageManager configs)
  /\ (let merged := applyConfigurationPriority Scenario.priorityExample in
      PartialConfiguration.template merged = Some "api"
      /\ PartialConfiguration.typescript merged = Some false
      /\ PartialConfiguration.packageManager merged = Some "npm")
  /\ (let final :=
        finalConfig "shop" (applyConfigurationPriority Scenario.priorityExample) in
      ProjectConfiguration.template final = "api"
      /\ ProjectConfiguration.typescript final = false
      /\ ProjectConfiguration.packageManager final = "npm").
Proof.
  split; [|split; [now vm_compute|now vm_compute]].
  intros configs merged. subst merged.
  rewrite applyConfigurationPriority_fields. now cbn.
Qed.

Ltac sub_keys :=
  repeat constructor; cbn;
  repeat match goal with
         | |- context [sub_key _ ?o] => is_var o; destruct o as [[]|]; cbn
         end;
  repeat match goal with
         | |- context [match ?x with Some _ => _ | None => _ end] =>
             is_var x; destruct x; cbn
         end;
  reflexivity.

(** The nested objects of the merged fragment, one sub-key at a time: the
    value of the first of the three fragments that has the object and
    defines the sub-key in it. *)
Lemma sub_keys_by_priority (configs : ConfigurationPriority.t) :
  let merged := applyConfigurationPriority configs in
  Forall (fun key : FeatureSet.t -> option bool =>
            sub_key key (PartialConfiguration.features merged)
            = by_priority
                (fun c => sub_key key (PartialConfiguration.features c)) configs)
         [FeatureSet.logging; FeatureSet.cors; FeatureSet.helmet;
          FeatureSet.rateLimit; FeatureSet.swagger; FeatureSet.redis]
  /\ Forall (fun key : DatabaseConfig.t -> option string =>
            sub_key key (PartialConfiguration.database merged)
            = by_priority
                (fun c => sub_key key (PartialConfiguration.database c)) configs)
         [DatabaseConfig.type; DatabaseConfig.host; DatabaseConfig.database;
          DatabaseConfig.username; DatabaseConfig.password]
  /\ sub_key DatabaseConfig.port (PartialConfiguration.database merged)
     = by_priority
         (fun c => sub_key DatabaseConfig.port (PartialConfiguration.database c))
         configs
  /\ Forall (fun key : CacheConfig.t -> option string =>
            sub_key key (PartialConfiguration.cache merged)
            = by_priority
                (fun c => sub_key key (PartialConfiguration.cache c)) configs)
         [CacheConfig.type; CacheConfig.host; CacheConfig.password]
  /\ Forall (fun key : CacheConfig.t -> option Z =>
            sub_key key (PartialConfiguration.cache merged)
            = by_priority
                (fun c => sub_key key (PartialConfiguration.cache c)) configs)
         [CacheConfig.port; CacheConfig.database]
  /\ Forall (fun key : AuthConfig.t -> option string =>
            sub_key key (PartialConfiguration.authentication merged)
            = by_priority
                (fun c => sub_key key (PartialConfiguration.authentication c))
                configs)
         [AuthConfig.type; AuthConfig.secret; AuthConfig.expiresIn].
Proof.
  intros merged. subst merged. rewrite applyConfigurationPriority_fields.
  destruct configs as [[] [] []].
  repeat apply conj; sub_keys.
Qed.
End Merge.

(** ** The loader and the run of [mergeConfigurations] *)

Section Run.
Import ConfigurationManager Priority Async.
Variable lib : Platform.Lib.

(** The loader, case by case. *)
Lemma loadConfigFile_cases (path : string) (w : Platform.World) :
  loadConfigFile lib path w
  = (if Platform.pathExists w path then
       match Platform.readFile w path with
       | inl message => inl ("配置文件解析失败: " ++ message)
       | inr content =>
           let ext := Js.toLowerCase (Platform.extname lib path) in
           let parsed :=
             if ext =? ".json" then Platform.JSON_parse lib content
             else if (ext =? ".yaml") || (ext =? ".yml")
                  then Platform.yaml_load lib content
                  else inl ("不支持的配置文件格式: " ++ ext
                            ++ "。支持的格式: .json, .yaml, .yml") in
           match parsed with
           | inl message => inl ("配置文件解析失败: " ++ message)
           | inr d => inr (convertConfigFileFormat d)
           end
       end
     else inl ("配置文件解析失败: " ++ ("配置文件不存在: " ++ path)), w).
Proof.
  unfold loadConfigFile, try_catch, bind, fs_pathExists, fs_readFile,
    throw, ret, lift.
  destruct (Platform.pathExists w path); cbv beta iota delta [negb];
    [|reflexivity].
  destruct (Platform.readFile w path) as [message|content];
    cbv beta iota zeta; [reflexivity|].
  destruct (Js.toLowerCase (Platform.extname lib path) =? ".json").
  - destruct (Platform.JSON_parse lib content); reflexivity.
  - destruct ((Js.toLowerCase (Platform.extname lib path) =? ".yaml")
              || (Js.toLowerCase (Platform.extname lib path) =? ".yml")).
    + destruct (Platform.yaml_load lib content); reflexivity.
    + reflexivity.
Qed.

(** The loader reads: it leaves the world as it found it. *)
Lemma loadConfigFile_world (path : string) (w : Platform.World) :
  snd (loadConfigFile lib path w) = w.
Proof. rewrite loadConfigFile_cases. reflexivity. Qed.

(** What it returns is the normal form of what a parser read. *)
Lemma loadConfigFile_inr (path : string) (w : Platform.World)
    (cf : PartialConfiguration.t) :
  fst (loadConfigFile lib path w) = inr cf ->
  exists content d,
    Platform.readFile w path = inr content
    /\ (Platform.JSON_parse lib content = inr d
        \/ Platform.yaml_load lib content = inr d)
    /\ cf = convertConfigFileFormat d.
Proof.
  rewrite loadConfigFile_cases. cbv beta iota zeta delta [fst].
  destruct (Platform.pathExists w path); [|discriminate].
  destruct (Platform.readFile w path) as [message|content]; [discriminate|].
  destruct (Js.toLowerCase (Platform.extname lib path) =? ".json").
  - destruct (Platform.JSON_parse lib content) as [message|d] eqn:E;
      [discriminate|].
    intros H. injection H as <-. exists content, d. auto.
  - destruct ((Js.toLowerCase (Platform.extname lib path) =? ".yaml")
              || (Js.toLowerCase (Platform.extname lib path) =? ".yml")).
    + destruct (Platform.yaml_load lib content) as [message|d] eqn:E;
        [discriminate|].
      intros H. injection H as <-. exists content, d. auto.
    + discriminate.
Qed.

Lemma configFileOptions_world (opts : CommandLineOptions.t)
    (w : Platform.World) :
  snd (configFileOptions lib opts w) = w.
Proof.
  unfold configFileOptions.
  destruct (CommandLineOptions.config opts) as [path|]; [|reflexivity].
  destruct (Js.truthy path); [apply loadConfigFile_world|reflexivity].
Qed.

Lemma configFileOptions_inr (opts : CommandLineOptions.t)
    (w : Platform.World) (cf : PartialConfiguration.t) :
  fst (configFileOptions lib opts w) = inr cf ->
  exists d, cf = convertConfigFileFormat d.
Proof.
  unfold configFileOptions.
  destruct (CommandLineOptions.config opts) as [path|].
  - destruct (Js.truthy path).
    + intros H. apply loadConfigFile_inr in H as (content & d & _ & _ & ->).
      now exists d.
    + intros H. injection H as <-. now exists ConfigFileFormat.empty.
  - intros H. injection H as <-. now exists ConfigFileFormat.empty.
Qed.

(** The five steps of [mergeConfigurations] in one equation. *)
Lemma mergeConfigurations_run (projectName : string)
    (opts : CommandLineOptions.t) (answers : option PromptAnswers.t)
    (w : Platform.World) :
  mergeConfigurations lib projectName opts answers w
  = (match fst (configFileOptions lib opts w) with
     | inr cf =>
         inr (finalConfig projectName
                (applyConfigurationPriority
                   (ConfigurationPriority.mk
                      (convertCommandLineOptions opts) cf
                      (interactiveConfig answers))))
     | inl message => inl message
     end, w).
Proof.
  unfold mergeConfigurations, bind, ret.
  pose proof (configFileOptions_world opts w) as Hw.
  destruct (configFileOptions lib opts w) as [[message|cf] w'];
    cbn [snd fst] in *; subst w'; reflexivity.
Qed.
End Run.

(** ** From the three sources to the final configuration *)

Section Resolution.
Import ConfigurationManager Priority.

(** The command line fragment: at most template, typescript and package
    manager, each as the options give it. *)
Lemma convertCommandLineOptions_fields (opts : CommandLineOptions.t) :
  convertCommandLineOptions opts
  = PartialConfiguration.mk
      None
      (match CommandLineOptions.template opts with
       | Some v => if Js.truthy v then Some v else None
       | None => None
       end)
      None None None None
      (match CommandLineOptions.packageManager opts with
       | Some v => if Js.truthy v then Some v else None
       | None => None
       end)
      (CommandLineOptions.typescript opts).
Proof.
  unfold convertCommandLineOptions.
  destruct (CommandLineOptions.template opts) as [v|];
    [destruct (Js.truthy v)|];
    (destruct (CommandLineOptions.typescript opts);
     (destruct (CommandLineOptions.packageManager opts) as [v'|];
      [destruct (Js.truthy v')|]);
     destruct (CommandLineOptions.git opts); reflexivity).
Qed.

(** The nested objects of the final configuration owe nothing to the
    command line. *)
Lemma merged_nested_fields (opts : CommandLineOptions.t)
    (cf ia : PartialConfiguration.t) :
  let merged :=
    applyConfigurationPriority
      (ConfigurationPriority.mk (convertCommandLineOptions opts) cf ia) in
  let two {O : Type} (spread : O -> O -> O) (empty : O)
          (field : PartialConfiguration.t -> option O) :=
    nested spread empty (nested spread empty None (field ia)) (field cf) in
  PartialConfiguration.features merged
  = two FeatureSet.spread FeatureSet.empty PartialConfiguration.features
  /\ PartialConfiguration.database merged
     = two DatabaseConfig.spread DatabaseConfig.empty
           PartialConfiguration.database
  /\ PartialConfiguration.cache merged
     = two CacheConfig.spread CacheConfig.empty PartialConfiguration.cache
  /\ PartialConfiguration.authentication merged
     = two AuthConfig.spread AuthConfig.empty
           PartialConfiguration.authentication.
Proof.
  intros merged two. subst merged.
  rewrite applyConfigurationPriority_fields, convertCommandLineOptions_fields.
  repeat apply conj; reflexivity.
Qed.

Lemma finalConfig_features (projectName : string)
    (merged : PartialConfiguration.t) :
  Forall (fun '(key, default) =>
            key (ProjectConfiguration.features (finalConfig projectName merged))
            = Some (or_default
                      (sub_key key (PartialConfiguration.features merged))
                      default))
         [(FeatureSet.logging, true); (FeatureSet.cors, true);
          (FeatureSet.helmet, true); (FeatureSet.rateLimit, false);
          (FeatureSet.swagger, false); (FeatureSet.redis, false)].
Proof.
  unfold finalConfig. cbn [ProjectConfiguration.features].
  destruct (PartialConfiguration.features merged) as [[l c h r sw rd]|];
    repeat constructor; cbn;
    repeat match goal with
           | |- context [over _ ?x] => is_var x; destruct x; cbn
           end;
    reflexivity.
Qed.

Lemma run_inr (lib : Platform.Lib) (projectName : string)
    (opts : CommandLineOptions.t) (answers : option PromptAnswers.t)
    (w : Platform.World) (config : ProjectConfiguration.t) :
  fst (mergeConfigurations lib projectName opts answers w) = inr config ->
  exists cf,
    fst (configFileOptions lib opts w) = inr cf
    /\ config
       = finalConfig projectName
           (applyConfigurationPriority
              (ConfigurationPriority.mk (convertCommandLineOptions opts) cf
                                        (interactiveConfig answers))).
Proof.
  rewrite mergeConfigurations_run. cbn [fst].
  destruct (fst (configFileOptions lib opts w)) as [message|cf];
    [discriminate|].
  intros H. injection H as <-. now exists cf.
Qed.

(** C4. [mergeConfigurations] returns whenever no configuration file is
    asked for or the file loads; in what it returns, a field that the merge
    of the three fragments left undefined has its default: template
    "basic", package manager "pnpm", typescript true, and each of the six
    features the merged value when there is one and else its default
    (logging, cors, helmet: true; rateLimit, swagger, redis: false). *)
Theorem defaults_after_merge (lib : Platform.Lib) (projectName : string)
    (opts : CommandLineOptions.t) (answers : option PromptAnswers.t)
    (w : Platform.World) :
  let run := fst (mergeConfigurations lib projectName opts answers w) in
  (CommandLineOptions.config opts = None -> exists config, run = inr config)
  /\ (forall cf, fst (configFileOptions lib opts w) = inr cf ->
                 exists config, run = inr config)
  /\ forall config, run = inr config ->
     exists cf,
       fst (configFileOptions lib opts w) = inr cf /\
       let merged :=
         applyConfigurationPriority
           (ConfigurationPriority.mk (convertCommandLineOptions opts) cf
                                     (interactiveConfig answers)) in
       ProjectConfiguration.name config = projectName
       /\ (PartialConfiguration.template merged = None ->
           ProjectConfiguration.template config = "basic")
       /\ (PartialConfiguration.packageManager merged = None ->
           ProjectConfiguration.packageManager config = "pnpm")
       /\ (PartialConfiguration.typescript merged = None ->
           ProjectConfiguration.typescript config = true)
       /\ Forall (fun '(key, default) =>
                    key (ProjectConfiguration.features config)
                    = Some (or_default
                              (sub_key key (PartialConfiguration.features merged))
                              default))
                 [(FeatureSet.logging, true); (FeatureSet.cors, true);
                  (FeatureSet.helmet, true); (FeatureSet.rateLimit, false);
                  (FeatureSet.swagger, false); (FeatureSet.redis, false)].
Proof.
  intros run. subst run.
  assert (Hret : forall cf, fst (configFileOptions lib opts w) = inr cf ->
            exists config,
              fst (mergeConfigurations lib projectName opts answers w)
              = inr config).
  { intros cf Hcf. rewrite mergeConfigurations_run. cbn [fst].
    rewrite Hcf. eauto. }
  split; [|split; [exact Hret|]].
  - intros Hnone. apply (Hret PartialConfiguration.empty).
    unfold configFileOptions. now rewrite Hnone.
  - intros config Hrun. apply run_inr in Hrun as (cf & Hcf & ->).
    exists cf. split; [exact Hcf|]. cbv zeta.
    split; [reflexivity|]. unfold finalConfig at 1 2 3.
    cbn [ProjectConfiguration.template ProjectConfiguration.packageManager
         ProjectConfiguration.typescript].
    repeat apply conj.
    + now intros ->.
    + now intros ->.
    + now intros ->.
    + apply finalConfig_features.
Qed.

(** With no option and no answer, the configuration of the defaults. *)
Lemma defaults_after_merge_witness :
  exists config,
    fst (mergeConfigurations Scenario.lib "shop" CommandLineOptions.empty None
           Scenario.world) = inr config.
Proof.
  apply (proj1 (defaults_after_merge Scenario.lib "shop"
                  CommandLineOptions.empty None Scenario.world)).
  reflexivity.
Defined.

(** What the normalization of a configuration file does to the nested
    objects the file defines: every sub-key it handles is set. *)
Lemma convertConfigFileFormat_fields (d : ConfigFileFormat.t) :
  convertConfigFileFormat d
  = PartialConfiguration.mk
      None
      (match ConfigFileFormat.template d with
       | Some v => if Js.truthy v then Some v else None
       | None => None
       end)
      (match ConfigFileFormat.features d with
       | Some f => Some (FeatureSet.spread defaultFeatures f)
       | None => None
       end)
      (match ConfigFileFormat.database d with
       | Some db =>
           Some (DatabaseConfig.mk
                   (Some (Js.or_str (DatabaseConfig.type db) "mysql"))
                   (Some (Js.or_str (DatabaseConfig.host db) "localhost"))
                   (Some (Js.or_num (DatabaseConfig.port db) 3306))
                   (Some (Js.or_str (DatabaseConfig.database db) "myapp"))
                   None None)
       | None => None
       end)
      (match ConfigFileFormat.cache d with
       | Some c =>
           Some (CacheConfig.mk
                   (Some "redis")
                   (Some (Js.or_str (CacheConfig.host c) "localhost"))
                   (Some (Js.or_num (CacheConfig.port c) 6379))
                   None
                   (Some (Js.or_num (CacheConfig.database c) 0)))
       | None => None
       end)
      (match ConfigFileFormat.authentication d with
       | Some a =>
           Some (AuthConfig.mk
                   (Some (Js.or_str (AuthConfig.type a) "jwt"))
                   None
                   (Some (Js.or_str (AuthConfig.expiresIn a) "7d")))
       | None => None
       end)
      (match ConfigFileFormat.packageManager d with
       | Some v => if Js.truthy v then Some v else None
       | None => None
       end)
      (ConfigFileFormat.typescript d).
Proof.
  unfold convertConfigFileFormat.
  destruct (ConfigFileFormat.template d) as [v|];
    [destruct (Js.truthy v)|];
    (destruct (ConfigFileFormat.typescript d);
     (destruct (ConfigFileFormat.packageManager d) as [v'|];
      [destruct (Js.truthy v')|]);
     destruct (ConfigFileFormat.features d);
     destruct (ConfigFileFormat.database d);
     destruct (ConfigFileFormat.cache d);
     destruct (ConfigFileFormat.authentication d); reflexivity).
Qed.

(** The run of the scenario, from the file and the answers to the resolved
    configuration: the features and the database are those of the normalized
    file, the authentication is the one of the answers. *)
Lemma scenario_resolved :
  fst (mergeConfigurations Scenario.lib "shop" Scenario.options
         (Some Scenario.answers) Scenario.world)
  = inr (ProjectConfiguration.mk "shop" "api"
           (FeatureSet.mk (Some true) (Some true) (Some true)
                          (Some false) (Some false) (Some true))
           (Some (DatabaseConfig.mk (Some "mysql") (Some "localhost")
                                    (Some 5432%Z) (Some "myapp") None None))
           None
           (Some (AuthConfig.mk (Some "session") None None))
           "npm" true).
Proof. reflexivity. Qed.

(** C1, the sentence as it is written, fails.  The file of the scenario
    sets the redis feature alone and the user answered that logging is not
    wanted: the resolved configuration has logging on, which neither
    source says. *)
Lemma nested_fields_merged_per_sub_key_counterexample :
  ~ Claimed.keeps_the_sub_keys_of_the_answers
      Scenario.lib Scenario.world "shop" Scenario.options
      Scenario.fileData Scenario.answers.
Proof.
  intros H.
  specialize (H eq_refl _ eq_refl).
  apply Forall_inv in H. specialize (H eq_refl). discriminate H.
Qed.

(** C1, amended.  The merge of the three normalized fragments is a union
    per sub-key in each of features, database, cache and authentication:
    a sub-key of the merged object is the value of the first of command
    line, configuration file and interactive fragment that defines it; with
    commandLine.features = {redis: true} and configFile.features = {cors:
    false, redis: false} the merged features have redis true and cors
    false.  In [mergeConfigurations] the fragment of the configuration file
    comes to the merge normalized: where the file defines features, every
    feature of the result is the value of the file or, when the file leaves
    it unset, the default, whatever the answers; where the file defines
    database, cache or authentication, the sub-keys type, host, port,
    database and expiresIn of the result are those of the normalized
    file. *)
Theorem nested_fields_merged_per_sub_key :
  (forall configs : ConfigurationPriority.t,
      let merged := applyConfigurationPriority configs in
      Forall (fun key : FeatureSet.t -> option bool =>
                sub_key key (PartialConfiguration.features merged)
                = by_priority
                    (fun c => sub_key key (PartialConfiguration.features c))
                    configs)
             [FeatureSet.logging; FeatureSet.cors; FeatureSet.helmet;
              FeatureSet.rateLimit; FeatureSet.swagger; FeatureSet.redis]
      /\ Forall (fun key : DatabaseConfig.t -> option string =>
                sub_key key (PartialConfiguration.database merged)
                = by_priority
                    (fun c => sub_key key (PartialConfiguration.database c))
                    configs)
             [DatabaseConfig.type; DatabaseConfig.host;
              DatabaseConfig.database; DatabaseConfig.username;
              DatabaseConfig.password]
      /\ sub_key DatabaseConfig.port (PartialConfiguration.database merged)
         = by_priority
             (fun c => sub_key DatabaseConfig.port
                         (PartialConfiguration.database c))
             configs
      /\ Forall (fun key : CacheConfig.t -> option string =>
                sub_key key (PartialConfiguration.cache merged)
                = by_priority
                    (fun c => sub_key key (PartialConfiguration.cache c)) configs)
             [CacheConfig.type; CacheConfig.host; CacheConfig.password]
      /\ Forall (fun key : CacheConfig.t -> option Z =>
                sub_key key (PartialConfiguration.cache merged)
                = by_priority
                    (fun c => sub_key key (PartialConfiguration.cache c)) configs)
             [CacheConfig.port; CacheConfig.database]
      /\ Forall (fun key : AuthConfig.t -> option string =>
                sub_key key (PartialConfiguration.authentication merged)
                = by_priority
                    (fun c => sub_key key (PartialConfiguration.authentication c))
                    configs)
             [AuthConfig.type; AuthConfig.secret; AuthConfig.expiresIn])
  /\ (let merged := applyConfigurationPriority Scenario.nestedExample in
      sub_key FeatureSet.redis (PartialConfiguration.features merged)
      = Some true
      /\ sub_key FeatureSet.cors (PartialConfiguration.features merged)
         = Some false)
  /\ (forall (lib : Platform.Lib) (projectName : string)
             (opts : CommandLineOptions.t) (answers : option PromptAnswers.t)
             (w : Platform.World) (d : ConfigFileFormat.t)
             (config : ProjectConfiguration.t),
         fst (configFileOptions lib opts w) = inr (convertConfigFileFormat d) ->
         fst (mergeConfigurations lib projectName opts answers w) = inr config ->
         let normalized := convertConfigFileFormat d in
         (ConfigFileFormat.features d <> None ->
          Forall (fun '(key, default) =>
                    key (ProjectConfiguration.features config)
                    = Some (or_default
                              (sub_key key (ConfigFileFormat.features d))
                              default))
                 [(FeatureSet.logging, true); (FeatureSet.cors, true);
                  (FeatureSet.helmet, true); (FeatureSet.rateLimit, false);
                  (FeatureSet.swagger, false); (FeatureSet.redis, false)])
         /\ (ConfigFileFormat.database d <> None ->
             Forall (fun key : DatabaseConfig.t -> option string =>
                       sub_key key (ProjectConfiguration.database config)
                       = sub_key key (PartialConfiguration.database normalized))
                    [DatabaseConfig.type; DatabaseConfig.host;
                     DatabaseConfig.database]
             /\ sub_key DatabaseConfig.port
                  (ProjectConfiguration.database config)
                = sub_key DatabaseConfig.port
                    (PartialConfiguration.database normalized))
         /\ (ConfigFileFormat.cache d <> None ->
             Forall (fun key : CacheConfig.t -> option string =>
                       sub_key key (ProjectConfiguration.cache config)
                       = sub_key key (PartialConfiguration.cache normalized))
                    [CacheConfig.type; CacheConfig.host]
             /\ Forall (fun key : CacheConfig.t -> option Z =>
                       sub_key key (ProjectConfiguration.cache config)
                       = sub_key key (PartialConfiguration.cache normalized))
                    [CacheConfig.port; CacheConfig.database])
         /\ (ConfigFileFormat.authentication d <> None ->
             Forall (fun key : AuthConfig.t -> option string =>
                       sub_key key (ProjectConfiguration.authentication config)
                       = sub_key key
                           (PartialConfiguration.authentication normalized))
                    [AuthConfig.type; AuthConfig.expiresIn])).
Proof.
  split; [exact sub_keys_by_priority|split; [now vm_compute|]].
  intros lib projectName opts answers w d config Hcf Hrun normalized.
  apply run_inr in Hrun as (cf & Hcf' & ->).
  rewrite Hcf in Hcf'. injection Hcf' as <-.
  destruct (merged_nested_fields opts (convertConfigFileFormat d)
              (interactiveConfig answers)) as (Hf & Hd & Hc & Ha).
  cbv zeta in Hf, Hd, Hc, Ha. subst normalized.
  unfold finalConfig.
  cbn [ProjectConfiguration.features ProjectConfiguration.database
       ProjectConfiguration.cache ProjectConfiguration.authentication].
  rewrite Hf, Hd, Hc, Ha. clear Hf Hd Hc Ha.
  rewrite convertConfigFileFormat_fields.
  cbn [PartialConfiguration.features PartialConfiguration.database
       PartialConfiguration.cache PartialConfiguration.authentication].
  repeat apply conj.
  - destruct (ConfigFileFormat.features d) as [[l c h r sw rd]|];
      [intros _|intros H; now elim H].
    destruct (PartialConfiguration.features (interactiveConfig answers))
      as [[]|];
      repeat constructor; cbn;
      repeat match goal with
             | |- context [over _ ?x] => is_var x; destruct x; cbn
             end;
      reflexivity.
  - destruct (ConfigFileFormat.database d) as [db|];
      [intros _|intros H; now elim H].
    destruct (PartialConfiguration.database (interactiveConfig answers))
      as [[]|]; split; repeat constructor.
  - destruct (ConfigFileFormat.cache d) as [ch|];
      [intros _|intros H; now elim H].
    destruct (PartialConfiguration.cache (interactiveConfig answers))
      as [[]|]; split; repeat constructor.
  - destruct (ConfigFileFormat.authentication d) as [au|];
      [intros _|intros H; now elim H].
    destruct (PartialConfiguration.authentication (interactiveConfig answers))
      as [[]|]; repeat constructor.
Qed.

(** The run of the scenario: the features of the file with the defaults
    for the rest, not the answers. *)
Lemma nested_fields_merged_per_sub_key_witness :
  exists config,
    fst (mergeConfigurations Scenario.lib "shop" Scenario.options
           (Some Scenario.answers) Scenario.world) = inr config
    /\ FeatureSet.logging (ProjectConfiguration.features config) = Some true
    /\ FeatureSet.redis (ProjectConfiguration.features config) = Some true.
Proof.
  destruct (fst (mergeConfigurations Scenario.lib "shop" Scenario.options
                   (Some Scenario.answers) Scenario.world))
    as [message|config] eqn:Hrun; [discriminate Hrun|].
  exists config. split; [reflexivity|].
  destruct (proj2 (proj2 nested_fields_merged_per_sub_key)
              Scenario.lib "shop" Scenario.options (Some Scenario.answers)
              Scenario.world Scenario.fileData config eq_refl Hrun)
    as (Hf & _).
  assert (Hdef : ConfigFileFormat.features Scenario.fileData <> None)
    by discriminate.
  specialize (Hf Hdef).
  split.
  - exact (Forall_inv Hf).
  - exact (Forall_inv (Forall_inv_tail (Forall_inv_tail (Forall_inv_tail
             (Forall_inv_tail (Forall_inv_tail Hf)))))).
Defined.

Lemma convertInteractiveAnswers_fields (a : PromptAnswers.t) :
  convertInteractiveAnswers a
  = PartialConfiguration.mk None
      (Some (PromptAnswers.template a)) (Some (PromptAnswers.features a))
      (PromptAnswers.database a) (PromptAnswers.cache a)
      (PromptAnswers.authentication a)
      (Some (PromptAnswers.packageManager a))
      (Some (PromptAnswers.typescript a)).
Proof.
  unfold convertInteractiveAnswers.
  destruct (PromptAnswers.database a), (PromptAnswers.cache a),
    (PromptAnswers.authentication a); reflexivity.
Qed.

Lemma interactiveConfig_optional (answers : option PromptAnswers.t) :
  PartialConfiguration.database (interactiveConfig answers)
  = answered PromptAnswers.database answers
  /\ PartialConfiguration.cache (interactiveConfig answers)
     = answered PromptAnswers.cache answers
  /\ PartialConfiguration.authentication (interactiveConfig answers)
     = answered PromptAnswers.authentication answers.
Proof.
  destruct answers as [a|]; cbn [interactiveConfig answered];
    [rewrite convertInteractiveAnswers_fields|]; repeat split.
Qed.

Lemma nested_two_None {O : Type} (spread : O -> O -> O) (empty : O)
    (ia cf : option O) :
  nested spread empty (nested spread empty None ia) cf = None
  <-> cf = None /\ ia = None.
Proof. destruct cf, ia; cbn; intuition discriminate. Qed.

(** C2, the sentence as it is written, fails.  The file of the scenario
    gives a database its port and nothing else, and one feature: the
    fragment made of it has a database of type "mysql" on "localhost"
    named "myapp", and all six features. *)
Lemma normalization_and_optional_fields_counterexample :
  ~ Claimed.omits_the_unset_sub_keys Scenario.fileData.
Proof.
  intros (_ & Hdb & _).
  apply Forall_inv in Hdb. specialize (Hdb eq_refl). discriminate Hdb.
Qed.

(** C2, amended.  The normalization of a source defaults no field of the
    top level: a field that the configuration file or the command line
    leaves unset is missing from the fragment, the command line fragment
    has no nested object at all, and the optional objects of the
    interactive answers pass as they are.  Inside a nested object that the
    configuration file defines, the sub-keys the file leaves unset get
    fixed values: the six features their defaults; a database the type
    "mysql", the host "localhost", the port 3306 and the name "myapp"; a
    cache the type "redis", the host "localhost", the port 6379 and the
    database 0; an authentication the type "jwt" and the expiry "7d".
    The final configuration has a database, a cache, an authentication
    exactly when the configuration file or the answers define one, and
    none is made up when they do not. *)
Theorem normalization_and_optional_fields :
  (forall d : ConfigFileFormat.t,
      let n := convertConfigFileFormat d in
      PartialConfiguration.name n = None
      /\ (ConfigFileFormat.template d = None ->
          PartialConfiguration.template n = None)
      /\ (ConfigFileFormat.typescript d = None ->
          PartialConfiguration.typescript n = None)
      /\ (ConfigFileFormat.packageManager d = None ->
          PartialConfiguration.packageManager n = None)
      /\ (ConfigFileFormat.features d = None ->
          PartialConfiguration.features n = None)
      /\ (ConfigFileFormat.database d = None ->
          PartialConfiguration.database n = None)
      /\ (ConfigFileFormat.cache d = None ->
          PartialConfiguration.cache n = None)
      /\ (ConfigFileFormat.authentication d = None ->
          PartialConfiguration.authentication n = None))
  /\ (forall opts : CommandLineOptions.t,
         let n := convertCommandLineOptions opts in
         (CommandLineOptions.template opts = None ->
          PartialConfiguration.template n = None)
         /\ (CommandLineOptions.typescript opts = None ->
             PartialConfiguration.typescript n = None)
         /\ (CommandLineOptions.packageManager opts = None ->
             PartialConfiguration.packageManager n = None)
         /\ PartialConfiguration.features n = None
         /\ PartialConfiguration.database n = None
         /\ PartialConfiguration.cache n = None
         /\ PartialConfiguration.authentication n = None)
  /\ (forall answers : option PromptAnswers.t,
         PartialConfiguration.database (interactiveConfig answers)
         = answered PromptAnswers.database answers
         /\ PartialConfiguration.cache (interactiveConfig answers)
            = answered PromptAnswers.cache answers
         /\ PartialConfiguration.authentication (interactiveConfig answers)
            = answered PromptAnswers.authentication answers)
  /\ (forall (d : ConfigFileFormat.t) (f : FeatureSet.t),
         ConfigFileFormat.features d = Some f ->
         Forall (fun '(key, default) =>
                   sub_key key
                     (PartialConfiguration.features (convertConfigFileFormat d))
                   = Some (or_default (key f) default))
                [(FeatureSet.logging, true); (FeatureSet.cors, true);
                 (FeatureSet.helmet, true); (FeatureSet.rateLimit, false);
                 (FeatureSet.swagger, false); (FeatureSet.redis, false)])
  /\ (forall (d : ConfigFileFormat.t) (db : DatabaseConfig.t),
         ConfigFileFormat.database d = Some db ->
         let n := PartialConfiguration.database (convertConfigFileFormat d) in
         (DatabaseConfig.type db = None ->
          sub_key DatabaseConfig.type n = Some "mysql")
         /\ (DatabaseConfig.host db = None ->
             sub_key DatabaseConfig.host n = Some "localhost")
         /\ (DatabaseConfig.port db = None ->
             sub_key DatabaseConfig.port n = Some 3306%Z)
         /\ (DatabaseConfig.database db = None ->
             sub_key DatabaseConfig.database n = Some "myapp"))
  /\ (forall (d : ConfigFileFormat.t) (ch : CacheConfig.t),
         ConfigFileFormat.cache d = Some ch ->
         let n := PartialConfiguration.cache (convertConfigFileFormat d) in
         sub_key CacheConfig.type n = Some "redis"
         /\ (CacheConfig.host ch = None ->
             sub_key CacheConfig.host n = Some "localhost")
         /\ (CacheConfig.port ch = None ->
             sub_key CacheConfig.port n = Some 6379%Z)
         /\ (CacheConfig.database ch = None ->
             sub_key CacheConfig.database n = Some 0%Z))
  /\ (forall (d : ConfigFileFormat.t) (au : AuthConfig.t),
         ConfigFileFormat.authentication d = Some au ->
         let n :=
           PartialConfiguration.authentication (convertConfigFileFormat d) in
         (AuthConfig.type au = None ->
          sub_key AuthConfig.type n = Some "jwt")
         /\ (AuthConfig.expiresIn au = None ->
             sub_key AuthConfig.expiresIn n = Some "7d"))
  /\ (forall (lib : Platform.Lib) (projectName : string)
             (opts : CommandLineOptions.t) (answers : option PromptAnswers.t)
             (w : Platform.World) (config : ProjectConfiguration.t),
         fst (mergeConfigurations lib projectName opts answers w) = inr config ->
         exists d : ConfigFileFormat.t,
           fst (configFileOptions lib opts w) = inr (convertConfigFileFormat d)
           /\ (ProjectConfiguration.database config = None
               <-> ConfigFileFormat.database d = None
                   /\ answered PromptAnswers.database answers = None)
           /\ (ProjectConfiguration.cache config = None
               <-> ConfigFileFormat.cache d = None
                   /\ answered PromptAnswers.cache answers = None)
           /\ (ProjectConfiguration.authentication config = None
               <-> ConfigFileFormat.authentication d = None
                   /\ answered PromptAnswers.authentication answers = None)).
Proof.
  repeat apply conj.
  - intros d n. subst n. rewrite convertConfigFileFormat_fields.
    cbn [PartialConfiguration.name PartialConfiguration.template
         PartialConfiguration.typescript PartialConfiguration.packageManager
         PartialConfiguration.features PartialConfiguration.database
         PartialConfiguration.cache PartialConfiguration.authentication].
    repeat apply conj; try reflexivity; now intros ->.
  - intros opts n. subst n. rewrite convertCommandLineOptions_fields.
    cbn [PartialConfiguration.template PartialConfiguration.typescript
         PartialConfiguration.packageManager PartialConfiguration.features
         PartialConfiguration.database PartialConfiguration.cache
         PartialConfiguration.authentication].
    repeat apply conj; try reflexivity; now intros ->.
  - exact interactiveConfig_optional.
  - intros d f Hf. rewrite convertConfigFileFormat_fields.
    cbn [PartialConfiguration.features]. rewrite Hf.
    destruct f as [l c h r sw rd]; repeat constructor; cbn;
      repeat match goal with
             | |- context [over _ ?x] => is_var x; destruct x; cbn
             end;
      reflexivity.
  - intros d db Hdb n. subst n. rewrite convertConfigFileFormat_fields.
    cbn [PartialConfiguration.database]. rewrite Hdb.
    cbn [sub_key DatabaseConfig.type DatabaseConfig.host DatabaseConfig.port
         DatabaseConfig.database].
    repeat apply conj; now intros ->.
  - intros d ch Hch n. subst n. rewrite convertConfigFileFormat_fields.
    cbn [PartialConfiguration.cache]. rewrite Hch.
    cbn [sub_key CacheConfig.type CacheConfig.host CacheConfig.port
         CacheConfig.database].
    repeat apply conj; try reflexivity; now intros ->.
  - intros d au Hau n. subst n. rewrite convertConfigFileFormat_fields.
    cbn [PartialConfiguration.authentication]. rewrite Hau.
    cbn [sub_key AuthConfig.type AuthConfig.expiresIn].
    repeat apply conj; now intros ->.
  - intros lib projectName opts answers w config Hrun.
    apply run_inr in Hrun as (cf & Hcf & ->).
    destruct (configFileOptions_inr lib opts w cf Hcf) as [d ->].
    exists d. split; [exact Hcf|].
    destruct (merged_nested_fields opts (convertConfigFileFormat d)
                (interactiveConfig answers)) as (_ & Hd & Hc & Ha).
    cbv zeta in Hd, Hc, Ha.
    destruct (interactiveConfig_optional answers) as (Id & Ic & Ia).
    unfold finalConfig.
    cbn [ProjectConfiguration.database ProjectConfiguration.cache
         ProjectConfiguration.authentication].
    rewrite Hd, Hc, Ha, Id, Ic, Ia, !nested_two_None.
    rewrite convertConfigFileFormat_fields.
    cbn [PartialConfiguration.database PartialConfiguration.cache
         PartialConfiguration.authentication].
    repeat apply conj;
      match goal with
      | |- context [match ?x with Some _ => _ | None => _ end] => destruct x
      end; intuition discriminate.
Qed.

(** The file of the scenario: its database gets the type "mysql". *)
Lemma normalization_and_optional_fields_witness :
  sub_key DatabaseConfig.type
    (PartialConfiguration.database (convertConfigFileFormat Scenario.fileData))
  = Some "mysql".
Proof.
  refine (proj1 (proj1 (proj2 (proj2 (proj2 (proj2
            normalization_and_optional_fields))))
            Scenario.fileData _ eq_refl) eq_refl).
Defined.

Lemma configFileOptions_config (lib : Platform.Lib)
    (opts opts' : CommandLineOptions.t) (w : Platform.World) :
  CommandLineOptions.config opts = CommandLineOptions.config opts' ->
  configFileOptions lib opts w = configFileOptions lib opts' w.
Proof. unfold configFileOptions. now intros ->. Qed.

(** C10. The fragment made of the command line options defines at most
    template, typescript and package manager.  So two command lines that
    name the same configuration file end alike, in the same error or in
    configurations with the same name, features, database, cache and
    authentication; and when they also agree on template, typescript and
    package manager the results are the same: skipInstall, git and force
    leave no trace, and config only chooses the file. *)
Theorem command_line_sets_scalars_only :
  (forall opts : CommandLineOptions.t,
      let fragment := convertCommandLineOptions opts in
      PartialConfiguration.name fragment = None
      /\ PartialConfiguration.features fragment = None
      /\ PartialConfiguration.database fragment = None
      /\ PartialConfiguration.cache fragment = None
      /\ PartialConfiguration.authentication fragment = None)
  /\ (forall (lib : Platform.Lib) (projectName : string)
             (opts opts' : CommandLineOptions.t)
             (answers : option PromptAnswers.t) (w : Platform.World),
         CommandLineOptions.config opts = CommandLineOptions.config opts' ->
         match fst (mergeConfigurations lib projectName opts answers w),
               fst (mergeConfigurations lib projectName opts' answers w) with
         | inr c, inr c' =>
             ProjectConfiguration.name c = ProjectConfiguration.name c'
             /\ ProjectConfiguration.features c = ProjectConfiguration.features c'
             /\ ProjectConfiguration.database c = ProjectConfiguration.database c'
             /\ ProjectConfiguration.cache c = ProjectConfiguration.cache c'
             /\ ProjectConfiguration.authentication c
                = ProjectConfiguration.authentication c'
         | inl message, inl message' => message = message'
         | _, _ => False
         end)
  /\ (forall (lib : Platform.Lib) (projectName : string)
             (opts opts' : CommandLineOptions.t)
             (answers : option PromptAnswers.t) (w : Platform.World),
         CommandLineOptions.config opts = CommandLineOptions.config opts' ->
         CommandLineOptions.template opts = CommandLineOptions.template opts' ->
         CommandLineOptions.typescript opts
         = CommandLineOptions.typescript opts' ->
         CommandLineOptions.packageManager opts
         = CommandLineOptions.packageManager opts' ->
         mergeConfigurations lib projectName opts answers w
         = mergeConfigurations lib projectName opts' answers w).
Proof.
  repeat apply conj.
  - intros opts fragment. subst fragment.
    rewrite convertCommandLineOptions_fields. repeat split.
  - intros lib projectName opts opts' answers w Hconfig.
    rewrite !mergeConfigurations_run. cbn [fst].
    rewrite (configFileOptions_config lib opts opts' w Hconfig).
    destruct (fst (configFileOptions lib opts' w)) as [message|cf];
      [reflexivity|].
    destruct (merged_nested_fields opts cf (interactiveConfig answers))
      as (Hf & Hd & Hc & Ha).
    destruct (merged_nested_fields opts' cf (interactiveConfig answers))
      as (Hf' & Hd' & Hc' & Ha').
    cbv zeta in *. unfold finalConfig.
    cbn [ProjectConfiguration.name ProjectConfiguration.features
         ProjectConfiguration.database ProjectConfiguration.cache
         ProjectConfiguration.authentication].
    rewrite Hf, Hd, Hc, Ha, Hf', Hd', Hc', Ha'. repeat split.
  - intros lib projectName opts opts' answers w Hconfig Ht Hts Hpm.
    rewrite !mergeConfigurations_run.
    rewrite (configFileOptions_config lib opts opts' w Hconfig).
    rewrite !convertCommandLineOptions_fields, Ht, Hts, Hpm. reflexivity.
Qed.

(** [--skip-install --no-git --force] on the command line of the scenario
    change nothing in what is resolved. *)
Lemma command_line_sets_scalars_only_witness :
  mergeConfigurations Scenario.lib "shop" Scenario.options
    (Some Scenario.answers) Scenario.world
  = mergeConfigurations Scenario.lib "shop"
      (CommandLineOptions.mk None (Some Scenario.configPath) (Some true) None
                             None (Some false) None)
      (Some Scenario.answers) Scenario.world.
Proof.
  apply (proj2 (proj2 command_line_sets_scalars_only)); reflexivity.
Defined.

Lemma configFileOptions_reads (lib : Platform.Lib)
    (opts : CommandLineOptions.t) (w w' : Platform.World) :
  (forall path,
      CommandLineOptions.config opts = Some path ->
      Platform.pathExists w path = Platform.pathExists w' path
      /\ Platform.readFile w path = Platform.readFile w' path) ->
  fst (configFileOptions lib opts w) = fst (configFileOptions lib opts w').
Proof.
  intros H. unfold configFileOptions.
  destruct (CommandLineOptions.config opts) as [path|]; [|reflexivity].
  destruct (Js.truthy path); [|reflexivity].
  destruct (H path eq_refl) as [He Hr].
  rewrite !loadConfigFile_cases. cbn [fst]. now rewrite He, Hr.
Qed.

(** C8. [mergeConfigurations] reads its world and leaves it as it was, so
    that a second call with the same arguments returns what the first one
    returned; its result depends on the world through the configuration
    file alone; and the merge does not depend on the order in which the
    loop of [mergeConfig] meets the keys of a source, as long as it meets
    those the source has a value for. *)
Theorem mergeConfigurations_deterministic :
  (forall (lib : Platform.Lib) (projectName : string)
          (opts : CommandLineOptions.t) (answers : option PromptAnswers.t)
          (w : Platform.World),
      let first := mergeConfigurations lib projectName opts answers w in
      let second :=
        mergeConfigurations lib projectName opts answers (snd first) in
      snd first = w /\ fst second = fst first /\ snd second = w)
  /\ (forall (lib : Platform.Lib) (projectName : string)
             (opts : CommandLineOptions.t) (answers : option PromptAnswers.t)
             (w w' : Platform.World),
         (forall path,
             CommandLineOptions.config opts = Some path ->
             Platform.pathExists w path = Platform.pathExists w' path
             /\ Platform.readFile w path = Platform.readFile w' path) ->
         fst (mergeConfigurations lib projectName opts answers w)
         = fst (mergeConfigurations lib projectName opts answers w'))
  /\ (forall (order : list Key) (target source : PartialConfiguration.t),
         (forall key, defines source key = true -> In key order) ->
         mergeConfigIn order target source = mergeConfig target source).
Proof.
  repeat apply conj.
  - intros lib projectName opts answers w first second.
    assert (Hw : snd first = w)
      by (subst first; now rewrite mergeConfigurations_run).
    subst second. rewrite Hw. auto.
  - intros lib projectName opts answers w w' H.
    rewrite !mergeConfigurations_run. cbn [fst].
    now rewrite (configFileOptions_reads lib opts w w' H).
  - exact mergeConfigIn_any_order.
Qed.

(** The keys of a fragment met from the last to the first. *)
Lemma mergeConfigurations_deterministic_witness :
  mergeConfigIn (rev keys)
    (convertInteractiveAnswers Scenario.answers)
    (convertConfigFileFormat Scenario.fileData)
  = mergeConfig
      (convertInteractiveAnswers Scenario.answers)
      (convertConfigFileFormat Scenario.fileData).
Proof.
  apply (proj2 (proj2 mergeConfigurations_deterministic)).
  intros key _. destruct key; cbn; tauto.
Defined.
End Resolution.

(** ** The validation of a configuration *)

Section ConfigValidation.
Import ConfigurationManager ConfigRules.









Lemma app_nil {A : Type} (l l' : list A) :
  (l ++ l')%list = [] <-> l = [] /\ l' = [].
Proof. destruct l; cbn; intuition congruence. Qed.






End ConfigValidation.

(* ================================================================= *)
(** * Further properties of the validator *)

Section NameVerdicts.
Import Js InputValidator NameRules NameVerdict.
Import ValidationResult.

Lemma trimStart_first (s : string) :
  test_first is_space (trimStart s) = false.
Proof.
  induction s as [|c r IH]; [reflexivity|].
  cbn [trimStart]. destruct (is_space c) eqn:E; [exact IH|].
  cbn [test_first]. exact E.
Qed.

Lemma trimEnd_first (s : string) :
  test_first is_space s = false -> test_first is_space (trimEnd s) = false.
Proof.
  destruct s as [|c r]; [reflexivity|].
  cbn [test_first trimEnd]. intros Hc.
  destruct (trimEnd r); [rewrite Hc|]; exact Hc.
Qed.

Lemma trimEnd_idem (s : string) : trimEnd (trimEnd s) = trimEnd s.
Proof.
  induction s as [|c r IH]; [reflexivity|].
  cbn [trimEnd]. destruct (trimEnd r) as [|d r'] eqn:E.
  - destruct (is_space c) eqn:Hc; [reflexivity|].
    cbn [trimEnd]. now rewrite Hc.
  - cbn [trimEnd]. cbn [trimEnd] in IH. rewrite IH. reflexivity.
Qed.

(** Trimming twice is trimming once. *)
Lemma trim_idem (s : string) : trim (trim s) = trim s.
Proof.
  unfold trim.
  rewrite (trimStart_id (trimEnd (trimStart s))).
  - apply trimEnd_idem.
  - apply trimEnd_first, trimStart_first.
Qed.

Lemma trim_empty_iff (s : string) :
  is_empty s || (String.length (trim s) =? 0)%nat
  = (String.length (trim s) =? 0)%nat.
Proof. now destruct s. Qed.

(** X1. The validator looks at the trimmed name only: white space around a
    name changes nothing in the result, errors, warnings and messages
    included. *)
Theorem validateProjectName_trim (name : string) :
  validateProjectName (trim name) = validateProjectName name.
Proof.
  unfold validateProjectName.
  rewrite (trim_empty_iff name), (trim_empty_iff (trim name)), trim_idem.
  reflexivity.
Qed.

Lemma blank_name_result (name : string) :
  trim name = EmptyString ->
  valid (validateProjectName name) = false
  /\ List.map ValidationError.type (errors (validateProjectName name))
     = ["EMPTY_NAME"]
  /\ warnings (validateProjectName name) = [].
Proof.
  intros H. unfold validateProjectName. rewrite trim_empty_iff, H.
  repeat split.
Qed.

(** X2. A name that is empty or made of white space only gets the single
    error EMPTY_NAME and nothing else: no other rule is looked at, and no
    warning is given. *)
Theorem validateProjectName_blank (name : string) :
  trim name = EmptyString ->
  valid (validateProjectName name) = false
  /\ List.map ValidationError.type (errors (validateProjectName name))
     = ["EMPTY_NAME"]
  /\ warnings (validateProjectName name) = [].
Proof. exact (blank_name_result name). Qed.

Lemma validateProjectName_blank_witness :
  List.map ValidationError.type
    (errors (validateProjectName (String " " (String "009" EmptyString))))
  = ["EMPTY_NAME"].
Proof.
  refine (proj1 (proj2 (validateProjectName_blank _ _))). reflexivity.
Defined.

Lemma span_split (q : ascii -> bool) (s a b : string) :
  span q s = (a, b) -> s = (a ++ b)%string /\ all_chars q a = true.
Proof.
  revert a b. induction s as [|c r IH]; intros a b; cbn [span].
  - intros [= <- <-]. now split.
  - destruct (q c) eqn:Hc.
    + destruct (span q r) as [a' b'] eqn:E. intros [= <- <-].
      destruct (IH a' b' eq_refl) as [-> Ha]. split; [reflexivity|].
      cbn [all_chars]. now rewrite Hc, Ha.
    + intros [= <- <-]. now split.
Qed.

Lemma only_allowed_all_chars (s : string) :
  only_allowed s <-> all_chars name_char_i s = true.
Proof.
  rewrite all_chars_In. unfold only_allowed, letters_digits_separators.
  split; intros H c Hc.
  - rewrite name_char_i_alphabet. apply one_of_In. now apply H.
  - apply one_of_In. rewrite <- name_char_i_alphabet. now apply H.
Qed.

Lemma all_chars_app (q : ascii -> bool) (a b : string) :
  all_chars q (a ++ b) = all_chars q a && all_chars q b.
Proof.
  induction a as [|c r IH]; [reflexivity|].
  cbn [append all_chars]. now rewrite IH, andb_assoc.
Qed.

(** The scope pattern, the other way round. *)
Lemma match_scope_scoped (name : string) :
  match_scope name_char_i name = true -> scoped name.
Proof.
  destruct name as [|c r]; [discriminate|].
  destruct (Ascii.eqb_spec c "@") as [->|Hne].
  - cbn [match_scope].
    destruct (span name_char_i r) as [scope rest] eqn:E.
    destruct (span_split _ _ _ _ E) as [-> Hscope].
    destruct rest as [|d pkg]; [discriminate|].
    destruct (Ascii.eqb_spec d "/") as [->|Hd].
    + unfold test_all. rewrite !andb_true_iff, !negb_true_iff.
      intros (Hs & Hp & Hpkg).
      exists scope, pkg. split; [reflexivity|].
      split; [now destruct scope|]. split; [now destruct pkg|].
      intros c' [Hc|Hc]; apply only_allowed_all_chars in Hc; assumption.
    + intros H. exfalso. apply Hd.
      destruct d as [[] [] [] [] [] [] [] []]; try discriminate H; reflexivity.
  - intros H. exfalso. apply Hne.
    destruct c as [[] [] [] [] [] [] [] []]; try discriminate H; reflexivity.
Qed.

Lemma scoped_iff (name : string) :
  match_scope name_char_i name = true <-> scoped name.
Proof. split; [apply match_scope_scoped|apply scoped_match]. Qed.

Lemma any_char_inv (q : ascii -> bool) (s : string) :
  any_char q s = true -> exists c, In c (chars s) /\ q c = true.
Proof.
  induction s as [|d r IH]; [discriminate|].
  cbn [any_char]. rewrite orb_true_iff. intros [Hd|Hr].
  - exists d. split; [now left|exact Hd].
  - destruct (IH Hr) as (c & Hc & Hq). exists c. split; [now right|exact Hq].
Qed.

Ltac error_iff Hnb :=
  unfold has_error; rewrite (errors_not_blank _ Hnb);
  split;
  [ intros (e & He & Hty);
    repeat (apply in_app_or in He as [He|He]);
    apply In_push_if in He as [Hc ->];
    unfold error in Hty; cbn [ValidationError.type] in Hty;
    try discriminate Hty; exact Hc
  | intros Hc; eexists; split;
    [ repeat first
        [ apply In_push_if; split; [exact Hc|reflexivity]
        | apply in_or_app; left; apply In_push_if; split; [exact Hc|reflexivity]
        | apply in_or_app; right ]
    | reflexivity ] ].

(** The condition under which each error is pushed. *)
Lemma error_conditions (name : string) :
  trim name <> EmptyString ->
  let r := validateProjectName name in
  let t := trim name in
  (has_error "NAME_TOO_LONG" r <-> (214 <? String.length t)%nat = true)
  /\ (has_error "NAME_TOO_SHORT" r <-> (String.length t <? 1)%nat = true)
  /\ (has_error "INVALID_CHARACTERS" r
      <-> negb (test_all name_char_i t) = true)
  /\ (has_error "INVALID_START" r <-> test_first dot_underscore t = true)
  /\ (has_error "INVALID_END" r <-> test_last dot_dash t = true)
  /\ (has_error "RESERVED_NAME" r
      <-> includes reservedNames (toLowerCase t) = true)
  /\ (has_error "INVALID_SCOPE_FORMAT" r
      <-> startsWith "@" t && negb (match_scope name_char_i t) = true)
  /\ (has_error "CONSECUTIVE_SEPARATORS" r <-> test_two dot_dash t = true)
  /\ ~ has_error "EMPTY_NAME" r.
Proof.
  intros Hne r t. subst r t.
  pose proof (not_blank _ Hne) as Hnb.
  repeat match goal with |- _ /\ _ => split end; [error_iff Hnb ..|].
  unfold has_error. rewrite (errors_not_blank _ Hnb).
  intros (e & He & Hty).
  repeat (apply in_app_or in He as [He|He]);
    apply In_push_if in He as [Hc ->];
    unfold error in Hty; cbn [ValidationError.type] in Hty; discriminate Hty.
Qed.

Lemma test_all_only_allowed (t : string) :
  t <> EmptyString ->
  (negb (test_all name_char_i t) = true <-> ~ only_allowed t).
Proof.
  intros Hne. unfold test_all. rewrite only_allowed_all_chars.
  destruct t; [now elim Hne|]. cbn [is_empty negb andb].
  rewrite negb_true_iff. now rewrite not_true_iff_false.
Qed.

Lemma scope_condition (t : string) :
  startsWith "@" t && negb (match_scope name_char_i t) = true
  <-> (exists rest, t = String "@" rest) /\ ~ scoped t.
Proof.
  rewrite andb_true_iff, startsWith_at, negb_true_iff, <- scoped_iff.
  now rewrite not_true_iff_false.
Qed.

Lemma errors_by_rule (name : string) :
  trim name <> EmptyString ->
  let r := validateProjectName name in
  let t := trim name in
  (has_error "NAME_TOO_LONG" r <-> (214 < String.length t)%nat)
  /\ (has_error "INVALID_CHARACTERS" r <-> ~ only_allowed t)
  /\ (has_error "INVALID_START" r <-> starts_with ["."; "_"]%char t)
  /\ (has_error "INVALID_END" r <-> ends_with ["."; "-"]%char t)
  /\ (has_error "RESERVED_NAME" r <-> In (toLowerCase t) reservedNames)
  /\ (has_error "INVALID_SCOPE_FORMAT" r
      <-> (exists rest, t = String "@" rest) /\ ~ scoped t)
  /\ (has_error "CONSECUTIVE_SEPARATORS" r
      <-> consecutive ["."; "-"]%char t)
  /\ (has_warning "UPPERCASE_WARNING" r
      <-> exists c, In c (chars t)
                    /\ In c (chars "ABCDEFGHIJKLMNOPQRSTUVWXYZ")).
Proof.
  intros Hne r t.
  destruct (error_conditions name Hne)
    as (Hlong & _ & Hchars & Hstart & Hend & Hres & Hscope & Hcons & _).
  subst r t. cbv zeta in *.
  repeat match goal with |- _ /\ _ => split end.
  - rewrite Hlong. apply Nat.ltb_lt.
  - rewrite Hchars. now apply test_all_only_allowed.
  - rewrite Hstart. symmetry. apply (starts_with_test "._").
  - rewrite Hend. symmetry. apply (ends_with_test ".-").
  - rewrite Hres. apply includes_In.
  - rewrite Hscope. apply scope_condition.
  - rewrite Hcons. symmetry. apply (consecutive_test ".-").
  - unfold has_warning.
    rewrite (warnings_not_blank _ (not_blank _ Hne)). unfold test_any.
    split.
    + intros (e & He & _). apply In_push_if in He as [Hc _].
      destruct (any_char_inv _ _ Hc) as (c & Hin & Hup).
      exists c. split; [exact Hin|].
      apply one_of_In. now rewrite <- is_upper_alphabet.
    + intros (c & Hin & Hup). eexists.
      split; [apply In_push_if; split; [|reflexivity]|reflexivity].
      apply (any_char_In _ _ c Hin).
      rewrite is_upper_alphabet. now apply one_of_In.
Qed.

(** X3. The errors of a name that is not blank, one rule at a time: each
    error is reported exactly when its rule is broken, whatever the other
    rules say.  NAME_TOO_LONG: more than 214 characters after trimming.
    INVALID_CHARACTERS: a character that is no letter, digit, dot, underscore
    or dash.  INVALID_START: a leading dot or underscore.  INVALID_END: a
    trailing dot or dash.  RESERVED_NAME: the lowercased name is on the list.
    INVALID_SCOPE_FORMAT: a leading at sign without the form @scope/name.
    CONSECUTIVE_SEPARATORS: two dots or dashes in a row.  The warning
    UPPERCASE_WARNING: a capital letter A-Z somewhere. *)
Theorem validateProjectName_errors_by_rule (name : string) :
  trim name <> EmptyString ->
  let r := validateProjectName name in
  let t := trim name in
  (has_error "NAME_TOO_LONG" r <-> (214 < String.length t)%nat)
  /\ (has_error "INVALID_CHARACTERS" r <-> ~ only_allowed t)
  /\ (has_error "INVALID_START" r <-> starts_with ["."; "_"]%char t)
  /\ (has_error "INVALID_END" r <-> ends_with ["."; "-"]%char t)
  /\ (has_error "RESERVED_NAME" r <-> In (toLowerCase t) reservedNames)
  /\ (has_error "INVALID_SCOPE_FORMAT" r
      <-> (exists rest, t = String "@" rest) /\ ~ scoped t)
  /\ (has_error "CONSECUTIVE_SEPARATORS" r
      <-> consecutive ["."; "-"]%char t)
  /\ (has_warning "UPPERCASE_WARNING" r
      <-> exists c, In c (chars t)
                    /\ In c (chars "ABCDEFGHIJKLMNOPQRSTUVWXYZ")).
Proof. exact (errors_by_rule name). Qed.

Lemma validateProjectName_errors_by_rule_witness :
  has_error "INVALID_END" (validateProjectName " my-app- ")
  /\ has_error "RESERVED_NAME" (validateProjectName "Node_Modules").
Proof.
  split.
  - apply (validateProjectName_errors_by_rule " my-app- "); [discriminate|].
    exists "my-app", "-"%char. split; [reflexivity|]. right. now left.
  - apply (validateProjectName_errors_by_rule "Node_Modules"); [discriminate|].
    vm_compute. tauto.
Defined.

Lemma never_too_short (name : string) :
  ~ has_error "NAME_TOO_SHORT" (validateProjectName name).
Proof.
  destruct (string_dec (trim name) EmptyString) as [Hb|Hne].
  - destruct (blank_name_result name Hb) as (_ & Hty & _).
    intros (e & He & Het).
    apply (in_map ValidationError.type) in He. rewrite Hty, Het in He.
    destruct He as [He|[]]. discriminate He.
  - destruct (error_conditions name Hne) as (_ & Hshort & _).
    cbv zeta in Hshort. rewrite Hshort.
    destruct (trim name); [now elim Hne|]. discriminate.
Qed.

(** X4. The error NAME_TOO_SHORT is never reported, for any input: a name
    too short to pass is blank, and a blank name stops at EMPTY_NAME. *)
Theorem validateProjectName_never_too_short (name : string) :
  ~ has_error "NAME_TOO_SHORT" (validateProjectName name).
Proof. exact (never_too_short name). Qed.

Lemma push_if_empty {A : Type} (cond : bool) (x : A) :
  push_if cond x = [] <-> cond = false.
Proof. destruct cond; cbn; split; congruence. Qed.

Lemma valid_iff_well_formed (name : string) :
  valid (validateProjectName name) = true <-> well_formed name.
Proof.
  unfold well_formed. cbv zeta.
  destruct (string_dec (trim name) EmptyString) as [Hb|Hne].
  - destruct (blank_name_result name Hb) as (Hv & _).
    rewrite Hv. split; [discriminate|]. intros (H & _). now elim H.
  - rewrite valid_iff_no_error, (errors_not_blank _ (not_blank _ Hne)).
    rewrite !app_nil, !push_if_empty.
    rewrite Nat.ltb_ge, <- !not_true_iff_false.
    rewrite (test_all_only_allowed _ Hne), scope_condition.
    rewrite <- (starts_with_test "._"), <- (ends_with_test ".-"),
      <- (consecutive_test ".-"), includes_In.
    split.
    + intros (Hlen & _ & Hch & Hst & Hen & Hres & _ & Hco).
      repeat split; try assumption.
      apply only_allowed_all_chars.
      destruct (all_chars name_char_i (trim name)) eqn:E; [reflexivity|].
      elim Hch. rewrite only_allowed_all_chars. congruence.
    + intros (_ & Hlen & Hch & Hst & Hen & Hres & Hco).
      repeat split; try assumption; try tauto.
      * rewrite Nat.ltb_lt. destruct (trim name); [now elim Hne|].
        cbn [String.length]. lia.
      * intros ([rest Hrest] & _).
        assert (Hat : In "@"%char letters_digits_separators).
        { apply Hch. rewrite Hrest. now left. }
        vm_compute in Hat.
        repeat (destruct Hat as [Hat|Hat]; [discriminate Hat|]). exact Hat.
Qed.

(** X5. A name is valid exactly when, once trimmed, it is not empty, has at
    most 214 characters, is made of letters, digits, dots, underscores and
    dashes, does not start with a dot or an underscore, does not end with a
    dot or a dash, is not a reserved name in any letter case and has no two
    dots or dashes in a row.  Capital letters and the rule on scopes play no
    part in the verdict. *)
Theorem validateProjectName_valid_iff (name : string) :
  valid (validateProjectName name) = true <-> well_formed name.
Proof. exact (valid_iff_well_formed name). Qed.
End NameVerdicts.

(* ================================================================= *)
(** * Further properties of the suggestion *)

Section SuggestionShape.
Import Js InputValidator NameRules NameVerdict.
Import ValidationResult.

Lemma clean_facts (c : ascii) :
  clean c = true ->
  name_char c = true /\ (separator c = true -> c = "-"%char)
  /\ dot_underscore c = false /\ one_of "." c = false.
Proof.
  destruct c as [[] [] [] [] [] [] [] []]; vm_compute;
    intros H; try discriminate H; repeat split; congruence.
Qed.


Lemma is_digit_alphabet (c : ascii) : is_digit c = one_of "0123456789" c.
Proof. destruct c as [[] [] [] [] [] [] [] []]; reflexivity. Qed.











Lemma suggestValidName_cases (name : string) :
  suggestValidName name
  = let s := if is_empty (collapsed name) then "my-koa-app"
             else collapsed name in
    if test_first is_digit s then "app-" ++ s else s.
Proof. reflexivity. Qed.




Lemma clean_not_upper (c : ascii) : clean c = true -> is_upper c = false.
Proof.
  destruct c as [[] [] [] [] [] [] [] []]; vm_compute; congruence.
Qed.

Lemma In_clean (s : string) :
  (forall c, In c (chars s) -> In c suggestion_alphabet) ->
  all_chars clean s = true.
Proof.
  intros H. apply all_chars_In. intros c Hc. apply one_of_In. now apply H.
Qed.


Lemma append_snoc (a r : string) (c : ascii) :
  ((a ++ String c EmptyString) ++ r)%string = (a ++ String c r)%string.
Proof.
  induction a as [|x a IH]; cbn [append]; [reflexivity|now rewrite IH].
Qed.

(** What the rules of the validator say of a name made of lowercase
    letters, digits and dashes. *)
Lemma clean_name_rules (s : string) :
  s <> EmptyString -> all_chars clean s = true ->
  trim s = s /\ toLowerCase s = s /\ only_allowed s
  /\ ~ starts_with ["."; "_"]%char s
  /\ (ends_with ["."; "-"]%char s <-> ends_with ["-"]%char s)
  /\ (consecutive ["."; "-"]%char s <-> consecutive ["-"]%char s)
  /\ ~ (exists rest, s = String "@" rest)
  /\ test_any is_upper s = false.
Proof.
  intros Hne Hclean.
  assert (Hname : all_chars name_char s = true).
  { revert Hclean. apply all_chars_impl. intros c Hc.
    now apply clean_facts in Hc. }
  assert (Hin : forall c, In c (chars s) -> clean c = true)
    by now apply all_chars_In.
  assert (Hdash : forall c, In c (chars s) -> In c ["."; "-"]%char ->
                            In c ["-"]%char).
  { intros c Hc [<-|[<-|[]]]; [|now left].
    apply Hin in Hc. discriminate Hc. }
  assert (Happ : forall a b c, In c (chars (a ++ String c b))).
  { intros a b c. induction a as [|d a IH]; [now left|now right]. }
  split; [now apply allowed_trim|]. split; [now apply allowed_lower|].
  split; [|split; [|split; [|split; [|split]]]].
  - apply only_allowed_all_chars. revert Hname. apply all_chars_impl.
    intros c Hc. unfold name_char_i. now rewrite Hc.
  - intros (c & r & -> & Hc).
    assert (Hcl : clean c = true) by (apply Hin; now left).
    apply clean_facts in Hcl as (_ & _ & Hdu & _).
    apply (one_of_In "._") in Hc. unfold dot_underscore in Hdu. congruence.
  - split.
    + intros (r & c & -> & Hc). exists r, c. split; [reflexivity|].
      apply Hdash; [apply Happ|exact Hc].
    + intros (r & c & -> & [<-|[]]). exists r, "-"%char.
      split; [reflexivity|]. right. now left.
  - split.
    + intros (a & c & d & b & -> & Hc & Hd). exists a, c, d, b.
      split; [reflexivity|]. split.
      * apply Hdash; [apply Happ|exact Hc].
      * apply Hdash; [|exact Hd].
        rewrite <- append_snoc. apply Happ.
    + intros (a & c & d & b & -> & [<-|[]] & [<-|[]]).
      exists a, "-"%char, "-"%char, b. split; [reflexivity|].
      split; right; now left.
  - intros [rest ->]. cbn [all_chars] in Hclean. discriminate Hclean.
  - unfold test_any. destruct (any_char is_upper s) eqn:E; [|reflexivity].
    destruct (any_char_inv _ _ E) as (c & Hc & Hup).
    apply Hin, clean_not_upper in Hc. congruence.
Qed.



Lemma replace_leading_id (p : ascii -> bool) (s : string) :
  test_first p s = false -> replace_leading p s = s.
Proof. destruct s as [|c r]; [reflexivity|]. cbn. now intros ->. Qed.

Lemma all_chars_last (p : ascii -> bool) (s : string) :
  s <> EmptyString -> all_chars p s = true -> test_last p s = true.
Proof.
  induction s as [|c r IH]; [intros H; now elim H|].
  intros _. cbn [all_chars]. rewrite andb_true_iff. intros [Hc Hr].
  destruct r as [|d r']; [exact Hc|].
  cbn [test_last]. apply IH; [discriminate|exact Hr].
Qed.

Lemma replace_trailing_id (p : ascii -> bool) (s : string) :
  test_last p s = false -> replace_trailing p s = s.
Proof.
  induction s as [|c r IH]; [reflexivity|].
  intros H. cbn [replace_trailing].
  destruct (p c && all_chars p r) eqn:E.
  - apply andb_true_iff in E as [Hc Hr].
    rewrite (all_chars_last p (String c r)) in H; [discriminate H|discriminate|].
    cbn [all_chars]. now rewrite Hc, Hr.
  - f_equal. apply IH. destruct r as [|d r']; [reflexivity|exact H].
Qed.

Lemma replace_runs_id (p : ascii -> bool) (s : string) :
  (forall c, In c (chars s) -> p c = true -> c = "-"%char) ->
  test_two p s = false ->
  replace_runs p s = s /\ (test_first p s = false -> skip_run p s = s).
Proof.
  induction s as [|c r IH]; [now split|].
  intros Hdash. cbn [test_two]. rewrite orb_false_iff. intros [Hadj Htwo].
  destruct IH as [IH1 IH2]; [intros d Hd; apply Hdash; now right|exact Htwo|].
  cbn [replace_runs skip_run test_first]. destruct (p c) eqn:Hc.
  - split; [|discriminate].
    rewrite (Hdash c (or_introl eq_refl) Hc). f_equal.
    apply IH2. cbn [andb] in Hadj. exact Hadj.
  - rewrite IH1. now split.
Qed.

(** X8. A name that is already made of lowercase letters, digits and
    single dashes, does not start with a digit and does not end with a dash
    is its own suggestion. *)
Theorem suggestValidName_fixed (name : string) :
  name <> EmptyString ->
  (forall c, In c (chars name) -> In c suggestion_alphabet) ->
  ~ starts_with digits name ->
  ~ ends_with ["-"]%char name ->
  ~ consecutive ["-"]%char name ->
  suggestValidName name = name.
Proof.
  intros Hne Hin Hdig Hend Hcons.
  pose proof (In_clean name Hin) as Hclean.
  destruct (clean_name_rules name Hne Hclean)
    as (Htrim & Hlow & _ & Hst & Hend' & Hco & _ & _).
  assert (Hname : all_chars name_char name = true).
  { revert Hclean. apply all_chars_impl. intros c Hc.
    now apply clean_facts in Hc. }
  rewrite suggestValidName_cases. unfold collapsed.
  rewrite Htrim, Hlow.
  assert (E1 : replace_outside name_char name = name).
  { unfold replace_outside.
    apply (map_chars_id name_char); [|exact Hname].
    now intros c ->. }
  rewrite E1.
  rewrite (replace_leading_id dot_underscore name).
  2:{ apply not_true_false. intros E. apply Hst.
      now apply (starts_with_test "._"). }
  rewrite (replace_trailing_id dot_dash name).
  2:{ apply not_true_false. intros E. apply Hend, Hend'.
      now apply (ends_with_test ".-"). }
  assert (Hsep : forall c, In c (chars name) -> separator c = true ->
                           c = "-"%char).
  { intros c Hc. apply (all_chars_In clean name) in Hc; [|exact Hclean].
    now apply clean_facts in Hc. }
  assert (Htwo : test_two separator name = false).
  { apply not_true_false. intros E.
    destruct (test_two_inv _ _ E) as (a & c & d & b & Hn & Hc & Hd).
    apply Hcons. exists a, c, d, b. split; [exact Hn|].
    assert (Happ : forall x y z, In z (chars (x ++ String z y))).
    { intros x y z. induction x as [|w x IH]; [now left|now right]. }
    split; left; symmetry; apply Hsep; try assumption; rewrite Hn.
    - apply Happ.
    - rewrite <- append_snoc. apply Happ. }
  rewrite (proj1 (replace_runs_id separator name Hsep Htwo)).
  cbv zeta. destruct name as [|c r]; [now elim Hne|].
  cbn [is_empty test_first].
  destruct (is_digit c) eqn:Hd; [|reflexivity].
  elim Hdig. exists c, r. split; [reflexivity|].
  apply (one_of_In "0123456789"). now rewrite <- is_digit_alphabet.
Qed.

Lemma suggestValidName_fixed_witness :
  suggestValidName "koa-api-server2" = "koa-api-server2".
Proof.
  apply suggestValidName_fixed.
  - discriminate.
  - intros c Hc. vm_compute in Hc. vm_compute.
    repeat (destruct Hc as [<-|Hc]; [tauto|]). destruct Hc.
  - intros H. apply (starts_with_test "0123456789") in H. discriminate H.
  - intros H. apply (ends_with_test "-") in H. discriminate H.
  - intros H. apply (consecutive_test "-") in H. discriminate H.
Defined.
End SuggestionShape.

(* ================================================================= *)
(** * Further properties of the configuration manager *)

Section MergeLaws.
Import ConfigurationManager Priority.

Lemma over_assoc {A : Type} (a b c : option A) :
  over (over a b) c = over a (over b c).
Proof. now destruct c. Qed.

Lemma over_None_l {A : Type} (a : option A) : over None a = a.
Proof. now destruct a. Qed.

Lemma FeatureSet_spread_laws :
  (forall a b c, FeatureSet.spread (FeatureSet.spread a b) c
                 = FeatureSet.spread a (FeatureSet.spread b c))
  /\ (forall a, FeatureSet.spread FeatureSet.empty a = a).
Proof.
  split.
  - intros a b c. unfold FeatureSet.spread. cbn. now rewrite !over_assoc.
  - intros []. unfold FeatureSet.spread. cbn. now rewrite !over_None_l.
Qed.

Lemma DatabaseConfig_spread_laws :
  (forall a b c, DatabaseConfig.spread (DatabaseConfig.spread a b) c
                 = DatabaseConfig.spread a (DatabaseConfig.spread b c))
  /\ (forall a, DatabaseConfig.spread DatabaseConfig.empty a = a).
Proof.
  split.
  - intros a b c. unfold DatabaseConfig.spread. cbn. now rewrite !over_assoc.
  - intros []. unfold DatabaseConfig.spread. cbn. now rewrite !over_None_l.
Qed.

Lemma CacheConfig_spread_laws :
  (forall a b c, CacheConfig.spread (CacheConfig.spread a b) c
                 = CacheConfig.spread a (CacheConfig.spread b c))
  /\ (forall a, CacheConfig.spread CacheConfig.empty a = a).
Proof.
  split.
  - intros a b c. unfold CacheConfig.spread. cbn. now rewrite !over_assoc.
  - intros []. unfold CacheConfig.spread. cbn. now rewrite !over_None_l.
Qed.

Lemma AuthConfig_spread_laws :
  (forall a b c, AuthConfig.spread (AuthConfig.spread a b) c
                 = AuthConfig.spread a (AuthConfig.spread b c))
  /\ (forall a, AuthConfig.spread AuthConfig.empty a = a).
Proof.
  split.
  - intros a b c. unfold AuthConfig.spread. cbn. now rewrite !over_assoc.
  - intros []. unfold AuthConfig.spread. cbn. now rewrite !over_None_l.
Qed.

Section Nested.
Context {O : Type} (spread : O -> O -> O) (empty : O).
Hypothesis spread_assoc :
  forall a b c, spread (spread a b) c = spread a (spread b c).
Hypothesis spread_empty : forall a, spread empty a = a.

Lemma nested_assoc (a b c : option O) :
  nested spread empty (nested spread empty a b) c
  = nested spread empty a (nested spread empty b c).
Proof.
  destruct c as [cv|]; [|reflexivity].
  destruct b as [bv|], a as [av|]; cbn;
    rewrite ?spread_assoc, ?spread_empty; reflexivity.
Qed.

Lemma nested_empty_l (a : option O) : nested spread empty None a = a.
Proof. destruct a as [av|]; cbn; [now rewrite spread_empty|reflexivity]. Qed.
End Nested.

(** X9. [mergeConfig] is a monoid on the partial configurations: merging
    the empty object changes nothing, merging into the empty object copies the
    source, merging is associative, and merging the same source twice is
    merging it once.  [applyConfigurationPriority] is the merge of the
    command line into the merge of the configuration file into the
    interactive fragment. *)
Theorem mergeConfig_monoid :
  (forall t, mergeConfig t PartialConfiguration.empty = t)
  /\ (forall s, mergeConfig PartialConfiguration.empty s = s)
  /\ (forall a b c,
         mergeConfig (mergeConfig a b) c = mergeConfig a (mergeConfig b c))
  /\ (forall t s, mergeConfig (mergeConfig t s) s = mergeConfig t s)
  /\ (forall configs,
         applyConfigurationPriority configs
         = mergeConfig
             (mergeConfig (ConfigurationPriority.interactive configs)
                          (ConfigurationPriority.configFile configs))
             (ConfigurationPriority.commandLine configs)).
Proof.
  destruct FeatureSet_spread_laws as [Fa Fe].
  destruct DatabaseConfig_spread_laws as [Da De].
  destruct CacheConfig_spread_laws as [Ca Ce].
  destruct AuthConfig_spread_laws as [Aa Ae].
  assert (Hleft : forall s, mergeConfig PartialConfiguration.empty s = s).
  { intros s. rewrite mergeConfig_fields.
    cbn [PartialConfiguration.empty PartialConfiguration.name
         PartialConfiguration.template PartialConfiguration.features
         PartialConfiguration.database PartialConfiguration.cache
         PartialConfiguration.authentication
         PartialConfiguration.packageManager PartialConfiguration.typescript].
    rewrite !over_None_l, (nested_empty_l _ _ Fe), (nested_empty_l _ _ De),
      (nested_empty_l _ _ Ce), (nested_empty_l _ _ Ae).
    now destruct s. }
  repeat match goal with |- _ /\ _ => split end.
  - intros t. rewrite mergeConfig_fields. now destruct t.
  - exact Hleft.
  - intros a b c. rewrite !mergeConfig_fields.
    cbn [PartialConfiguration.name
         PartialConfiguration.template PartialConfiguration.features
         PartialConfiguration.database PartialConfiguration.cache
         PartialConfiguration.authentication
         PartialConfiguration.packageManager PartialConfiguration.typescript].
    rewrite !over_assoc, (nested_assoc _ _ Fa Fe), (nested_assoc _ _ Da De),
      (nested_assoc _ _ Ca Ce), (nested_assoc _ _ Aa Ae).
    reflexivity.
  - intros t s. rewrite !mergeConfig_fields.
    cbn [PartialConfiguration.name
         PartialConfiguration.template PartialConfiguration.features
         PartialConfiguration.database PartialConfiguration.cache
         PartialConfiguration.authentication
         PartialConfiguration.packageManager PartialConfiguration.typescript].
    rewrite !over_idem.
    rewrite (nested_idem _ _ _ _ FeatureSet_spread_idem),
      (nested_idem _ _ _ _ DatabaseConfig_spread_idem),
      (nested_idem _ _ _ _ CacheConfig_spread_idem),
      (nested_idem _ _ _ _ AuthConfig_spread_idem).
    reflexivity.
  - intros configs. unfold applyConfigurationPriority. now rewrite Hleft.
Qed.
End MergeLaws.

Section Failures.
Import ConfigurationManager Priority Async.
Variable lib : Platform.Lib.

Lemma truthy_iff (v : string) : Js.truthy v = true <-> v <> EmptyString.
Proof. destruct v; cbn; split; congruence. Qed.

(** X10. [mergeConfigurations] fails only on the configuration file, and
    says why: the file named on the command line is missing; or reading it
    fails; or its extension, in any letter case, is none of .json, .yaml and
    .yml; or the parser chosen by the extension (JSON for .json, YAML for the
    two others) throws.  The message is always "配置文件解析失败: " followed by
    the message of the cause, the one of the reader or of the parser word
    for word.  Options and answers alone never make it fail. *)
Theorem mergeConfigurations_failures (projectName : string)
    (opts : CommandLineOptions.t) (answers : option PromptAnswers.t)
    (w : Platform.World) (message : string) :
  fst (mergeConfigurations lib projectName opts answers w) = inl message
  <-> exists path cause,
        CommandLineOptions.config opts = Some path
        /\ path <> EmptyString
        /\ message = "配置文件解析失败: " ++ cause
        /\ ((Platform.pathExists w path = false
             /\ cause = "配置文件不存在: " ++ path)
            \/ (Platform.pathExists w path = true
                /\ Platform.readFile w path = inl cause)
            \/ (Platform.pathExists w path = true
                /\ exists content,
                     Platform.readFile w path = inr content
                     /\ let ext := Js.toLowerCase (Platform.extname lib path) in
                        (ext = ".json"
                         /\ Platform.JSON_parse lib content = inl cause)
                        \/ ((ext = ".yaml" \/ ext = ".yml")
                            /\ Platform.yaml_load lib content = inl cause)
                        \/ (ext <> ".json" /\ ext <> ".yaml" /\ ext <> ".yml"
                            /\ cause = "不支持的配置文件格式: " ++ ext
                                       ++ "。支持的格式: .json, .yaml, .yml"))).
Proof.
  rewrite mergeConfigurations_run. cbn [fst]. unfold configFileOptions.
  destruct (CommandLineOptions.config opts) as [path|].
  2:{ split; [discriminate|]. intros (p & c & Hp & _). discriminate Hp. }
  destruct (Js.truthy path) eqn:Htr.
  2:{ split; [discriminate|]. intros (p & c & [= <-] & Hne & _).
      apply truthy_iff in Hne. congruence. }
  apply truthy_iff in Htr.
  rewrite loadConfigFile_cases. cbn [fst]. cbv zeta.
  remember (Js.toLowerCase (Platform.extname lib path)) as ext eqn:Eext.
  split.
  - (* from the run to its cause *)
    intros Hrun.
    destruct (Platform.pathExists w path) eqn:Hex.
    2:{ injection Hrun as <-. exists path, ("配置文件不存在: " ++ path).
        repeat split; auto. }
    destruct (Platform.readFile w path) as [e|content] eqn:Hrd.
    { injection Hrun as <-. exists path, e. repeat split; auto. }
    destruct (String.eqb_spec ext ".json") as [Ej|Ej].
    { destruct (Platform.JSON_parse lib content) as [e|d] eqn:Hp;
        [|discriminate Hrun].
      injection Hrun as <-. exists path, e. repeat split; auto.
      right. right. split; [exact Hex|]. exists content.
      split; [exact Hrd|]. cbv zeta. rewrite <- Eext. left. now split. }
    destruct ((ext =? ".yaml") || (ext =? ".yml")) eqn:Ey.
    { destruct (Platform.yaml_load lib content) as [e|d] eqn:Hp;
        [|discriminate Hrun].
      injection Hrun as <-. exists path, e. repeat split; auto.
      right. right. split; [exact Hex|]. exists content.
      split; [exact Hrd|]. cbv zeta. rewrite <- Eext. right. left. split; [|exact Hp].
      apply orb_true_iff in Ey as [Ey|Ey]; apply String.eqb_eq in Ey; tauto. }
    apply orb_false_iff in Ey as [Ey Em].
    apply String.eqb_neq in Ey, Em.
    injection Hrun as <-.
    exists path, ("不支持的配置文件格式: " ++ ext
                  ++ "。支持的格式: .json, .yaml, .yml").
    repeat split; auto.
    right. right. split; [exact Hex|]. exists content.
    split; [exact Hrd|]. cbv zeta. rewrite <- Eext. right. right. repeat split; assumption.
  - (* from the cause to the run *)
    intros (p & c & [= <-] & _ & -> & Hcause).
    destruct Hcause as [[Hex ->]|[[Hex Hrd]|[Hex (content & Hrd & Hc)]]];
      rewrite Hex; [reflexivity|now rewrite Hrd|].
    rewrite Hrd. cbv zeta in Hc. rewrite <- Eext in Hc.
    destruct Hc as [[Ej Hp]|[[Ey Hp]|(Ej & Ey & Em & ->)]].
    + rewrite Ej, Hp. reflexivity.
    + assert (Hy : (ext =? ".yaml") || (ext =? ".yml") = true).
      { destruct Ey as [->| ->]; reflexivity. }
      assert (Hj : (ext =? ".json") = false).
      { destruct Ey as [->| ->]; reflexivity. }
      rewrite Hj, Hy, Hp. reflexivity.
    + apply String.eqb_neq in Ej, Ey, Em. rewrite Ej, Ey, Em. reflexivity.
Qed.

End Failures.

Lemma mergeConfigurations_failures_witness :
  fst (ConfigurationManager.mergeConfigurations Scenario.lib "shop"
         (CommandLineOptions.mk None (Some "missing.json") None None None None
                                None)
         None Scenario.world)
  = inl "配置文件解析失败: 配置文件不存在: missing.json".
Proof.
  apply (mergeConfigurations_failures Scenario.lib).
  exists "missing.json", "配置文件不存在: missing.json".
  split; [reflexivity|]. split; [discriminate|]. split; [reflexivity|].
  left. split; reflexivity.
Defined.

Section ResolvedShape.
Import ConfigurationManager Priority Resolved.

Lemma over_Some_r {A : Type} (a : option A) (v : A) : over a (Some v) = Some v.
Proof. reflexivity. Qed.

Lemma over_Some_l {A : Type} (v : A) (a : option A) : over (Some v) a <> None.
Proof. now destruct a. Qed.

(** X11. The configuration that [mergeConfigurations] returns always has
    all six features; and when the interactive answers are complete in the
    sense of their interfaces, so is the result: a database has type, host,
    port and name, a cache has type, host and port, an authentication has a
    type, so that [validateConfiguration] never meets a missing one. *)
Theorem resolved_configuration_complete (lib : Platform.Lib)
    (projectName : string) (opts : CommandLineOptions.t)
    (answers : option PromptAnswers.t) (w : Platform.World)
    (config : ProjectConfiguration.t) :
  fst (mergeConfigurations lib projectName opts answers w) = inr config ->
  features_complete (ProjectConfiguration.features config)
  /\ (answers_complete answers -> configuration_complete config).
Proof.
  intros Hrun. apply run_inr in Hrun as (cf & Hcf & ->).
  destruct (configFileOptions_inr lib opts w cf Hcf) as [d ->].
  assert (Hfeat : forall merged,
            features_complete
              (ProjectConfiguration.features (finalConfig projectName merged))).
  { intros merged. unfold finalConfig, features_complete, FeatureSet.spread.
    cbn [ProjectConfiguration.features FeatureSet.logging FeatureSet.cors
         FeatureSet.helmet FeatureSet.rateLimit FeatureSet.swagger
         FeatureSet.redis defaultFeatures].
    repeat split; apply over_Some_l. }
  split; [apply Hfeat|].
  intros Hans. split; [apply Hfeat|].
  destruct (merged_nested_fields opts (convertConfigFileFormat d)
              (interactiveConfig answers)) as (_ & Hd & Hc & Ha).
  cbv zeta in Hd, Hc, Ha.
  destruct (interactiveConfig_optional answers) as (Id & Ic & Ia).
  unfold finalConfig.
  cbn [ProjectConfiguration.database ProjectConfiguration.cache
       ProjectConfiguration.authentication].
  rewrite Hd, Hc, Ha, Id, Ic, Ia. clear Hd Hc Ha Id Ic Ia.
  rewrite convertConfigFileFormat_fields.
  cbn [PartialConfiguration.database PartialConfiguration.cache
       PartialConfiguration.authentication].
  assert (Hparts :
            if_present database_complete (answered PromptAnswers.database answers)
            /\ if_present cache_complete (answered PromptAnswers.cache answers)
            /\ if_present authentication_complete
                 (answered PromptAnswers.authentication answers)).
  { destruct answers as [a|].
    - destruct (Hans a eq_refl) as (_ & H). exact H.
    - split; [|split]; intros o Ho; discriminate Ho. }
  destruct Hparts as (Pd & Pc & Pa).
  split; [|split].
  - intros o Ho.
    destruct (ConfigFileFormat.database d) as [db|].
    + cbn in Ho. injection Ho as <-.
      destruct (answered PromptAnswers.database answers);
        repeat split; discriminate.
    + destruct (answered PromptAnswers.database answers) as [iv|] eqn:E;
        [|discriminate Ho].
      cbn in Ho. injection Ho as <-.
      destruct (Pd iv eq_refl) as (H1 & H2 & H3 & H4). destruct iv.
      cbn in H1, H2, H3, H4. repeat split; cbn; rewrite over_None_l; assumption.
  - intros o Ho.
    destruct (ConfigFileFormat.cache d) as [ch|].
    + cbn in Ho. injection Ho as <-.
      destruct (answered PromptAnswers.cache answers);
        repeat split; discriminate.
    + destruct (answered PromptAnswers.cache answers) as [iv|] eqn:E;
        [|discriminate Ho].
      cbn in Ho. injection Ho as <-.
      destruct (Pc iv eq_refl) as (H1 & H2 & H3). destruct iv.
      cbn in H1, H2, H3. repeat split; cbn; rewrite over_None_l; assumption.
  - intros o Ho.
    destruct (ConfigFileFormat.authentication d) as [au|].
    + cbn in Ho. injection Ho as <-.
      destruct (answered PromptAnswers.authentication answers); discriminate.
    + destruct (answered PromptAnswers.authentication answers) as [iv|] eqn:E;
        [|discriminate Ho].
      cbn in Ho. injection Ho as <-.
      pose proof (Pa iv eq_refl) as H1. destruct iv.
      unfold authentication_complete in *. cbn in H1. cbn.
      rewrite over_None_l. exact H1.
Qed.

Lemma resolved_configuration_complete_witness :
  exists config,
    fst (mergeConfigurations Scenario.lib "shop" Scenario.options
           (Some Scenario.answers) Scenario.world) = inr config
    /\ configuration_complete config.
Proof.
  destruct (fst (mergeConfigurations Scenario.lib "shop" Scenario.options
                   (Some Scenario.answers) Scenario.world))
    as [message|config] eqn:Hrun; [discriminate Hrun|].
  exists config. split; [reflexivity|].
  apply (proj2 (resolved_configuration_complete _ _ _ _ _ _ Hrun)).
  intros a [= <-].
  split; [repeat split; discriminate|split; [|split]].
  - intros part [= <-]. repeat split; discriminate.
  - intros part Hpart. discriminate Hpart.
  - intros part [= <-]. discriminate.
Defined.
End ResolvedShape.

Section FileValues.
Import ConfigurationManager Priority Resolved.

Lemma or_str_truthy (value : option string) (default : string) :
  Js.or_str value default = or_default (truthy_value value) default.
Proof.
  destruct value as [v|]; [|reflexivity].
  unfold Js.or_str, truthy_value. destruct (Js.truthy v); reflexivity.
Qed.

Lemma or_num_truthy (value : option Z) (default : Z) :
  Js.or_num value default = or_default (truthy_number value) default.
Proof.
  destruct value as [v|]; [|reflexivity].
  unfold Js.or_num, truthy_number. destruct (Js.truthyZ v); reflexivity.
Qed.

Lemma or_str_not_empty (value : option string) (default : string) :
  default <> EmptyString -> Js.or_str value default <> EmptyString.
Proof.
  intros Hd. destruct value as [[|c v]|]; cbn; try exact Hd. discriminate.
Qed.

Lemma or_num_not_zero (value : option Z) (default : Z) :
  default <> 0%Z -> Js.or_num value default <> 0%Z.
Proof.
  intros Hd. destruct value as [v|]; [|exact Hd].
  unfold Js.or_num, Js.truthyZ. destruct (Z.eqb_spec v 0); [exact Hd|assumption].
Qed.

Lemma truthy_value_not_empty (value : option string) :
  truthy_value value <> Some EmptyString.
Proof. destruct value as [[|c v]|]; cbn; discriminate. Qed.

(** X12. In the fragment that [convertConfigFileFormat] makes of a
    configuration file, a value that is there but falsy counts as missing:
    an empty template or package manager is left out, and in a database, a
    cache or an authentication an empty string or a port 0 is replaced by
    the default like a missing one.  So no string of the fragment is empty
    and the port of a database or a cache is never 0; the user name, the
    password and the secret that the file may hold are dropped. *)
Theorem config_file_falsy_values (d : ConfigFileFormat.t) :
  let n := convertConfigFileFormat d in
  PartialConfiguration.template n = truthy_value (ConfigFileFormat.template d)
  /\ PartialConfiguration.packageManager n
     = truthy_value (ConfigFileFormat.packageManager d)
  /\ PartialConfiguration.template n <> Some EmptyString
  /\ PartialConfiguration.packageManager n <> Some EmptyString
  /\ (forall db, ConfigFileFormat.database d = Some db ->
        exists type host port name,
          PartialConfiguration.database n
          = Some (DatabaseConfig.mk (Some type) (Some host) (Some port)
                                    (Some name) None None)
          /\ type = or_default (truthy_value (DatabaseConfig.type db)) "mysql"
          /\ host = or_default (truthy_value (DatabaseConfig.host db))
                               "localhost"
          /\ port = or_default (truthy_number (DatabaseConfig.port db)) 3306%Z
          /\ name = or_default (truthy_value (DatabaseConfig.database db))
                               "myapp"
          /\ type <> EmptyString /\ host <> EmptyString
          /\ port <> 0%Z /\ name <> EmptyString)
  /\ (forall ch, ConfigFileFormat.cache d = Some ch ->
        exists host port index,
          PartialConfiguration.cache n
          = Some (CacheConfig.mk (Some "redis") (Some host) (Some port)
                                 None (Some index))
          /\ host = or_default (truthy_value (CacheConfig.host ch)) "localhost"
          /\ port = or_default (truthy_number (CacheConfig.port ch)) 6379%Z
          /\ index = or_default (CacheConfig.database ch) 0%Z
          /\ host <> EmptyString /\ port <> 0%Z)
  /\ (forall au, ConfigFileFormat.authentication d = Some au ->
        exists type expiresIn,
          PartialConfiguration.authentication n
          = Some (AuthConfig.mk (Some type) None (Some expiresIn))
          /\ type = or_default (truthy_value (AuthConfig.type au)) "jwt"
          /\ expiresIn
             = or_default (truthy_value (AuthConfig.expiresIn au)) "7d"
          /\ type <> EmptyString /\ expiresIn <> EmptyString).
Proof.
  intros n. subst n. rewrite convertConfigFileFormat_fields.
  cbn [PartialConfiguration.template PartialConfiguration.packageManager
       PartialConfiguration.database PartialConfiguration.cache
       PartialConfiguration.authentication].
  split; [reflexivity|]. split; [reflexivity|].
  split; [apply truthy_value_not_empty|].
  split; [apply truthy_value_not_empty|].
  split; [|split].
  - intros db ->. do 4 eexists. split; [reflexivity|].
    rewrite <- !or_str_truthy, <- or_num_truthy.
    repeat match goal with |- _ /\ _ => split end; try reflexivity;
      try (apply or_str_not_empty; discriminate).
    apply or_num_not_zero; discriminate.
  - intros ch ->. do 3 eexists. split; [reflexivity|].
    rewrite <- !or_str_truthy, <- or_num_truthy.
    repeat match goal with |- _ /\ _ => split end; try reflexivity;
      try (apply or_str_not_empty; discriminate).
    + destruct (CacheConfig.database ch) as [v|]; [|reflexivity].
      unfold Js.or_num, Js.truthyZ. cbn [or_default].
      destruct (Z.eqb_spec v 0); [symmetry; assumption|reflexivity].
    + apply or_num_not_zero; discriminate.
  - intros au ->. do 2 eexists. split; [reflexivity|].
    rewrite <- !or_str_truthy.
    repeat match goal with |- _ /\ _ => split end; try reflexivity;
      apply or_str_not_empty; discriminate.
Qed.

(** X13. Template, package manager and typescript of the configuration
    that [mergeConfigurations] returns, in terms of what came in: the
    template is the first non-empty one of command line, configuration
    file and answers, and "basic" when there is none; the package manager
    likewise, with "pnpm"; typescript is the first value that is defined,
    [false] included, and [true] when there is none. *)
Theorem scalars_from_sources (lib : Platform.Lib) (projectName : string)
    (opts : CommandLineOptions.t) (answers : option PromptAnswers.t)
    (w : Platform.World) (d : ConfigFileFormat.t)
    (config : ProjectConfiguration.t) :
  fst (configFileOptions lib opts w) = inr (convertConfigFileFormat d) ->
  fst (mergeConfigurations lib projectName opts answers w) = inr config ->
  ProjectConfiguration.template config
  = or_default
      (first_defined
         [truthy_value (CommandLineOptions.template opts);
          truthy_value (ConfigFileFormat.template d);
          truthy_value (answered (fun a => Some (PromptAnswers.template a))
                                 answers)])
      "basic"
  /\ ProjectConfiguration.packageManager config
     = or_default
         (first_defined
            [truthy_value (CommandLineOptions.packageManager opts);
             truthy_value (ConfigFileFormat.packageManager d);
             truthy_value
               (answered (fun a => Some (PromptAnswers.packageManager a))
                         answers)])
         "pnpm"
  /\ ProjectConfiguration.typescript config
     = or_default
         (first_defined
            [CommandLineOptions.typescript opts;
             ConfigFileFormat.typescript d;
             answered (fun a => Some (PromptAnswers.typescript a)) answers])
         true.
Proof.
  intros Hcf Hrun. rewrite mergeConfigurations_run in Hrun. cbn [fst] in Hrun.
  rewrite Hcf in Hrun. injection Hrun as <-.
  rewrite applyConfigurationPriority_fields. cbv zeta.
  unfold finalConfig, by_priority.
  cbn [ProjectConfiguration.template ProjectConfiguration.packageManager
       ProjectConfiguration.typescript PartialConfiguration.template
       PartialConfiguration.packageManager PartialConfiguration.typescript
       ConfigurationPriority.commandLine ConfigurationPriority.configFile
       ConfigurationPriority.interactive].
  rewrite convertCommandLineOptions_fields, convertConfigFileFormat_fields.
  cbn [PartialConfiguration.template PartialConfiguration.packageManager
       PartialConfiguration.typescript].
  fold (truthy_value (CommandLineOptions.template opts)).
  fold (truthy_value (CommandLineOptions.packageManager opts)).
  fold (truthy_value (ConfigFileFormat.template d)).
  fold (truthy_value (ConfigFileFormat.packageManager d)).
  assert (Hstr : forall (a b c : option string) (default : string),
            a <> Some EmptyString -> b <> Some EmptyString ->
            Js.or_str (first_defined [a; b; c]) default
            = or_default (first_defined [a; b; truthy_value c]) default).
  { intros [[|x a]|] [[|y b]|] [[|z c]|] default Ha Hb;
      try reflexivity; congruence. }
  split; [|split].
  - rewrite Hstr by apply truthy_value_not_empty.
    destruct answers as [a|]; unfold interactiveConfig;
      rewrite ?convertInteractiveAnswers_fields; reflexivity.
  - rewrite Hstr by apply truthy_value_not_empty.
    destruct answers as [a|]; unfold interactiveConfig;
      rewrite ?convertInteractiveAnswers_fields; reflexivity.
  - destruct (CommandLineOptions.typescript opts) as [v|]; [reflexivity|].
    destruct (ConfigFileFormat.typescript d) as [v|]; [reflexivity|].
    destruct answers as [a|]; unfold interactiveConfig;
      rewrite ?convertInteractiveAnswers_fields; reflexivity.
Qed.

Lemma scalars_from_sources_witness :
  exists config,
    fst (mergeConfigurations Scenario.lib "shop" Scenario.options
           (Some Scenario.answers) Scenario.world) = inr config
    /\ ProjectConfiguration.template config = "api"
    /\ ProjectConfiguration.packageManager config = "npm"
    /\ ProjectConfiguration.typescript config = true.
Proof.
  destruct (fst (mergeConfigurations Scenario.lib "shop" Scenario.options
                   (Some Scenario.answers) Scenario.world))
    as [message|config] eqn:Hrun; [discriminate Hrun|].
  exists config. split; [reflexivity|].
  assert (Hcf : fst (configFileOptions Scenario.lib Scenario.options
                       Scenario.world)
                = inr (convertConfigFileFormat Scenario.fileData))
    by (vm_compute; reflexivity).
  destruct (scalars_from_sources _ _ _ _ _ _ _ Hcf Hrun) as (Ht & Hp & Hs).
  rewrite Ht, Hp, Hs. vm_compute. repeat split.
Defined.
End FileValues.

Section ValidationFrame.
Import ConfigurationManager Resolved.

(** X14. [validateConfiguration] looks at the name, the template, the
    package manager, the type and port of a database, the type and port of
    a cache and the type of an authentication, and at nothing else: two
    configurations that agree on these get the same verdict and the same
    messages, whatever their features, typescript flag, hosts, database
    name, credentials, secret and expiry. *)
Theorem validateConfiguration_reads (c c' : ProjectConfiguration.t) :
  validated_part c = validated_part c' ->
  validateConfiguration c = validateConfiguration c'.
Proof.
  destruct c as [n t f db ch au pm ts], c' as [n' t' f' db' ch' au' pm' ts'].
  unfold validated_part, validateConfiguration.
  cbn [ProjectConfiguration.name ProjectConfiguration.template
       ProjectConfiguration.packageManager ProjectConfiguration.database
       ProjectConfiguration.cache ProjectConfiguration.authentication].
  intros H. injection H as -> -> -> Hdb Hch Hau.
  destruct db as [[]|], db' as [[]|]; try discriminate Hdb;
    destruct ch as [[]|], ch' as [[]|]; try discriminate Hch;
    destruct au as [[]|], au' as [[]|]; try discriminate Hau;
    cbn [option_map DatabaseConfig.type DatabaseConfig.port CacheConfig.type
         CacheConfig.port AuthConfig.type] in Hdb, Hch, Hau;
    try (injection Hdb as -> ->); try (injection Hch as -> ->);
    try (injection Hau as ->); reflexivity.
Qed.

Lemma validateConfiguration_reads_witness :
  validateConfiguration
    (ProjectConfiguration.mk "shop" "api" defaultFeatures
       (Some (DatabaseConfig.mk (Some "mysql") (Some "db.internal")
                                (Some 3306%Z) (Some "shop") (Some "root")
                                None))
       None None "npm" true)
  = validateConfiguration
      (ProjectConfiguration.mk "shop" "api" FeatureSet.empty
         (Some (DatabaseConfig.mk (Some "mysql") None (Some 3306%Z) None None
                                  None))
         None None "npm" false).
Proof. apply validateConfiguration_reads. reflexivity. Defined.
End ValidationFrame.

Section CreateCommandRuns.
Import Async CreateCommand.
Variable lib : Platform.Lib.
Variable resolve : string -> string.
Variable fs_remove : string -> M unit.
Variable runPrompts : M PromptAnswers.t.

Lemma checkDirectoryConflict_run (targetPath : string) (force : option bool)
    (w : Platform.World) :
  checkDirectoryConflict fs_remove targetPath force w
  = if Platform.pathExists w targetPath then
      if truthy_flag force then fs_remove targetPath w
      else (inl ("目录已存在: " ++ targetPath
                 ++ "。使用 --force 选项强制覆盖。")%string, w)
    else (inr tt, w).
Proof.
  unfold checkDirectoryConflict, bind, fs_pathExists, throw, ret.
  destruct (Platform.pathExists w targetPath); [|reflexivity].
  destruct (truthy_flag force); reflexivity.
Qed.

Lemma createProject_run (projectName : string) (options : CommandLineOptions.t)
    (w : Platform.World) :
  createProject lib resolve fs_remove runPrompts projectName options w
  = if ValidationResult.valid (InputValidator.validateProjectName projectName)
    then
      match checkDirectoryConflict fs_remove (resolve projectName)
              (CommandLineOptions.force options) w with
      | (inl message, w1) => (inl message, w1)
      | (inr _, w1) =>
          if truthy_opt (CommandLineOptions.config options)
          then verdict lib projectName options None w1
          else
            match runPrompts w1 with
            | (inl message, w2) => (inl message, w2)
            | (inr answers, w2) =>
                verdict lib projectName options (Some answers) w2
            end
      end
    else (inl ("Invalid project name: " ++ projectName)%string, w).
Proof.
  destruct options as [template config skipInstall packageManager typescript
                       git force].
  unfold createProject. cbv zeta.
  cbn [CommandLineOptions.template CommandLineOptions.config
       CommandLineOptions.skipInstall CommandLineOptions.packageManager
       CommandLineOptions.typescript CommandLineOptions.git
       CommandLineOptions.force].
  destruct (ValidationResult.valid
              (InputValidator.validateProjectName projectName));
    cbn [negb]; [|reflexivity].
  unfold bind at 1.
  destruct (checkDirectoryConflict fs_remove (resolve projectName) force w)
    as [[message|checked] w1]; [reflexivity|].
  assert (Htail : forall answers w2,
            bind (ConfigurationManager.mergeConfigurations lib projectName
                    (CommandLineOptions.mk template config skipInstall
                       packageManager typescript git force) answers)
                 (fun projectConfig =>
                    if negb (ConfigurationValidation.valid
                               (ConfigurationManager.validateConfiguration
                                  projectConfig))
                    then throw "Configuration validation failed"
                    else ret tt) w2
            = verdict lib projectName
                (CommandLineOptions.mk template config skipInstall
                   packageManager typescript git force) answers w2).
  { intros answers w2. unfold bind, verdict.
    rewrite mergeConfigurations_run.
    cbn [fst].
    destruct (fst (ConfigurationManager.configFileOptions lib _ w2))
      as [message|cf]; [reflexivity|].
    destruct (ConfigurationValidation.valid _); reflexivity. }
  unfold needsInteractiveInput.
  cbn [CommandLineOptions.config].
  destruct (truthy_opt config); cbn [negb].
  - unfold bind at 1. unfold try_catch, ret at 1 2. cbv beta iota.
    unfold bind at 1. unfold ret at 1. cbv beta iota. apply Htail.
  - unfold bind at 1. unfold ret at 1. cbv beta iota.
    unfold bind at 1. unfold bind at 1.
    destruct (runPrompts w1) as [[message|answers] w2]; [reflexivity|].
    unfold ret at 1. cbv beta iota. apply Htail.
Qed.
End CreateCommandRuns.

Section CreateCommandFacts.
Import Async CreateCommand.
Variable lib : Platform.Lib.
Variable resolve : string -> string.
Variable fs_remove : string -> M unit.
Variable runPrompts : M PromptAnswers.t.

(** X15. [createProject] refuses a name that [validateProjectName] finds
    invalid before anything else happens: it throws "Invalid project name:"
    with the name as given, and the world is as it was; no directory is
    looked up or removed, no question asked, no file read. *)
Theorem createProject_rejects_name (projectName : string)
    (options : CommandLineOptions.t) (w : Platform.World) :
  ValidationResult.valid (InputValidator.validateProjectName projectName)
  = false ->
  createProject lib resolve fs_remove runPrompts projectName options w
  = (inl ("Invalid project name: " ++ projectName)%string, w).
Proof. intros Hname. rewrite createProject_run, Hname. reflexivity. Qed.

(** X16. With a valid name whose directory is there already,
    [createProject] without [--force] throws the message that names the
    resolved path and the option, and leaves the world as it was: nothing
    is removed, asked or read. *)
Theorem createProject_directory_conflict (projectName : string)
    (options : CommandLineOptions.t) (w : Platform.World) :
  ValidationResult.valid (InputValidator.validateProjectName projectName)
  = true ->
  Platform.pathExists w (resolve projectName) = true ->
  truthy_flag (CommandLineOptions.force options) = false ->
  createProject lib resolve fs_remove runPrompts projectName options w
  = (inl ("目录已存在: " ++ resolve projectName
          ++ "。使用 --force 选项强制覆盖。")%string, w).
Proof.
  intros Hname Hthere Hforce.
  rewrite createProject_run, Hname, checkDirectoryConflict_run, Hthere, Hforce.
  reflexivity.
Qed.

Lemma verdict_without_file (library library' : Platform.Lib)
    (projectName : string) (options : CommandLineOptions.t)
    (answers : option PromptAnswers.t) (w : Platform.World) :
  truthy_opt (CommandLineOptions.config options) = false ->
  verdict library projectName options answers w
  = verdict library' projectName options answers w.
Proof.
  intros Hconfig. unfold verdict.
  rewrite !mergeConfigurations_run. cbn [fst].
  unfold ConfigurationManager.configFileOptions.
  destruct (CommandLineOptions.config options) as [path|]; [|reflexivity].
  cbn [truthy_opt] in Hconfig. rewrite Hconfig. reflexivity.
Qed.

(** X17. [createProject] takes the configuration file or the answers of
    the prompter, never both.  With a non-empty [--config] path the
    prompter is not run: the outcome and the world are the same whatever
    the prompter would do.  With no path, or an empty one, no file is
    parsed: the outcome and the world are the same whatever [path], [JSON]
    and [js-yaml] would do. *)
Theorem createProject_one_source (projectName : string)
    (options : CommandLineOptions.t) (w : Platform.World) :
  (truthy_opt (CommandLineOptions.config options) = true ->
   forall prompter : M PromptAnswers.t,
     createProject lib resolve fs_remove prompter projectName options w
     = createProject lib resolve fs_remove runPrompts projectName options w)
  /\ (truthy_opt (CommandLineOptions.config options) = false ->
      forall library : Platform.Lib,
        createProject library resolve fs_remove runPrompts projectName
          options w
        = createProject lib resolve fs_remove runPrompts projectName
            options w).
Proof.
  split; intros Hconfig other.
  - rewrite !createProject_run. rewrite Hconfig. reflexivity.
  - rewrite !createProject_run. rewrite Hconfig.
    destruct (ValidationResult.valid _); [|reflexivity].
    destruct (checkDirectoryConflict _ _ _ w) as [[message|checked] w1];
      [reflexivity|].
    destruct (runPrompts w1) as [[message|answers] w2]; [reflexivity|].
    apply verdict_without_file. exact Hconfig.
Qed.

(** X18. A forced overwrite is not undone.  With a valid name, a
    directory that is there, [--force] and a [--config] path,
    [createProject] first removes the directory and then merges and
    validates; whatever comes of that, an unreadable file or an invalid
    configuration included, the world it leaves is the one after the
    removal, and its outcome is that of merge and validation there. *)
Theorem createProject_forced_removal_stays (projectName : string)
    (options : CommandLineOptions.t) (w w1 : Platform.World) :
  ValidationResult.valid (InputValidator.validateProjectName projectName)
  = true ->
  Platform.pathExists w (resolve projectName) = true ->
  truthy_flag (CommandLineOptions.force options) = true ->
  fs_remove (resolve projectName) w = (inr tt, w1) ->
  truthy_opt (CommandLineOptions.config options) = true ->
  let run :=
    createProject lib resolve fs_remove runPrompts projectName options w in
  snd run = w1
  /\ fst run = fst (verdict lib projectName options None w1)
  /\ forall message,
       fst (ConfigurationManager.mergeConfigurations lib projectName options
              None w1) = inl message ->
       run = (inl message, w1).
Proof.
  intros Hname Hthere Hforce Hremove Hconfig run. subst run.
  rewrite createProject_run, Hname, checkDirectoryConflict_run, Hthere, Hforce,
    Hremove, Hconfig.
  split; [reflexivity|]. split; [reflexivity|].
  intros message Hmerge. unfold verdict. rewrite Hmerge. reflexivity.
Qed.

End CreateCommandFacts.

Lemma createProject_rejects_name_witness :
  CreateCommand.createProject Scenario.lib CreateScenario.resolve
    CreateScenario.fs_remove CreateScenario.runPrompts "My Shop"
    Scenario.options CreateScenario.world
  = (inl "Invalid project name: My Shop", CreateScenario.world).
Proof.
  apply (createProject_rejects_name Scenario.lib CreateScenario.resolve
           CreateScenario.fs_remove CreateScenario.runPrompts "My Shop").
  vm_compute. reflexivity.
Defined.

Lemma createProject_directory_conflict_witness :
  fst (CreateCommand.createProject Scenario.lib CreateScenario.resolve
         CreateScenario.fs_remove CreateScenario.runPrompts "shop"
         CommandLineOptions.empty CreateScenario.world)
  = inl ("目录已存在: /work/shop"
         ++ "。使用 --force 选项强制覆盖。")%string.
Proof.
  rewrite (createProject_directory_conflict Scenario.lib
             CreateScenario.resolve CreateScenario.fs_remove
             CreateScenario.runPrompts "shop" CommandLineOptions.empty
             CreateScenario.world);
    vm_compute; reflexivity.
Defined.

Lemma createProject_one_source_witness :
  CreateCommand.createProject Scenario.lib CreateScenario.resolve
    CreateScenario.fs_remove CreateScenario.interrupted "shop"
    Scenario.options CreateScenario.world
  = CreateCommand.createProject Scenario.lib CreateScenario.resolve
      CreateScenario.fs_remove CreateScenario.runPrompts "shop"
      Scenario.options CreateScenario.world
  /\ CreateCommand.createProject
       (Platform.mkLib (fun _ => ".json") (fun _ => inl "Unexpected token")
                       (fun _ => inl "Unexpected token"))
       CreateScenario.resolve CreateScenario.fs_remove
       CreateScenario.runPrompts "store" CommandLineOptions.empty
       CreateScenario.world
     = CreateCommand.createProject Scenario.lib CreateScenario.resolve
         CreateScenario.fs_remove CreateScenario.runPrompts "store"
         CommandLineOptions.empty CreateScenario.world.
Proof.
  split.
  - apply (proj1 (createProject_one_source Scenario.lib
                    CreateScenario.resolve CreateScenario.fs_remove
                    CreateScenario.runPrompts "shop" Scenario.options
                    CreateScenario.world)).
    vm_compute. reflexivity.
  - apply (proj2 (createProject_one_source Scenario.lib
                    CreateScenario.resolve CreateScenario.fs_remove
                    CreateScenario.runPrompts "store" CommandLineOptions.empty
                    CreateScenario.world)).
    vm_compute. reflexivity.
Defined.

Lemma createProject_forced_removal_stays_witness :
  let options :=
    CommandLineOptions.mk None (Some "missing.json") None None None None
                          (Some true) in
  let run :=
    CreateCommand.createProject Scenario.lib CreateScenario.resolve
      CreateScenario.fs_remove CreateScenario.runPrompts "shop" options
      CreateScenario.world in
  Platform.pathExists CreateScenario.world "/work/shop" = true
  /\ Platform.pathExists (snd run) "/work/shop" = false
  /\ run
     = (inl "配置文件解析失败: 配置文件不存在: missing.json", snd run).
Proof.
  intros options run.
  destruct (CreateScenario.fs_remove (CreateScenario.resolve "shop")
              CreateScenario.world) as [outcome w1] eqn:Hremove.
  assert (Houtcome : outcome = inr tt)
    by (unfold CreateScenario.fs_remove in Hremove; congruence).
  subst outcome.
  destruct (createProject_forced_removal_stays Scenario.lib
              CreateScenario.resolve CreateScenario.fs_remove
              CreateScenario.runPrompts "shop" options CreateScenario.world w1)
    as (Hworld & _ & Hfail);
    [vm_compute; reflexivity|vm_compute; reflexivity|reflexivity|exact Hremove
    |vm_compute; reflexivity|].
  fold run in Hworld, Hfail.
  split; [vm_compute; reflexivity|].
  rewrite Hworld. split.
  - unfold CreateScenario.fs_remove in Hremove. injection Hremove as <-.
    vm_compute. reflexivity.
  - apply Hfail.
    unfold CreateScenario.fs_remove in Hremove. injection Hremove as <-.
    vm_compute. reflexivity.
Defined.

